(** * ALL-STAR BOT: moderation core

    A shallow embedding of the decision-making core of the bot: the
    database accessors ([Database.js]), the authorization, cooldown and
    validation middleware, the detection modules (AntiVirtex, AntiToxic,
    AntiLink, AntiSpam, GeoRestriction), the defense engine, the command
    dispatcher ([CommandManager.execute]) and the group join handler;
    further the message handler, the maintenance routines of the cooldown
    middleware and of the spam tracker, the command registry, and the
    owner commands [warn] and [blacklist].

    Conventions.
    - JavaScript strings that are inspected character by character (message
      bodies) are lists of UTF-16 code units ([jsString]); identifiers (JIDs,
      phone numbers, command names) are [string].
    - [Date.now()] is an explicit argument [now : Z] (milliseconds).
    - Mutable singletons ([db], [antiSpam.messageTracker],
      [cooldownMiddleware.globalCooldowns], the [lastIndex] of the stored
      global regular expressions) are fields of one explicit [World].
    - Calls to the transport ([bot.sendMessage], [bot.deleteMessage],
      [bot.kickParticipant]) are appended to [outbox] in call order; whether
      the socket accepts a call is decided by the [sockOk] oracle of the bot.
    - Log lines are not modelled; writes to the LowDB file always succeed. *)

From Stdlib Require Import ZArith Lia Ascii String.
From stdpp Require Import gmap strings list sorting.

(** ** JavaScript values *)

(** A message body: a sequence of UTF-16 code units. *)
Abbreviation jsString := (list Z).

(** [jid.split('@')[0]]: the part of a JID before the first [@]. *)
Fixpoint jidNumber (jid : string) : string :=
  match jid with
  | EmptyString => EmptyString
  | String c rest =>
      if Ascii.eqb c "@"%char then EmptyString else String c (jidNumber rest)
  end.

(** [list.includes(x)] on identifiers. *)
Definition includes (l : list string) (x : string) : bool :=
  bool_decide (x ∈ l).

Inductive DefenseMode := NORMAL | STRICT | LOCKDOWN | OtherMode.
Inductive Severity := sev_none | low | medium | high | critical.
Inductive Action := warn | mute | kick.

Global Instance DefenseMode_eq_dec : EqDecision DefenseMode.
Proof. solve_decision. Defined.
Global Instance Severity_eq_dec : EqDecision Severity.
Proof. solve_decision. Defined.
Global Instance Action_eq_dec : EqDecision Action.
Proof. solve_decision. Defined.

(** ** Database.js *)

Module Db.

(** [getDefaultGroupSettings]: the per-group toggles. A toggle is [None]
    when the stored object has no such key ([undefined]). *)
Record GroupSettings := {
  antiLink : option bool;
  antiSpam : option bool;
  antiToxic : option bool;
  antiVirtex : option bool;
  welcome : option bool;
  goodbye : option bool;
  geoRestriction : option bool;
  gDefenseMode : option DefenseMode
}.

Definition getDefaultGroupSettings : GroupSettings :=
  {| antiLink := Some true; antiSpam := Some true; antiToxic := Some true;
     antiVirtex := Some true; welcome := Some true; goodbye := Some true;
     geoRestriction := Some true; gDefenseMode := Some NORMAL |}.

Inductive BotMode := PUBLIC | SELF.

(** The part of [db.data] the moderation core reads and writes. *)
Record t := {
  botMode : option BotMode;                 (* config.botMode *)
  defenseMode : option DefenseMode;         (* config.defenseMode *)
  authors : list string;                    (* users.authors *)
  owners : list string;                     (* users.owners *)
  blacklisted : list string;                (* users.blacklisted *)
  disabled : list string;                   (* users.disabled *)
  muted : gmap string Z;                    (* users.muted[n].until *)
  warned : gmap string nat;                 (* users.warned *)
  cooldowns : gmap string (gmap string Z);  (* users.cooldowns *)
  whitelisted : list string;                (* groups.whitelisted *)
  protected : list string;                  (* groups.protected *)
  settings : gmap string GroupSettings;     (* groups.settings *)
  commands : gmap string nat;               (* statistics.commands *)
  violations : gmap string nat;             (* statistics.violations *)
  errorLog : list string                    (* system.errorLog *)
}.

Definition set_muted (f : gmap string Z → gmap string Z) (d : t) : t :=
  {| botMode := botMode d; defenseMode := defenseMode d; authors := authors d;
     owners := owners d; blacklisted := blacklisted d; disabled := disabled d;
     muted := f (muted d); warned := warned d; cooldowns := cooldowns d;
     whitelisted := whitelisted d; protected := protected d;
     settings := settings d; commands := commands d;
     violations := violations d; errorLog := errorLog d |}.

Definition set_warned (f : gmap string nat → gmap string nat) (d : t) : t :=
  {| botMode := botMode d; defenseMode := defenseMode d; authors := authors d;
     owners := owners d; blacklisted := blacklisted d; disabled := disabled d;
     muted := muted d; warned := f (warned d); cooldowns := cooldowns d;
     whitelisted := whitelisted d; protected := protected d;
     settings := settings d; commands := commands d;
     violations := violations d; errorLog := errorLog d |}.

Definition set_cooldowns
    (f : gmap string (gmap string Z) → gmap string (gmap string Z)) (d : t) : t :=
  {| botMode := botMode d; defenseMode := defenseMode d; authors := authors d;
     owners := owners d; blacklisted := blacklisted d; disabled := disabled d;
     muted := muted d; warned := warned d; cooldowns := f (cooldowns d);
     whitelisted := whitelisted d; protected := protected d;
     settings := settings d; commands := commands d;
     violations := violations d; errorLog := errorLog d |}.

Definition set_commands (f : gmap string nat → gmap string nat) (d : t) : t :=
  {| botMode := botMode d; defenseMode := defenseMode d; authors := authors d;
     owners := owners d; blacklisted := blacklisted d; disabled := disabled d;
     muted := muted d; warned := warned d; cooldowns := cooldowns d;
     whitelisted := whitelisted d; protected := protected d;
     settings := settings d; commands := f (commands d);
     violations := violations d; errorLog := errorLog d |}.

Definition set_violations (f : gmap string nat → gmap string nat) (d : t) : t :=
  {| botMode := botMode d; defenseMode := defenseMode d; authors := authors d;
     owners := owners d; blacklisted := blacklisted d; disabled := disabled d;
     muted := muted d; warned := warned d; cooldowns := cooldowns d;
     whitelisted := whitelisted d; protected := protected d;
     settings := settings d; commands := commands d;
     violations := f (violations d); errorLog := errorLog d |}.

Definition set_errorLog (f : list string → list string) (d : t) : t :=
  {| botMode := botMode d; defenseMode := defenseMode d; authors := authors d;
     owners := owners d; blacklisted := blacklisted d; disabled := disabled d;
     muted := muted d; warned := warned d; cooldowns := cooldowns d;
     whitelisted := whitelisted d; protected := protected d;
     settings := settings d; commands := commands d;
     violations := violations d; errorLog := f (errorLog d) |}.

(** *** User management *)

Definition isAuthor (d : t) (number : string) : bool := includes (authors d) number.
Definition isOwner (d : t) (number : string) : bool := includes (owners d) number.
Definition isAuthorOrOwner (d : t) (number : string) : bool :=
  isAuthor d number || isOwner d number.
Definition isBlacklisted (d : t) (number : string) : bool :=
  includes (blacklisted d) number.
Definition isDisabled (d : t) (number : string) : bool :=
  includes (disabled d) number.

(** *** Mute management *)

(** [addMute(number, duration)]: [duration] is in minutes. *)
Definition addMute (now : Z) (number : string) (duration : Z) (d : t) : t :=
  set_muted (λ m, <[number := (now + duration * 60 * 1000)%Z]> m) d.

(** *** Warning management *)

Definition getWarnCount (d : t) (number : string) : nat :=
  default 0 (warned d !! number).

(** [addWarn]: stores and returns the incremented count. *)
Definition addWarn (number : string) (d : t) : nat * t :=
  let count := getWarnCount d number + 1 in
  (count, set_warned (λ m, <[number := count]> m) d).

Definition resetWarn (number : string) (d : t) : t :=
  set_warned (λ m, delete number m) d.

(** *** Cooldown management *)

Definition userCooldowns (d : t) (number : string) : gmap string Z :=
  default ∅ (cooldowns d !! number).

Definition removeCooldown (number command : string) (d : t) : t :=
  set_cooldowns (λ m, <[number := delete command (userCooldowns d number)]> m) d.

(** [isOnCooldown]: the remaining milliseconds, or [None] for [false]; an
    expired entry is removed on the way. A stored expiry of [0] is falsy. *)
Definition isOnCooldown (now : Z) (number command : string) (d : t) : option Z * t :=
  match userCooldowns d number !! command with
  | None => (None, d)
  | Some cooldown =>
      if (cooldown =? 0)%Z then (None, d)
      else
        let remaining := (cooldown - now)%Z in
        if (remaining <=? 0)%Z then (None, removeCooldown number command d)
        else (Some remaining, d)
  end.

(** [setCooldown(number, command, duration)]: [duration] in seconds; a
    falsy duration falls back to [security.cooldownCommand]. *)
Definition setCooldown (cooldownCommand now : Z) (number command : string)
    (duration : Z) (d : t) : t :=
  let cooldownTime := if (duration =? 0)%Z then cooldownCommand else duration in
  let until := (now + cooldownTime * 1000)%Z in
  set_cooldowns (λ m, <[number := <[command := until]> (userCooldowns d number)]> m) d.

(** *** Group management *)

Definition isWhitelisted (d : t) (groupId : string) : bool :=
  includes (whitelisted d) groupId.
Definition isProtected (d : t) (groupId : string) : bool :=
  includes (protected d) groupId.

Definition getGroupSettings (d : t) (groupId : string) : GroupSettings :=
  default getDefaultGroupSettings (settings d !! groupId).

Definition getBotMode (d : t) : BotMode := default PUBLIC (botMode d).
Definition getDefenseMode (d : t) : DefenseMode := default NORMAL (defenseMode d).

(** [setDefenseMode(mode)] and
    [updateGroupSetting(groupId, 'defenseMode', mode)] *)
Definition setDefenseMode (mode : DefenseMode) (d : t) : t :=
  {| botMode := botMode d; defenseMode := Some mode; authors := authors d;
     owners := owners d; blacklisted := blacklisted d; disabled := disabled d;
     muted := muted d; warned := warned d; cooldowns := cooldowns d;
     whitelisted := whitelisted d; protected := protected d;
     settings := settings d; commands := commands d;
     violations := violations d; errorLog := errorLog d |}.

Definition updateGroupDefenseMode (groupId : string) (mode : DefenseMode) (d : t) : t :=
  let g := getGroupSettings d groupId in
  let g' := {| antiLink := antiLink g; antiSpam := antiSpam g; antiToxic := antiToxic g;
               antiVirtex := antiVirtex g; welcome := welcome g; goodbye := goodbye g;
               geoRestriction := geoRestriction g; gDefenseMode := Some mode |} in
  {| botMode := botMode d; defenseMode := defenseMode d; authors := authors d;
     owners := owners d; blacklisted := blacklisted d; disabled := disabled d;
     muted := muted d; warned := warned d; cooldowns := cooldowns d;
     whitelisted := whitelisted d; protected := protected d;
     settings := <[groupId := g']> (settings d); commands := commands d;
     violations := violations d; errorLog := errorLog d |}.

(** *** Statistics and error log *)

Definition incrementCommandUsage (command : string) (d : t) : t :=
  set_commands (λ m, <[command := default 0 (m !! command) + 1]> m) d.

Definition incrementViolation (type : string) (d : t) : t :=
  set_violations (λ m, <[type := default 0 (m !! type) + 1]> m) d.

(** [logError]: keeps the last 100 entries. *)
Definition logError (message : string) (d : t) : t :=
  set_errorLog (λ l, let l' := l ++ [message] in
                     if 100 <? length l' then tail l' else l') d.

(** [groupSettings.defenseMode || db.getDefenseMode()] *)
Definition effectiveDefenseMode (d : t) (groupId : string) : DefenseMode :=
  match gDefenseMode (getGroupSettings d groupId) with
  | Some m => m
  | None => getDefenseMode d
  end.

End Db.

(** ** AuthMiddleware.js *)

Module AuthMiddleware.

Inductive Reason :=
  disabled | blacklisted | self_mode | insufficient_role | error.

Record Result := {
  authorized : bool;
  reason : option Reason;
  role : option string
}.

(** The [roleHierarchy] object; any other key reads [undefined]. *)
Definition roleHierarchy (r : string) : option Z :=
  if String.eqb r "author" then Some 3%Z
  else if String.eqb r "owner" then Some 2%Z
  else if String.eqb r "user" then Some 1%Z
  else None.

(** [a < b] on a number and a possibly [undefined] number: comparing with
    [undefined] is [false]. *)
Definition js_lt (a b : option Z) : bool :=
  match a, b with
  | Some x, Some y => (x <? y)%Z
  | _, _ => false
  end.

Definition userRoleOf (d : Db.t) (number : string) : string :=
  if Db.isAuthor d number then "author"
  else if Db.isOwner d number then "owner"
  else "user".

Definition checkRole (d : Db.t) (number requiredRole : string) : Result :=
  let userRole := userRoleOf d number in
  let userLevel := roleHierarchy userRole in
  let requiredLevel := roleHierarchy requiredRole in
  if js_lt userLevel requiredLevel then
    {| authorized := false; reason := Some insufficient_role; role := Some userRole |}
  else
    {| authorized := true; reason := None; role := Some userRole |}.

(** [checkAuth(sender, command, requiredRole)]; nothing in the body
    throws in this model, so the [catch] arm (reason [error]) is not
    reached. *)
Definition checkAuth (d : Db.t) (sender requiredRole : string) : Result :=
  let senderNumber := jidNumber sender in
  if Db.isDisabled d senderNumber then
    {| authorized := false; reason := Some disabled; role := None |}
  else if Db.isBlacklisted d senderNumber then
    {| authorized := false; reason := Some blacklisted; role := None |}
  else
    let botMode := Db.getBotMode d in
    if match botMode with Db.SELF => negb (Db.isAuthor d senderNumber) | Db.PUBLIC => false end
    then {| authorized := false; reason := Some self_mode; role := None |}
    else
      let roleCheck := checkRole d senderNumber requiredRole in
      if negb (authorized roleCheck) then roleCheck
      else {| authorized := true; reason := None; role := role roleCheck |}.

End AuthMiddleware.

(** ** Regular expressions used by the detectors *)

Module Regex.

(** A compiled pattern is given by its matcher at a fixed position:
    [matchAt suffix] is the length of the (greedy) match that starts at the
    first code unit of [suffix], if there is one. None of the patterns
    below can match the empty string. *)
Definition Matcher := jsString → option nat.

(** The number of leading elements that satisfy [p]. *)
Fixpoint countLeading {A} (p : A → bool) (s : list A) : nat :=
  match s with
  | c :: rest => if p c then S (countLeading p rest) else 0
  | [] => 0
  end.

(** [.] without the [s] flag: any code unit but a line terminator. *)
Definition isLineTerminator (c : Z) : bool :=
  (c =? 10)%Z || (c =? 13)%Z || (c =? 8232)%Z || (c =? 8233)%Z.

Definition inRange (lo hi c : Z) : bool := (lo <=? c)%Z && (c <=? hi)%Z.

(** [\s], which is also the set that [trim] strips. *)
Definition isWhiteSpace (c : Z) : bool :=
  inRange 9 13 c || (c =? 32)%Z || (c =? 160)%Z || (c =? 5760)%Z
  || inRange 8192 8202 c || (c =? 8232)%Z || (c =? 8233)%Z
  || (c =? 8239)%Z || (c =? 8287)%Z || (c =? 12288)%Z || (c =? 65279)%Z.

(** [/(.)\1{9,}/]: a code unit followed by at least nine copies of it. *)
Definition repeatedPattern : Matcher := λ s,
  match s with
  | c :: rest =>
      if isLineTerminator c then None
      else
        let k := countLeading (Z.eqb c) rest in
        if 9 <=? k then Some (S k) else None
  | [] => None
  end.

(** [/[class]{n,}/]: at least [n] consecutive code units of a class. *)
Definition classRun (class : Z → bool) (n : nat) : Matcher := λ s,
  let k := countLeading class s in
  if n <=? k then Some k else None.

(** Reading a string by code points, as a pattern with the [u] flag does:
    a lead surrogate followed by a trail surrogate is one code point of
    width 2, any other code unit is a code point of width 1. *)
Definition isLead (c : Z) : bool := inRange 55296 56319 c.
Definition isTrail (c : Z) : bool := inRange 56320 57343 c.

Fixpoint codePoints (s : jsString) : list (Z * nat) :=
  match s with
  | [] => []
  | hi :: tl =>
      match tl with
      | lo :: rest =>
          if isLead hi && isTrail lo
          then (((hi - 55296) * 1024 + (lo - 56320) + 65536)%Z, 2) :: codePoints rest
          else (hi, 1) :: codePoints tl
      | [] => [(hi, 1)]
      end
  end.

(** [/([class]){n,}/u]: at least [n] consecutive code points of a class;
    the match length is counted in code units. *)
Definition classRunU (class : Z → bool) (n : nat) : Matcher := λ s,
  let cps := codePoints s in
  let k := countLeading (λ cp, class (fst cp)) cps in
  if n <=? k then Some (foldr (λ cp acc, snd cp + acc) 0 (take k cps)) else None.

(** [string.match(/.../g)]: all matches, leftmost first, each search
    resuming where the previous match ended. [fuel] bounds the number of
    start positions tried. *)
Fixpoint matchAllFrom (fuel : nat) (m : Matcher) (s : jsString) : list jsString :=
  match fuel with
  | 0 => []
  | S fuel' =>
      match s with
      | [] => []
      | _ :: rest =>
          match m s with
          | Some (S n) => take (S n) s :: matchAllFrom fuel' m (drop (S n) s)
          | _ => matchAllFrom fuel' m rest
          end
      end
  end.

Definition matchAll (m : Matcher) (s : jsString) : list jsString :=
  matchAllFrom (length s) m s.

(** A stored regex object: its matcher, and whether it carries the [u]
    flag. *)
Record Pattern := { matchAt : Matcher; unicode : bool }.

(** The first position of [s] at which [m] matches, with the match
    length. After a failure the next position is the next code unit or,
    with the [u] flag, the next code point ([AdvanceStringIndex]). *)
Fixpoint search (unicode : bool) (m : Matcher) (s : jsString) : option (nat * nat) :=
  match m s with
  | Some n => Some (0, n)
  | None =>
      match s with
      | [] => None
      | hi :: tl =>
          match tl with
          | lo :: rest =>
              if unicode && isLead hi && isTrail lo then
                match search unicode m rest with
                | Some (p, n) => Some (S (S p), n)
                | None => None
                end
              else
                match search unicode m tl with
                | Some (p, n) => Some (S p, n)
                | None => None
                end
          | [] =>
              match search unicode m tl with
              | Some (p, n) => Some (S p, n)
              | None => None
              end
          end
      end
  end.

(** The position at which the search from [lastIndex] starts. With the
    [u] flag the input is read by code points, and an index that falls
    inside a surrogate pair stands for the pair: the search starts at its
    lead surrogate. *)
Definition startOf (unicode : bool) (lastIndex : nat) (s : jsString) : nat :=
  match lastIndex with
  | S i =>
      match s !! i, s !! S i with
      | Some hi, Some lo =>
          if unicode && isLead hi && isTrail lo then i else lastIndex
      | _, _ => lastIndex
      end
  | 0 => 0
  end.

(** [regex.test(s)] on a regex object with the [g] flag whose [lastIndex]
    is the given one: the search starts at [lastIndex]; a match leaves
    [lastIndex] at its end, a failure resets it to 0. *)
Definition test (p : Pattern) (lastIndex : nat) (s : jsString) : bool * nat :=
  if length s <? lastIndex then (false, 0)
  else
    let start := startOf (unicode p) lastIndex s in
    match search (unicode p) (matchAt p) (drop start s) with
    | Some (position, n) => (true, start + position + n)
    | None => (false, 0)
    end.

End Regex.

(** ASCII text as code units. *)
Definition js (s : string) : jsString :=
  map (λ a, Z.of_nat (nat_of_ascii a)) (list_ascii_of_string s).

(** [String.prototype.trim] *)
Fixpoint trimStart (s : jsString) : jsString :=
  match s with
  | c :: rest => if Regex.isWhiteSpace c then trimStart rest else s
  | [] => []
  end.

Definition trim (s : jsString) : jsString :=
  reverse (trimStart (reverse (trimStart s))).

(** ** AntiVirtex *)

Module AntiVirtex.

Record Settings := {
  maxLength : nat;
  repeatedCharThreshold : nat;
  emojiThreshold : nat;
  invisibleCharThreshold : nat
}.

(** The constructor's settings; [maxLength] is
    [config.get('security.maxMessageLength') || 250]. *)
Definition defaultSettings : Settings :=
  {| maxLength := 250; repeatedCharThreshold := 50;
     emojiThreshold := 30; invisibleCharThreshold := 20 |}.

Inductive VirtexType :=
  | none | excessive_length | repeated_characters | emoji_flood
  | invisible_characters | virtex_pattern.

Record Verdict := {
  detected : bool;
  type : option VirtexType;
  count : option nat;
  severity : option Severity
}.

Definition notDetected : Verdict :=
  {| detected := false; type := None; count := None; severity := None |}.
Definition noneDetected : Verdict :=
  {| detected := false; type := Some none; count := None; severity := None |}.

Definition calculateLengthSeverity (length : nat) : Severity :=
  if 1000 <? length then critical
  else if 500 <? length then high
  else if 250 <? length then medium
  else low.

Definition checkLength (st : Settings) (message : jsString) : Verdict :=
  let length := length message in
  if maxLength st <? length then
    {| detected := true; type := Some excessive_length; count := Some length;
       severity := Some (calculateLengthSeverity length) |}
  else notDetected.

(** [Math.max(...matches.map(m => m.length))] on a non-empty list. *)
Definition longest (matches : list jsString) : nat :=
  foldr (λ m acc, length m `max` acc) 0 matches.

Definition checkRepeatedCharacters (st : Settings) (message : jsString) : Verdict :=
  let matches := Regex.matchAll Regex.repeatedPattern message in
  if 0 <? length matches then
    let longestRepeat := longest matches in
    if repeatedCharThreshold st <=? longestRepeat then
      {| detected := true; type := Some repeated_characters;
         count := Some longestRepeat; severity := Some high |}
    else notDetected
  else notDetected.

(** The class of [emojiRegex] (flags [gu]). *)
Definition isEmoji (cp : Z) : bool :=
  Regex.inRange 128512 128591 cp || Regex.inRange 127744 128511 cp
  || Regex.inRange 128640 128767 cp || Regex.inRange 127456 127487 cp
  || Regex.inRange 9728 9983 cp || Regex.inRange 9984 10175 cp.

Definition checkEmojiFlood (st : Settings) (message : jsString) : Verdict :=
  let emojiCount :=
    length (filter (λ cp, isEmoji (fst cp) = true) (Regex.codePoints message)) in
  if emojiThreshold st <=? emojiCount then
    {| detected := true; type := Some emoji_flood; count := Some emojiCount;
       severity := Some medium |}
  else notDetected.

(** U+200B, U+200C, U+200D, U+FEFF, U+2060, U+180E *)
Definition invisibleChars : list Z := [8203; 8204; 8205; 65279; 8288; 6158]%Z.

Definition checkInvisibleCharacters (st : Settings) (message : jsString) : Verdict :=
  let invisibleCount :=
    foldl (λ acc char, acc + length (filter (λ c, c = char) message)) 0 invisibleChars in
  if invisibleCharThreshold st <=? invisibleCount then
    {| detected := true; type := Some invisible_characters;
       count := Some invisibleCount; severity := Some high |}
  else notDetected.

(** [this.virtexPatterns]: four regex objects with the [g] flag, created
    once in the constructor and kept for the life of the process. *)
Definition virtexPatterns : list Regex.Pattern :=
  [ {| Regex.matchAt :=
         Regex.classRun
           (λ c, Regex.inRange 768 879 c || Regex.inRange 1155 1161 c) 10;
       Regex.unicode := false |};
    {| Regex.matchAt :=
         Regex.classRun
           (λ c, Regex.inRange 8203 8207 c || Regex.inRange 8234 8238 c
                 || Regex.inRange 8288 8297 c) 5;
       Regex.unicode := false |};
    {| Regex.matchAt := Regex.classRunU (Regex.inRange 128512 128591) 20;
       Regex.unicode := true |};
    {| Regex.matchAt :=
         Regex.classRun
           (λ c, (c =? 8203)%Z || (c =? 8204)%Z || (c =? 8205)%Z
                 || (c =? 65279)%Z) 5;
       Regex.unicode := false |} ].

(** The state of the module: the [lastIndex] of each stored pattern. *)
Definition State := list nat.
Definition initialState : State := [0; 0; 0; 0].

(** The loop of [checkVirtexPatterns]: [pattern.test(message)] on each
    pattern in turn, until one matches. *)
Fixpoint testPatterns (patterns : list Regex.Pattern) (lastIndexes : State)
    (message : jsString) : bool * State :=
  match patterns, lastIndexes with
  | m :: patterns', i :: lastIndexes' =>
      let '(found, i') := Regex.test m i message in
      if found then (true, i' :: lastIndexes')
      else
        let '(r, rest) := testPatterns patterns' lastIndexes' message in
        (r, i' :: rest)
  | _, _ => (false, lastIndexes)
  end.

Definition checkVirtexPatterns (s : State) (message : jsString) : Verdict * State :=
  let '(found, s') := testPatterns virtexPatterns s message in
  if found then
    ({| detected := true; type := Some virtex_pattern; count := None;
        severity := Some critical |}, s')
  else (notDetected, s').

(** [detect(message)]; an empty message is falsy. *)
Definition detect (st : Settings) (s : State) (message : jsString) : Verdict * State :=
  match message with
  | [] => (noneDetected, s)
  | _ =>
      let lengthCheck := checkLength st message in
      if detected lengthCheck then (lengthCheck, s) else
      let repeatedCheck := checkRepeatedCharacters st message in
      if detected repeatedCheck then (repeatedCheck, s) else
      let emojiCheck := checkEmojiFlood st message in
      if detected emojiCheck then (emojiCheck, s) else
      let invisibleCheck := checkInvisibleCharacters st message in
      if detected invisibleCheck then (invisibleCheck, s) else
      let '(patternCheck, s') := checkVirtexPatterns s message in
      if detected patternCheck then (patternCheck, s')
      else (noneDetected, s')
  end.

Definition actionMatrix (defenseMode : DefenseMode) (severity : option Severity)
    : option Action :=
  match defenseMode, severity with
  | NORMAL, Some low => Some warn
  | NORMAL, Some medium => Some warn
  | NORMAL, Some high => Some warn
  | STRICT, Some low => Some warn
  | STRICT, Some medium => Some warn
  | STRICT, Some high => Some kick
  | LOCKDOWN, Some low => Some warn
  | LOCKDOWN, Some medium => Some kick
  | LOCKDOWN, Some high => Some kick
  | _, _ => None
  end.

(** [determineAction(severity, defenseMode)]:
    [actionMatrix[defenseMode]?.[severity] || 'warn'] after the test for
    [critical]. *)
Definition determineAction (severity : option Severity) (defenseMode : DefenseMode)
    : Action :=
  match severity with
  | Some critical => kick
  | _ => default warn (actionMatrix defenseMode severity)
  end.

End AntiVirtex.

(** ** AntiToxic *)

Module AntiToxic.

(** [this.badWords], in source order. *)
Definition badWords : list string :=
  [ "anjing"; "babi"; "kontol"; "memek"; "bangsat"; "jancok"; "jembut";
    "ngentot"; "ngewe"; "colmek"; "coli"; "peju"; "pepek"; "titit";
    "tolol"; "goblok"; "kampret"; "asu"; "bajingan"; "brengsek";
    "tai"; "taik"; "tetek"; "kimak"; "monyet"; "idiot"; "bodoh";
    "yatim"; "anj"; "bgst"; "bngst"; "mmk"; "ktl"; "jnck";
    "goblog"; "gblk"; "tlol"; "anjir"; "anjrit"; "sial";
    "sialan"; "kunyuk"; "bego"; "dungu"; "pantek"; "panteq";
    "noob"; "nub"; "bacot"; "bacod"; "bakcot"; "brengsek";
    "kampang"; "jelek"; "cupu"; "cacat"; "sinting"; "gila" ].

Record Verdict := {
  detected : bool;
  words : list string;
  severity : option Severity
}.

Definition notDetected : Verdict :=
  {| detected := false; words := []; severity := None |}.

(** [calculateSeverity(words)]; tier 1 is [badWords.slice(0, 15)]. *)
Definition calculateSeverity (words : list string) : Severity :=
  if length words =? 0 then sev_none
  else
    let tier1Words := take 15 badWords in
    let hasTier1 := existsb (λ word, includes tier1Words word) words in
    if hasTier1 || (3 <=? length words) then high
    else if 2 <=? length words then medium
    else low.

(** [new RegExp(sub, 'g')] for the one-character sources of
    [replacements]: a quantifier with nothing to repeat is a SyntaxError
    ([None]); [|] is the alternation of two empty patterns; [$] is the end
    of input; any other source of the table is a literal. *)
Inductive Pattern := PChar (c : Z) | PEmptyAlternation | PEndOfInput.

Definition newRegExp (sub : Z) : option Pattern :=
  if (sub =? 43)%Z || (sub =? 42)%Z || (sub =? 63)%Z then None   (* + * ? *)
  else if (sub =? 124)%Z then Some PEmptyAlternation              (* | *)
  else if (sub =? 36)%Z then Some PEndOfInput                     (* $ *)
  else Some (PChar sub).

(** [s.replace(regex, original)] with the [g] flag. *)
Definition replaceAll (p : Pattern) (original : Z) (s : jsString) : jsString :=
  match p with
  | PChar c => map (λ x, if (x =? c)%Z then original else x) s
  | PEmptyAlternation => original :: concat (map (λ x, [x; original]) s)
  | PEndOfInput => s ++ [original]
  end.

(** [Object.entries(replacements)]: integer-like keys first, in ascending
    order, then the other keys in insertion order. *)
Definition replacements : list (Z * Z) :=
  [ (48, 111); (49, 105); (51, 101); (52, 97); (53, 115); (55, 116); (56, 98);
    (64, 97); (33, 105); (124, 105); (36, 115); (43, 116) ]%Z.

(** [s.replace(/\s+/g, ' ')] *)
Fixpoint collapseWhiteSpace (s : jsString) : jsString :=
  match s with
  | [] => []
  | c :: rest =>
      if Regex.isWhiteSpace c then
        match rest with
        | c' :: _ => if Regex.isWhiteSpace c' then collapseWhiteSpace rest
                     else 32%Z :: collapseWhiteSpace rest
        | [] => [32%Z]
        end
      else c :: collapseWhiteSpace rest
  end.

(** The replacement loop of [normalizeMessage]; [None] when constructing
    a regex throws. *)
Fixpoint applyReplacements (entries : list (Z * Z)) (normalized : jsString)
    : option jsString :=
  match entries with
  | [] => Some normalized
  | (sub, original) :: entries' =>
      match newRegExp sub with
      | None => None
      | Some p => applyReplacements entries' (replaceAll p original normalized)
      end
  end.

Section WithBuiltins.

(** [String.prototype.toLowerCase]. *)
Variable toLowerCase : jsString → jsString.

(** The two scans of [detect] that follow normalization (the pattern
    loop and the token loop), as the list of bad words they find. *)
Variable scanBadWords : jsString → list string.

Definition normalizeMessage (message : jsString) : option jsString :=
  applyReplacements replacements (collapseWhiteSpace (toLowerCase message)).

(** [detect(message)]: an exception in the body is caught and reported
    as no detection. *)
Definition detect (message : jsString) : Verdict :=
  match message with
  | [] => notDetected
  | _ =>
      match normalizeMessage message with
      | None => notDetected
      | Some normalizedMessage =>
          let foundWords := scanBadWords normalizedMessage in
          {| detected := 0 <? length foundWords; words := foundWords;
             severity := Some (calculateSeverity foundWords) |}
      end
  end.

End WithBuiltins.

Definition actionMatrix (defenseMode : DefenseMode) (severity : option Severity)
    : option Action :=
  match defenseMode, severity with
  | NORMAL, Some low => Some warn
  | NORMAL, Some medium => Some warn
  | NORMAL, Some high => Some warn
  | STRICT, Some low => Some warn
  | STRICT, Some medium => Some mute
  | STRICT, Some high => Some mute
  | LOCKDOWN, Some low => Some mute
  | LOCKDOWN, Some medium => Some kick
  | LOCKDOWN, Some high => Some kick
  | _, _ => None
  end.

(** [determineAction(severity, defenseMode)] *)
Definition determineAction (severity : option Severity) (defenseMode : DefenseMode)
    : Action :=
  default warn (actionMatrix defenseMode severity).

End AntiToxic.

(** ** AntiLink *)

Module AntiLink.

Record Verdict := {
  detected : bool;
  links : list jsString
}.

Definition notDetected : Verdict := {| detected := false; links := [] |}.

(** [this.whitelist] *)
Definition whitelist : list jsString :=
  [ js "docs.google.com"; js "drive.google.com"; js "github.com";
    js "stackoverflow.com" ].

(** [s.includes(sub)] *)
Fixpoint isPrefixOf (sub s : jsString) : bool :=
  match sub, s with
  | [], _ => true
  | x :: sub', y :: s' => (x =? y)%Z && isPrefixOf sub' s'
  | _ :: _, [] => false
  end.

Fixpoint jsIncludes (s sub : jsString) : bool :=
  isPrefixOf sub s ||
  match s with
  | [] => false
  | _ :: s' => jsIncludes s' sub
  end.

Section WithBuiltins.

Variable toLowerCase : jsString → jsString.

(** [message.match(pattern)] for each of the eight URL patterns in
    turn, concatenated. *)
Variable patternMatches : jsString → list jsString.

Definition collectLinks (matches : list jsString) : list jsString :=
  foldl (λ foundLinks link,
           let isWhitelisted :=
             existsb (λ domain, jsIncludes (toLowerCase link) domain) whitelist in
           if negb isWhitelisted && negb (bool_decide (link ∈ foundLinks))
           then foundLinks ++ [link] else foundLinks)
        [] matches.

Definition detect (message : jsString) : Verdict :=
  match message with
  | [] => notDetected
  | _ =>
      let foundLinks := collectLinks (patternMatches message) in
      {| detected := 0 <? length foundLinks; links := foundLinks |}
  end.

End WithBuiltins.

(** [getDefenseModeConfig(mode).action]: the link module has no severity
    and acts on the mode alone. *)
Definition getDefenseModeConfig (mode : DefenseMode) : Action :=
  match mode with
  | NORMAL => warn
  | STRICT => mute
  | LOCKDOWN => kick
  | OtherMode => warn
  end.

End AntiLink.

(** ** AntiSpam *)

Module AntiSpam.

Record Tracked := { timestamp : Z; content : jsString }.

(** [this.messageTracker] *)
Abbreviation Tracker := (gmap string (list Tracked)).

Record Settings := {
  timeWindow : Z;            (* milliseconds *)
  messageThreshold : nat;
  duplicateThreshold : nat
}.

(** With [security.antiSpamTime = 10] and
    [security.antiSpamThreshold = 5]. *)
Definition defaultSettings : Settings :=
  {| timeWindow := 10000; messageThreshold := 5; duplicateThreshold := 3 |}.

Inductive SpamType := none | rapid_fire | duplicate | character_flood.

Record Verdict := {
  detected : bool;
  type : SpamType;
  messageCount : nat
}.

Definition detectRapidFire (st : Settings) (messages : list Tracked) : bool :=
  messageThreshold st <=? length messages.

Definition detectCharacterFlood (message : jsString) : bool :=
  match message with
  | [] => false
  | _ => 0 <? length (Regex.matchAll Regex.repeatedPattern message)
  end.

Definition getSpamType (rapidFire duplicate_ characterFlood : bool) : SpamType :=
  if rapidFire then rapid_fire
  else if duplicate_ then duplicate
  else if characterFlood then character_flood
  else none.

(** [getDefenseModeConfig(mode).muteDuration], in minutes. *)
Definition muteDuration (mode : DefenseMode) : Z :=
  match mode with
  | NORMAL => 10
  | STRICT => 30
  | LOCKDOWN => 60
  | OtherMode => 10
  end.

(** A value of the object [contentCounts]: a count, or the text that
    comes of adding 1 to something that is not a number. *)
Inductive Count := Times (n : nat) | Text.

(** [contentCounts] starts as the literal [{}], which inherits the members
    of [Object.prototype]: these functions, and the accessor [__proto__]. *)
Definition inheritedFunctions : list jsString :=
  [ js "constructor"; js "__defineGetter__"; js "__defineSetter__";
    js "hasOwnProperty"; js "__lookupGetter__"; js "__lookupSetter__";
    js "isPrototypeOf"; js "propertyIsEnumerable"; js "toString";
    js "valueOf"; js "toLocaleString" ].

Definition protoAccessor : jsString := js "__proto__".

(** The own property [key] of the object, and the object with it set. *)
Fixpoint ownCount (counts : list (jsString * Count)) (key : jsString) : option Count :=
  match counts with
  | [] => None
  | (k, v) :: rest => if bool_decide (k = key) then Some v else ownCount rest key
  end.

Fixpoint setCount (key : jsString) (v : Count) (counts : list (jsString * Count))
    : list (jsString * Count) :=
  match counts with
  | [] => [(key, v)]
  | (k, old) :: rest =>
      if bool_decide (k = key) then (k, v) :: rest
      else (k, old) :: setCount key v rest
  end.

(** [contentCounts[content] = (contentCounts[content] || 0) + 1]. Read
    through [__proto__] the object gives its prototype, and the text that is
    then assigned through the accessor is ignored. An inherited function is
    truthy, and adding 1 to it gives a text, as does adding 1 to a text. *)
Definition countContent (counts : list (jsString * Count)) (content : jsString)
    : list (jsString * Count) :=
  if bool_decide (content = protoAccessor) then counts
  else
    match ownCount counts content with
    | Some (Times n) => setCount content (Times (n + 1)) counts
    | Some Text => setCount content Text counts
    | None =>
        if bool_decide (content ∈ inheritedFunctions)
        then setCount content Text counts
        else setCount content (Times 1) counts
    end.

(** The results of [Math.max] on such values. *)
Inductive JsNumber := Num (n : nat) | NaN | NegativeInfinity.

(** [Math.max(...values)]: [NaN] as soon as a value is not a number, and
    [-Infinity] for no values. *)
Fixpoint mathMax (values : list Count) : JsNumber :=
  match values with
  | [] => NegativeInfinity
  | v :: rest =>
      match v, mathMax rest with
      | Text, _ => NaN
      | Times _, NaN => NaN
      | Times n, NegativeInfinity => Num n
      | Times n, Num k => Num (n `max` k)
      end
  end.

(** [x >= threshold] *)
Definition atLeast (x : JsNumber) (threshold : nat) : bool :=
  match x with
  | Num n => threshold <=? n
  | NaN | NegativeInfinity => false
  end.

Section WithBuiltins.

(** [content.toLowerCase().trim()] *)
Variable normalize : jsString → jsString.

(** The object [contentCounts] after the [forEach]. *)
Definition contentCounts (messages : list Tracked) : list (jsString * Count) :=
  foldl (λ counts msg, countContent counts (normalize (content msg))) [] messages.

(** [Math.max(...Object.values(contentCounts))] *)
Definition maxDuplicates (messages : list Tracked) : JsNumber :=
  mathMax (map snd (contentCounts messages)).

Definition detectDuplicate (st : Settings) (messages : list Tracked) : bool :=
  if length messages <? 2 then false
  else atLeast (maxDuplicates messages) (duplicateThreshold st).

(** [detect(sender, messageContent, timestamp)]: the sender's entries
    are pruned to the time window, the current message is added, and the
    three checks run on the result. *)
Definition detect (st : Settings) (tracker : Tracker)
    (sender : string) (messageContent : jsString) (timestamp : Z)
    : Verdict * Tracker :=
  let senderNumber := jidNumber sender in
  let userMessages := default [] (tracker !! senderNumber) in
  let recentMessages :=
    filter (λ msg, (timestamp - AntiSpam.timestamp msg < timeWindow st)%Z) userMessages
    ++ [ {| timestamp := timestamp; content := messageContent |} ] in
  let rapidFire := detectRapidFire st recentMessages in
  let duplicate_ := detectDuplicate st recentMessages in
  let characterFlood := detectCharacterFlood messageContent in
  let isSpam := rapidFire || duplicate_ || characterFlood in
  ({| detected := isSpam;
      type := getSpamType rapidFire duplicate_ characterFlood;
      messageCount := length recentMessages |},
   <[senderNumber := recentMessages]> tracker).

End WithBuiltins.

End AntiSpam.

(** ** GeoRestriction *)

Module GeoRestriction.

Record State := {
  allowedCountries : list string;
  whitelist : list string
}.

Definition initialState : State :=
  {| allowedCountries := ["62"]; whitelist := [] |}.

(** [s.replace(/\D/g, '')] *)
Fixpoint digitsOnly (s : string) : string :=
  match s with
  | EmptyString => EmptyString
  | String c rest =>
      let n := nat_of_ascii c in
      if (48 <=? n) && (n <=? 57) then String c (digitsOnly rest)
      else digitsOnly rest
  end.

(** [Object.entries(countryMap)]: the keys are integer-like, hence in
    ascending numeric order. *)
Definition countryMap : list (string * string) :=
  [ ("1", "USA/Canada"); ("44", "UK"); ("60", "Malaysia"); ("62", "Indonesia");
    ("63", "Philippines"); ("65", "Singapore"); ("66", "Thailand");
    ("81", "Japan"); ("82", "South Korea"); ("84", "Vietnam");
    ("86", "China"); ("91", "India") ].

Definition getCountryFromNumber (phoneNumber : string) : string :=
  match filter (λ e, String.prefix (fst e) phoneNumber = true) countryMap with
  | (_, country) :: _ => country
  | [] => "Unknown"
  end.

Record Verdict := {
  allowed : bool;
  country : string
}.

Definition detect (s : State) (phoneNumber : string) : Verdict :=
  let cleanNumber := digitsOnly phoneNumber in
  if includes (whitelist s) cleanNumber then
    {| allowed := true; country := getCountryFromNumber cleanNumber |}
  else
    let isAllowed :=
      existsb (λ code, String.prefix code cleanNumber) (allowedCountries s) in
    {| allowed := isAllowed; country := getCountryFromNumber cleanNumber |}.

End GeoRestriction.

(** ** The transport and the process state *)

(** The text of an outgoing message, by template. *)
Inductive Text :=
  | ViolationWarning (module user : string) (warnCount maxWarn : nat)
  | UserMuted (module user : string) (minutes : Z)
  | UserKicked (module user : string)
  | BlacklistKick (user : string)
  | GeoViolation (user country : string)
  | WelcomeMessage (user : string)
  | AuthDenied (reason : AuthMiddleware.Reason) (requiredRole : string)
  | CooldownActive (command : string) (remaining : Z)
  | ValidationError (command : string) (errors : list string)
  | NoText                                   (* [text: undefined] *)
  | RateLimit
  | ErrorReport (message : string)
  | OtherText (text : string).

(** A call on the socket. *)
Inductive Effect :=
  | Send (jid : string) (text : Text)
  | Delete (jid : string) (messageKey : nat)
  | Kick (groupId : string) (participants : list string).

(** The kicks among a sequence of calls. *)
Definition isKick (e : Effect) : bool :=
  match e with Kick _ _ => true | _ => false end.

Definition kicksIn (effects : list Effect) : list Effect :=
  filter (λ e, isKick e = true) effects.

Record GroupMetadata := { subject : string; participants : nat }.

(** [BotCore]: its own JID, whether the socket carries out a call, and the
    answer of [sock.groupMetadata]. *)
Record Bot := {
  selfId : string;
  sockOk : Effect → bool;
  groupMetadata : string → option GroupMetadata
}.

Record Stats := { totalChecks : nat; statViolations : nat; blocked : nat }.

Record World := {
  db : Db.t;
  virtexState : AntiVirtex.State;                 (* antiVirtex.virtexPatterns *)
  messageTracker : AntiSpam.Tracker;              (* antiSpam.messageTracker *)
  globalCooldowns : gmap string (list Z);         (* cooldownMiddleware.globalCooldowns *)
  stats : Stats;                                  (* defenseEngine.stats *)
  outbox : list Effect
}.

Definition set_db (f : Db.t → Db.t) (w : World) : World :=
  {| db := f (db w); virtexState := virtexState w;
     messageTracker := messageTracker w; globalCooldowns := globalCooldowns w;
     stats := stats w; outbox := outbox w |}.

Definition set_virtexState (s : AntiVirtex.State) (w : World) : World :=
  {| db := db w; virtexState := s;
     messageTracker := messageTracker w; globalCooldowns := globalCooldowns w;
     stats := stats w; outbox := outbox w |}.

Definition set_messageTracker (f : AntiSpam.Tracker → AntiSpam.Tracker) (w : World) : World :=
  {| db := db w; virtexState := virtexState w;
     messageTracker := f (messageTracker w); globalCooldowns := globalCooldowns w;
     stats := stats w; outbox := outbox w |}.

Definition set_globalCooldowns
    (f : gmap string (list Z) → gmap string (list Z)) (w : World) : World :=
  {| db := db w; virtexState := virtexState w;
     messageTracker := messageTracker w; globalCooldowns := f (globalCooldowns w);
     stats := stats w; outbox := outbox w |}.

Definition set_stats (f : Stats → Stats) (w : World) : World :=
  {| db := db w; virtexState := virtexState w;
     messageTracker := messageTracker w; globalCooldowns := globalCooldowns w;
     stats := f (stats w); outbox := outbox w |}.

Definition emit (e : Effect) (w : World) : World :=
  {| db := db w; virtexState := virtexState w;
     messageTracker := messageTracker w; globalCooldowns := globalCooldowns w;
     stats := stats w; outbox := outbox w ++ [e] |}.

(** [bot.sendMessage]: rethrows when the socket fails; the boolean tells
    whether the call returned normally. *)
Definition sendMessage (bot : Bot) (jid : string) (text : Text) (w : World)
    : bool * World :=
  (sockOk bot (Send jid text), emit (Send jid text) w).

(** [bot.deleteMessage] and [bot.kickParticipant] catch the socket's
    failure and return [false]; no caller looks at the result. *)
Definition deleteMessage (bot : Bot) (jid : string) (messageKey : nat) (w : World)
    : World :=
  emit (Delete jid messageKey) w.

Definition kickParticipant (bot : Bot) (groupId : string)
    (participants : list string) (w : World) : World :=
  emit (Kick groupId participants) w.

(** ** Violation handlers of the modules *)

Module Handlers.

(** [const maxWarn = 3], as each [handle] method declares it. *)
Definition maxWarn : nat := 3.

(** [AntiVirtex.handle(bot, groupId, sender, messageKey, virtexInfo)] *)
Definition antiVirtexHandle (bot : Bot) (groupId sender : string)
    (messageKey : nat) (virtexInfo : AntiVirtex.Verdict) (w : World) : World :=
  let senderNumber := jidNumber sender in
  let defenseMode := Db.effectiveDefenseMode (db w) groupId in
  let w := deleteMessage bot groupId messageKey w in
  let action :=
    AntiVirtex.determineAction (AntiVirtex.severity virtexInfo) defenseMode in
  match action with
  | warn =>
      let '(warnCount, d) := Db.addWarn senderNumber (db w) in
      let w := set_db (λ _, d) w in
      let w :=
        if maxWarn <=? warnCount then
          set_db (Db.resetWarn senderNumber) (kickParticipant bot groupId [sender] w)
        else w in
      let '(ok, w) :=
        sendMessage bot groupId
          (ViolationWarning "antiVirtex" senderNumber warnCount maxWarn) w in
      if ok then set_db (Db.incrementViolation "antiVirtex") w else w
  | kick =>
      let w := kickParticipant bot groupId [sender] w in
      let '(ok, w) := sendMessage bot groupId (UserKicked "antiVirtex" senderNumber) w in
      if ok then set_db (Db.incrementViolation "antiVirtex") w else w
  | mute => set_db (Db.incrementViolation "antiVirtex") w
  end.

(** [AntiToxic.handle]; [toxicInfo.severity.toUpperCase()] throws when
    the verdict carries no severity. *)
Definition antiToxicHandle (bot : Bot) (now : Z) (groupId sender : string)
    (messageKey : nat) (toxicInfo : AntiToxic.Verdict) (w : World) : World :=
  let senderNumber := jidNumber sender in
  let defenseMode := Db.effectiveDefenseMode (db w) groupId in
  let w := deleteMessage bot groupId messageKey w in
  let action :=
    AntiToxic.determineAction (AntiToxic.severity toxicInfo) defenseMode in
  match action with
  | warn =>
      let '(warnCount, d) := Db.addWarn senderNumber (db w) in
      let w := set_db (λ _, d) w in
      match AntiToxic.severity toxicInfo with
      | None => w
      | Some _ =>
          let w :=
            if maxWarn <=? warnCount then
              set_db (Db.resetWarn senderNumber) (kickParticipant bot groupId [sender] w)
            else w in
          let '(ok, w) :=
            sendMessage bot groupId
              (ViolationWarning "antiToxic" senderNumber warnCount maxWarn) w in
          if ok then set_db (Db.incrementViolation "antiToxic") w else w
      end
  | mute =>
      let w := set_db (Db.addMute now senderNumber 10) w in
      let '(ok, w) := sendMessage bot groupId (UserMuted "antiToxic" senderNumber 10) w in
      if ok then set_db (Db.incrementViolation "antiToxic") w else w
  | kick =>
      let w := kickParticipant bot groupId [sender] w in
      let '(ok, w) := sendMessage bot groupId (UserKicked "antiToxic" senderNumber) w in
      if ok then set_db (Db.incrementViolation "antiToxic") w else w
  end.

(** [AntiLink.handle]; in the [mute] and [kick] branches the notice is a
    [const] that is then appended to, which throws before anything is
    sent. *)
Definition antiLinkHandle (bot : Bot) (now : Z) (groupId sender : string)
    (messageKey : nat) (w : World) : World :=
  let senderNumber := jidNumber sender in
  let defenseMode := Db.effectiveDefenseMode (db w) groupId in
  let action := AntiLink.getDefenseModeConfig defenseMode in
  let w := deleteMessage bot groupId messageKey w in
  match action with
  | warn =>
      let '(warnCount, d) := Db.addWarn senderNumber (db w) in
      let w := set_db (λ _, d) w in
      let w :=
        if maxWarn <=? warnCount then
          set_db (Db.resetWarn senderNumber) (kickParticipant bot groupId [sender] w)
        else w in
      let '(ok, w) :=
        sendMessage bot groupId
          (ViolationWarning "antiLink" senderNumber warnCount maxWarn) w in
      if ok then set_db (Db.incrementViolation "antiLink") w else w
  | mute => set_db (Db.addMute now senderNumber 10) w
  | kick => kickParticipant bot groupId [sender] w
  end.

(** [AntiSpam.handle]: always a mute, whose length depends on the mode. *)
Definition antiSpamHandle (bot : Bot) (now : Z) (groupId sender : string)
    (w : World) : World :=
  let senderNumber := jidNumber sender in
  let defenseMode := Db.effectiveDefenseMode (db w) groupId in
  let muteDuration := AntiSpam.muteDuration defenseMode in
  let w := set_db (Db.addMute now senderNumber muteDuration) w in
  let '(ok, w) := sendMessage bot groupId (UserMuted "antiSpam" senderNumber muteDuration) w in
  if ok then
    set_db (Db.incrementViolation "antiSpam")
      (set_messageTracker (λ m, delete senderNumber m) w)
  else w.

(** [GeoRestriction.handle] *)
Definition geoRestrictionHandle (bot : Bot) (geo : GeoRestriction.State)
    (groupId participant : string) (w : World) : World :=
  let phoneNumber := jidNumber participant in
  let detection := GeoRestriction.detect geo phoneNumber in
  let w := kickParticipant bot groupId [participant] w in
  let '(ok, w) :=
    sendMessage bot groupId
      (GeoViolation phoneNumber (GeoRestriction.country detection)) w in
  if ok then set_db (Db.incrementViolation "geoRestriction") w else w.

End Handlers.

(** ** Configuration and built-ins *)

(** What the modules are constructed with. *)
Record Config := {
  virtexSettings : AntiVirtex.Settings;
  spamSettings : AntiSpam.Settings;
  geo : GeoRestriction.State;
  cooldownCommand : Z;                     (* security.cooldownCommand, seconds *)
  maxWarn : nat                            (* security.maxWarn *)
}.

(** [security.maxWarn] is [parseInt(process.env.MAX_WARN) || 3]. Its one
    reader is the log line of [Database.addWarn]; the [handle] methods and
    the [warn] command compare the count with a constant of their own. *)
Definition defaultConfig : Config :=
  {| virtexSettings := AntiVirtex.defaultSettings;
     spamSettings := AntiSpam.defaultSettings;
     geo := GeoRestriction.initialState;
     cooldownCommand := 20;
     maxWarn := 3 |}.

(** The string built-ins and regex scans that are taken as given. *)
Record Builtins := {
  toLowerCase : jsString → jsString;
  scanBadWords : jsString → list string;     (* see [AntiToxic.detect] *)
  linkPatternMatches : jsString → list jsString   (* see [AntiLink.detect] *)
}.

Record MessageInfo := {
  from : string;
  sender : string;
  messageContent : jsString;
  isGroup : bool;
  groupId : string;            (* ["null"] outside groups *)
  quoted : bool;
  messageKey : nat
}.

(** ** DefenseEngine *)

Module DefenseEngine.

Inductive Instance := antiVirtex | antiToxic | antiLink | antiSpam | geoRestriction.

Record Module_ := {
  name : string;
  instance : Instance;
  priority : Z;
  checkOnNewMember : bool
}.

(** The array literal of the constructor. *)
Definition registered : list Module_ :=
  [ {| name := "antiVirtex"; instance := antiVirtex; priority := 1;
       checkOnNewMember := false |};
    {| name := "antiToxic"; instance := antiToxic; priority := 2;
       checkOnNewMember := false |};
    {| name := "antiLink"; instance := antiLink; priority := 3;
       checkOnNewMember := false |};
    {| name := "antiSpam"; instance := antiSpam; priority := 4;
       checkOnNewMember := false |};
    {| name := "geoRestriction"; instance := geoRestriction; priority := 5;
       checkOnNewMember := true |} ].

(** [Array.prototype.sort] with [(a, b) => a.priority - b.priority]: a
    stable sort, here by insertion from the right (an element goes before
    the later elements it does not exceed). *)
Fixpoint insertByPriority (m : Module_) (l : list Module_) : list Module_ :=
  match l with
  | [] => [m]
  | x :: rest =>
      if (priority m - priority x <=? 0)%Z then m :: l
      else x :: insertByPriority m rest
  end.

Definition sortByPriority (l : list Module_) : list Module_ :=
  foldr insertByPriority [] l.

(** [this.modules] after the constructor. *)
Definition modules : list Module_ := sortByPriority registered.

(** [instance.isEnabled(groupId)]: [settings.<toggle> !== false]. *)
Definition isEnabled (i : Instance) (d : Db.t) (groupId : string) : bool :=
  let settings := Db.getGroupSettings d groupId in
  let toggle :=
    match i with
    | antiVirtex => Db.antiVirtex settings
    | antiToxic => Db.antiToxic settings
    | antiLink => Db.antiLink settings
    | antiSpam => Db.antiSpam settings
    | geoRestriction => Db.geoRestriction settings
    end in
  negb (bool_decide (toggle = Some false)).

Inductive Detection :=
  | VirtexDetection (v : AntiVirtex.Verdict)
  | ToxicDetection (v : AntiToxic.Verdict)
  | LinkDetection (v : AntiLink.Verdict)
  | SpamDetection (v : AntiSpam.Verdict)
  | NoDetection.

Definition detected (d : Detection) : bool :=
  match d with
  | VirtexDetection v => AntiVirtex.detected v
  | ToxicDetection v => AntiToxic.detected v
  | LinkDetection v => AntiLink.detected v
  | SpamDetection v => AntiSpam.detected v
  | NoDetection => false
  end.

Record Result := {
  resBlocked : bool;
  resModule : option string;
  resDetection : option Detection
}.

Definition notBlocked : Result :=
  {| resBlocked := false; resModule := None; resDetection := None |}.

Section Engine.

Variable cfg : Config.
Variable builtins : Builtins.
Variable bot : Bot.

(** [runModuleDetection]: the [switch] on [module.name]. *)
Definition runModuleDetection (m : Module_) (messageContent : jsString)
    (sender : string) (now : Z) (w : World) : Detection * World :=
  if String.eqb (name m) "antiVirtex" then
    let '(v, s) :=
      AntiVirtex.detect (virtexSettings cfg) (virtexState w) messageContent in
    (VirtexDetection v, set_virtexState s w)
  else if String.eqb (name m) "antiToxic" then
    (ToxicDetection
       (AntiToxic.detect (toLowerCase builtins) (scanBadWords builtins) messageContent),
     w)
  else if String.eqb (name m) "antiLink" then
    (LinkDetection
       (AntiLink.detect (toLowerCase builtins) (linkPatternMatches builtins)
          messageContent),
     w)
  else if String.eqb (name m) "antiSpam" then
    let '(v, t) :=
      AntiSpam.detect (λ s, trim (toLowerCase builtins s))
        (spamSettings cfg) (messageTracker w) sender messageContent now in
    (SpamDetection v, set_messageTracker (λ _, t) w)
  else (NoDetection, w).

(** [handleViolation]: the [switch] on [module.name]; a detection of
    another module's shape cannot reach a handler. *)
Definition handleViolation (m : Module_) (now : Z) (groupId sender : string)
    (messageKey : nat) (detection : Detection) (w : World) : World :=
  match detection with
  | VirtexDetection v =>
      if String.eqb (name m) "antiVirtex"
      then Handlers.antiVirtexHandle bot groupId sender messageKey v w else w
  | ToxicDetection v =>
      if String.eqb (name m) "antiToxic"
      then Handlers.antiToxicHandle bot now groupId sender messageKey v w else w
  | LinkDetection v =>
      if String.eqb (name m) "antiLink"
      then Handlers.antiLinkHandle bot now groupId sender messageKey w else w
  | SpamDetection v =>
      if String.eqb (name m) "antiSpam"
      then Handlers.antiSpamHandle bot now groupId sender w else w
  | NoDetection => w
  end.

(** The [for] loop of [checkMessage] over the remaining modules. Next
    to the result it returns, in order, the modules whose detection was
    run, each with the [detected] flag it returned. *)
Fixpoint runModules (ms : list Module_) (info : MessageInfo) (now : Z) (w : World)
    : Result * list (string * bool) * World :=
  match ms with
  | [] => (notBlocked, [], w)
  | m :: rest =>
      if negb (isEnabled (instance m) (db w) (groupId info)) then
        runModules rest info now w
      else
        let '(detection, w) :=
          runModuleDetection m (messageContent info) (sender info) now w in
        if detected detection then
          let w := set_stats (λ s, {| totalChecks := totalChecks s;
                                      statViolations := statViolations s + 1;
                                      blocked := blocked s |}) w in
          let w :=
            handleViolation m now (groupId info) (sender info)
              (messageKey info) detection w in
          let w := set_stats (λ s, {| totalChecks := totalChecks s;
                                      statViolations := statViolations s;
                                      blocked := blocked s + 1 |}) w in
          ({| resBlocked := true; resModule := Some (name m);
              resDetection := Some detection |}, [(name m, true)], w)
        else
          let '(r, consulted, w) := runModules rest info now w in
          (r, (name m, false) :: consulted, w)
  end.

(** [checkMessage(bot, msg, messageInfo)] *)
Definition checkMessage (info : MessageInfo) (now : Z) (w : World)
    : Result * list (string * bool) * World :=
  if isGroup info && negb (Db.isProtected (db w) (groupId info)) then
    (notBlocked, [], w)
  else if Db.isAuthorOrOwner (db w) (jidNumber (sender info)) then
    (notBlocked, [], w)
  else if String.eqb (sender info) (selfId bot) then
    (notBlocked, [], w)
  else
    let w := set_stats (λ s, {| totalChecks := totalChecks s + 1;
                                statViolations := statViolations s;
                                blocked := blocked s |}) w in
    runModules modules info now w.

(** [checkNewMember(bot, groupId, participant)]: the boolean is
    [blocked]. A failed send in the blacklist arm is caught and reported
    as not blocked. *)
Definition checkNewMember (groupId participant : string) (w : World)
    : bool * World :=
  if negb (Db.isProtected (db w) groupId) then (false, w)
  else
    let phoneNumber := jidNumber participant in
    if Db.isAuthorOrOwner (db w) phoneNumber then (false, w)
    else if Db.isBlacklisted (db w) phoneNumber then
      let w := kickParticipant bot groupId [participant] w in
      let '(ok, w) := sendMessage bot groupId (BlacklistKick phoneNumber) w in
      (ok, w)
    else
      let geoCheck := GeoRestriction.detect (geo cfg) phoneNumber in
      if negb (GeoRestriction.allowed geoCheck)
         && isEnabled geoRestriction (db w) groupId
      then (true, Handlers.geoRestrictionHandle bot (geo cfg) groupId participant w)
      else (false, w).

End Engine.

End DefenseEngine.

(** ** GroupHandler.js *)

Module GroupHandler.

Section Handler.

Variable cfg : Config.
Variable bot : Bot.

(** The loop of [handleMemberJoin] over the participants; a failed
    send of the welcome message leaves the loop. *)
Fixpoint joinLoop (groupId : string) (participants : list string) (w : World)
    : World :=
  match participants with
  | [] => w
  | participant :: rest =>
      let '(blocked, w) := DefenseEngine.checkNewMember cfg bot groupId participant w in
      if blocked then joinLoop groupId rest w
      else
        let '(ok, w) :=
          sendMessage bot groupId (WelcomeMessage (jidNumber participant)) w in
        if ok then joinLoop groupId rest w else w
  end.

(** [handleMemberJoin(groupId, participants, groupSettings)] *)
Definition handleMemberJoin (groupId : string) (participants : list string)
    (groupSettings : Db.GroupSettings) (w : World) : World :=
  match Db.welcome groupSettings with
  | Some true =>
      match groupMetadata bot groupId with
      | None => w
      | Some metadata => joinLoop groupId participants w
      end
  | _ => w
  end.

(** [handleParticipantsUpdate] for [action = 'add']. *)
Definition handleParticipantsAdd (groupId : string) (participants : list string)
    (w : World) : World :=
  if negb (Db.isWhitelisted (db w) groupId) && negb (Db.isProtected (db w) groupId)
  then w
  else handleMemberJoin groupId participants (Db.getGroupSettings (db w) groupId) w.

End Handler.

End GroupHandler.

(** ** CooldownMiddleware.js *)

Module CooldownMiddleware.

(** [checkCooldown(sender, command)]: the remaining time when the user
    is on cooldown; authors and owners bypass the check. *)
Definition checkCooldown (now : Z) (sender command : string) (w : World)
    : option Z * World :=
  let senderNumber := jidNumber sender in
  if Db.isAuthorOrOwner (db w) senderNumber then (None, w)
  else
    let '(cooldownRemaining, d) := Db.isOnCooldown now senderNumber command (db w) in
    (cooldownRemaining, set_db (λ _, d) w).

(** [customCooldowns], in seconds. *)
Definition customCooldowns : list (string * Z) :=
  [ ("ai", 30); ("download-music", 60); ("download-tiktok", 60);
    ("share", 600); ("broadcast", 600); ("game", 5); ("joingame", 3);
    ("quotes", 10); ("sticker", 5); ("brat", 5) ]%Z.

(** [customCooldowns[command] || config.get('security.cooldownCommand')],
    for the name of a command that is not also the name of a member of
    [Object.prototype]. The literal inherits those members, and for such a
    name, which none of the command modules exports, the lookup gives the
    member in place of a number of seconds. *)
Definition getCooldownDuration (cfg : Config) (command : string) : Z :=
  match filter (λ e, fst e = command) customCooldowns with
  | (_, seconds) :: _ => seconds
  | [] => cooldownCommand cfg
  end.

(** [applyCooldown(sender, command)] *)
Definition applyCooldown (cfg : Config) (now : Z) (sender command : string)
    (w : World) : World :=
  let senderNumber := jidNumber sender in
  if Db.isAuthorOrOwner (db w) senderNumber then w
  else
    let cooldownTime := getCooldownDuration cfg command in
    set_db (Db.setCooldown (cooldownCommand cfg) now senderNumber command cooldownTime) w.

Definition timeWindow : Z := 60000.
Definition maxRequests : nat := 10.

(** [requests.filter(time => now - time < timeWindow)] *)
Definition recent (now : Z) (requests : list Z) : list Z :=
  filter (λ time, (now - time < timeWindow)%Z) requests.

(** [checkGlobalRateLimit(sender)]: the boolean is [limited]. *)
Definition checkGlobalRateLimit (now : Z) (sender : string) (w : World)
    : bool * World :=
  let senderNumber := jidNumber sender in
  if Db.isAuthorOrOwner (db w) senderNumber then (false, w)
  else
    let requests := default [] (globalCooldowns w !! senderNumber) in
    let recentRequests := recent now requests in
    if maxRequests <=? length recentRequests then
      (true, set_globalCooldowns (λ m, <[senderNumber := recentRequests]> m) w)
    else
      (false,
       set_globalCooldowns (λ m, <[senderNumber := recentRequests ++ [now]]> m) w).

End CooldownMiddleware.

(** ** ValidationMiddleware.js *)

Module ValidationMiddleware.

(** What a custom [validate] closure does. *)
Inductive Custom := CustomValid | CustomInvalid (errors : list string) | CustomThrows.

(** An entry of [getCommandRequirements]; an absent or zero bound is
    falsy and not checked. *)
Record Requirements := {
  minArgs : option nat;
  maxArgs : option nat;
  groupOnly : bool;
  requiresQuoted : bool;
  validate : option (list string → MessageInfo → Custom)
}.

Inductive Outcome :=
  | Valid
  | Invalid (errors : list string)      (* with a formatted [message] *)
  | Failed.                             (* the [catch] arm: no [message] *)

Definition isValid (o : Outcome) : bool :=
  match o with Valid => true | _ => false end.

(** [validateCommand(command, args, messageInfo)], over the table of
    requirements. *)
Definition validateCommand (table : string → option Requirements)
    (command : string) (args : list string) (info : MessageInfo) : Outcome :=
  match table command with
  | None => Valid
  | Some requirements =>
      let e1 :=
        match minArgs requirements with
        | Some (S n) => if length args <? S n then ["minArgs"] else []
        | _ => []
        end in
      let e2 :=
        match maxArgs requirements with
        | Some (S n) => if S n <? length args then ["maxArgs"] else []
        | _ => []
        end in
      let e3 := if groupOnly requirements && negb (isGroup info) then ["groupOnly"] else [] in
      let e4 := if requiresQuoted requirements && negb (quoted info) then ["requiresQuoted"] else [] in
      match
        match validate requirements with
        | None => Some []
        | Some f =>
            match f args info with
            | CustomValid => Some []
            | CustomInvalid errs => Some errs
            | CustomThrows => None
            end
        end
      with
      | None => Failed
      | Some e5 =>
          let errors := e1 ++ e2 ++ e3 ++ e4 ++ e5 in
          if 0 <? length errors then Invalid errors else Valid
      end
  end.

End ValidationMiddleware.

(** ** CommandManager *)

Module CommandManager.

(** How a command's [execute] ends: it returns, or it throws an error
    with a message; either way it may have changed the world. *)
Inductive Outcome := Returned (w : World) | Threw (message : string) (w : World).

Record Command := {
  name : string;
  role : string;
  cmdExecute : Bot → list string → MessageInfo → World → Outcome   (* command.execute *)
}.

Record Registry := {
  commands : gmap string Command;
  aliases : gmap string string
}.

(** [register(command)] *)
Definition register (c : Command) (commandAliases : list string) (r : Registry)
    : Registry :=
  {| commands := <[name c := c]> (commands r);
     aliases := foldl (λ m alias, <[alias := name c]> m) (aliases r) commandAliases |}.

(** [this.aliases.get(commandName) || commandName]: the empty string is
    falsy, so an alias of a command with the empty name is not followed. *)
Definition resolveAlias (r : Registry) (commandName : string) : string :=
  match aliases r !! commandName with
  | Some target => if String.eqb target "" then commandName else target
  | None => commandName
  end.

(** The stages of the pipeline, recorded as they are entered. *)
Inductive Step :=
  | AuthCheck | CooldownCheck | ValidationCheck | RateLimitCheck
  | Handler | UsageCount | CooldownCommit.

Global Instance Step_eq_dec : EqDecision Step.
Proof. solve_decision. Defined.

Section Dispatcher.

Variable cfg : Config.
Variable table : string → option ValidationMiddleware.Requirements.
Variable registry : Registry.
Variable bot : Bot.

(** The [catch] arm of [execute]: the error report is sent (a failure
    to send it is swallowed) and the error is logged. *)
Definition onError (info : MessageInfo) (message : string) (w : World) : World :=
  let '(_, w) := sendMessage bot (from info) (ErrorReport message) w in
  set_db (Db.logError message) w.

(** A rejection: the reason is sent; if that throws, the [catch] arm
    runs with the transport's error. *)
Definition reject (info : MessageInfo) (text : Text) (w : World) : World :=
  let '(ok, w) := sendMessage bot (from info) text w in
  if ok then w else onError info "send failed" w.

(** [execute(commandName, bot, msg, args, messageInfo)]: the success
    flag, the stages entered, and the world afterwards. *)
Definition execute (commandName : string) (args : list string)
    (info : MessageInfo) (now : Z) (w : World) : bool * list Step * World :=
  let actualCommand := resolveAlias registry commandName in
  match commands registry !! actualCommand with
  | None => (false, [], w)
  | Some command =>
      (* 1. Authentication check *)
      let authResult := AuthMiddleware.checkAuth (db w) (sender info) (role command) in
      if negb (AuthMiddleware.authorized authResult) then
        (false, [AuthCheck],
         reject info
           (AuthDenied (default AuthMiddleware.error (AuthMiddleware.reason authResult))
              (role command)) w)
      else
      (* 2. Cooldown check *)
      let '(cooldownResult, w) :=
        CooldownMiddleware.checkCooldown now (sender info) actualCommand w in
      match cooldownResult with
      | Some remaining =>
          (false, [AuthCheck; CooldownCheck],
           reject info (CooldownActive actualCommand remaining) w)
      | None =>
      (* 3. Validation check *)
      let validationResult :=
        ValidationMiddleware.validateCommand table actualCommand args info in
      match validationResult with
      | ValidationMiddleware.Invalid errors =>
          (false, [AuthCheck; CooldownCheck; ValidationCheck],
           reject info (ValidationError actualCommand errors) w)
      | ValidationMiddleware.Failed =>
          (false, [AuthCheck; CooldownCheck; ValidationCheck],
           reject info NoText w)
      | ValidationMiddleware.Valid =>
      (* 4. Global rate limit check *)
      let '(limited, w) := CooldownMiddleware.checkGlobalRateLimit now (sender info) w in
      if limited then
        (false, [AuthCheck; CooldownCheck; ValidationCheck; RateLimitCheck],
         reject info RateLimit w)
      else
      (* Execute the command *)
      match cmdExecute command bot args info w with
      | Threw message w =>
          (false, [AuthCheck; CooldownCheck; ValidationCheck; RateLimitCheck; Handler],
           onError info message w)
      | Returned w =>
          let w := set_db (Db.incrementCommandUsage actualCommand) w in
          let w := CooldownMiddleware.applyCooldown cfg now (sender info) actualCommand w in
          (true,
           [AuthCheck; CooldownCheck; ValidationCheck; RateLimitCheck; Handler;
            UsageCount; CooldownCommit],
           w)
      end
      end
      end
  end.

End Dispatcher.

End CommandManager.

(** ** Warnings, observed *)

Module WarnSpec.

(** The verdict leads to a warning in the group's mode. *)
Definition warns (groupId : string) (v : AntiVirtex.Verdict) (w : World) : Prop :=
  AntiVirtex.determineAction (AntiVirtex.severity v)
    (Db.effectiveDefenseMode (db w) groupId) = warn.

End WarnSpec.

(** ** The engine, observed *)

Module EngineSpec.

(** The modules of [ms] that are switched on for the group, in order. *)
Definition enabledIn (d : Db.t) (groupId : string) (ms : list DefenseEngine.Module_)
    : list DefenseEngine.Module_ :=
  filter (λ m, DefenseEngine.isEnabled (DefenseEngine.instance m) d groupId = true) ms.

(** The three early returns of [checkMessage]. *)
Definition skipsChecks (bot : Bot) (info : MessageInfo) (w : World) : bool :=
  (isGroup info && negb (Db.isProtected (db w) (groupId info)))
  || Db.isAuthorOrOwner (db w) (jidNumber (sender info))
  || String.eqb (sender info) (selfId bot).

(** The verdict of a module on the message, in the world [w]. *)
Definition verdictOf (cfg : Config) (builtins : Builtins) (info : MessageInfo)
    (now : Z) (w : World) (m : DefenseEngine.Module_) : DefenseEngine.Detection :=
  (DefenseEngine.runModuleDetection cfg builtins m
     (messageContent info) (sender info) now w).1.

(** Acting on a verdict: the [handle] method of the module whose verdict
    it is, called on the message. *)
Definition response (bot : Bot) (info : MessageInfo) (now : Z)
    (detection : DefenseEngine.Detection) (w : World) : World :=
  match detection with
  | DefenseEngine.VirtexDetection v =>
      Handlers.antiVirtexHandle bot (groupId info) (sender info) (messageKey info) v w
  | DefenseEngine.ToxicDetection v =>
      Handlers.antiToxicHandle bot now (groupId info) (sender info) (messageKey info) v w
  | DefenseEngine.LinkDetection _ =>
      Handlers.antiLinkHandle bot now (groupId info) (sender info) (messageKey info) w
  | DefenseEngine.SpamDetection _ =>
      Handlers.antiSpamHandle bot now (groupId info) (sender info) w
  | DefenseEngine.NoDetection => w
  end.

End EngineSpec.

(** ** The dispatcher, observed *)

Module DispatchSpec.

(** The stages of a successful dispatch, in order. *)
Definition pipeline : list CommandManager.Step :=
  [ CommandManager.AuthCheck; CommandManager.CooldownCheck;
    CommandManager.ValidationCheck; CommandManager.RateLimitCheck;
    CommandManager.Handler; CommandManager.UsageCount;
    CommandManager.CooldownCommit ].

(** Every cooldown entry of [d'] is an entry of [d]. *)
Definition noNewCooldown (d' d : Db.t) : Prop :=
  ∀ number command until,
    Db.userCooldowns d' number !! command = Some until →
    Db.userCooldowns d number !! command = Some until.

(** The texts with which the check that ended a dispatch rejects it.
    [NoText] is what is sent when [validateCommand] itself failed. *)
Definition rejectionOf (steps : list CommandManager.Step) (command role : string)
    (text : Text) : Prop :=
  match last steps with
  | Some CommandManager.AuthCheck => ∃ reason, text = AuthDenied reason role
  | Some CommandManager.CooldownCheck => ∃ remaining, text = CooldownActive command remaining
  | Some CommandManager.ValidationCheck =>
      (∃ errors, text = ValidationError command errors) ∨ text = NoText
  | Some CommandManager.RateLimitCheck => text = RateLimit
  | _ => False
  end.

End DispatchSpec.

(** ** The spam tracker, observed *)

Module SpamSpec.

(** The sender's tracked messages that are still inside the time window
    at [timestamp]. *)
Definition recentOf (st : AntiSpam.Settings) (tracker : AntiSpam.Tracker)
    (sender : string) (timestamp : Z) : list AntiSpam.Tracked :=
  filter (λ msg, (timestamp - AntiSpam.timestamp msg < AntiSpam.timeWindow st)%Z)
    (default [] (tracker !! jidNumber sender)).

End SpamSpec.

(** ** The global rate window, observed *)

Module RateWindow.

(** The sender's entry of [globalCooldowns]. *)
Definition stored (w : World) (sender : string) : list Z :=
  default [] (globalCooldowns w !! jidNumber sender).

(** The count that [checkGlobalRateLimit] compares with [maxRequests]
    when called at [now]: [recentRequests.length]. *)
Definition count (now : Z) (w : World) (sender : string) : nat :=
  length (CooldownMiddleware.recent now (stored w sender)).

(** A sequence of calls by one sender at the given times; returns the
    timestamps that were inserted (those of the calls that were not
    limited) and the world afterwards. *)
Fixpoint requestsAt (times : list Z) (sender : string) (w : World)
    : list Z * World :=
  match times with
  | [] => ([], w)
  | now :: later =>
      let '(limited, w) := CooldownMiddleware.checkGlobalRateLimit now sender w in
      let '(inserted, w) := requestsAt later sender w in
      (if limited then inserted else now :: inserted, w)
  end.

(** The count of the specification: the inserted entries within the
    closed interval from [T - window] to [T]. *)
Definition specCount (T : Z) (inserted : list Z) : nat :=
  length (filter (λ t, (T - CooldownMiddleware.timeWindow ≤ t ≤ T)%Z) inserted).

(** The inserted entries after [T - window] and up to [T]. *)
Definition halfOpenCount (T : Z) (inserted : list Z) : nat :=
  length (filter (λ t, (T - CooldownMiddleware.timeWindow < t ≤ T)%Z) inserted).

End RateWindow.

(** ** The matrix of the specification *)

(** Section 4.4 of the specification, in its words: [critical] always forces
    a kick; NORMAL: low, medium, high give a warning; STRICT: low gives a
    warning, medium and high a mute; LOCKDOWN: low gives a warning, medium
    and high a kick. (An unknown mode is given the fallback of the code.) *)
Definition specActionMatrix (severity : Severity) (mode : DefenseMode) : Action :=
  match severity, mode with
  | critical, _ => kick
  | low, _ => warn
  | _, NORMAL => warn
  | _, STRICT => mute
  | _, LOCKDOWN => kick
  | _, OtherMode => warn
  end.

(** ** Sample commands, table entries and data *)

Module Sample.

(** [String.prototype.toLowerCase] on ASCII text; to be used on ASCII
    inputs only. *)
Definition asciiLowerCase (s : jsString) : jsString :=
  map (λ c, if Regex.inRange 65 90 c then (c + 32)%Z else c) s.

(** Built-ins for ASCII messages without URLs or bad words. *)
Definition asciiBuiltins : Builtins :=
  {| toLowerCase := asciiLowerCase;
     scanBadWords := λ _, [];
     linkPatternMatches := λ _, [] |}.

(** [s.toUpperCase()] on an ASCII argument. *)
Fixpoint asciiUpperCase (s : string) : string :=
  match s with
  | EmptyString => EmptyString
  | String c rest =>
      let n := nat_of_ascii c in
      String (if (97 <=? n) && (n <=? 122) then ascii_of_nat (n - 32) else c)
             (asciiUpperCase rest)
  end.

Definition modeOfString (s : string) : option DefenseMode :=
  if String.eqb s "NORMAL" then Some NORMAL
  else if String.eqb s "STRICT" then Some STRICT
  else if String.eqb s "LOCKDOWN" then Some LOCKDOWN
  else None.

(** The ['defense'] entry of [getCommandRequirements]: its [validate]
    closure reads [args[0].toUpperCase()], which throws on an empty
    argument list. *)
Definition defenseRequirements : ValidationMiddleware.Requirements :=
  {| ValidationMiddleware.minArgs := Some 1;
     ValidationMiddleware.maxArgs := Some 1;
     ValidationMiddleware.groupOnly := false;
     ValidationMiddleware.requiresQuoted := false;
     ValidationMiddleware.validate := Some (λ args _,
       match args with
       | [] => ValidationMiddleware.CustomThrows
       | a :: _ =>
           match modeOfString (asciiUpperCase a) with
           | Some _ => ValidationMiddleware.CustomValid
           | None => ValidationMiddleware.CustomInvalid ["Mode defense harus: NORMAL, STRICT, LOCKDOWN"]
           end
       end) |}.

(** The part of the table used below; [ping] has no entry. *)
Definition requirements (command : string) : option ValidationMiddleware.Requirements :=
  if String.eqb command "defense" then Some defenseRequirements else None.

(** The [defense] command of AuthorCommands.js. *)
Definition defense (bot : Bot) (args : list string) (info : MessageInfo) (w : World)
    : CommandManager.Outcome :=
  let reply text w :=
    let '(ok, w) := sendMessage bot (from info) (OtherText text) w in
    if ok then CommandManager.Returned w else CommandManager.Threw "send failed" w in
  match args with
  | [] => reply "DEFENSE MODE" w
  | a :: _ =>
      match modeOfString (asciiUpperCase a) with
      | None => reply "Invalid mode" w
      | Some mode =>
          let w :=
            if isGroup info
            then set_db (Db.updateGroupDefenseMode (groupId info) mode) w
            else set_db (Db.setDefenseMode mode) w in
          reply "DEFENSE MODE UPDATED" w
      end
  end.

(** The [ping] command of GeneralCommands.js. *)
Definition ping (bot : Bot) (args : list string) (info : MessageInfo) (w : World)
    : CommandManager.Outcome :=
  let '(ok, w) := sendMessage bot (from info) (OtherText "Pinging...") w in
  if negb ok then CommandManager.Threw "send failed" w
  else
    let '(ok, w) := sendMessage bot (from info) (OtherText "PONG!") w in
    if ok then CommandManager.Returned w else CommandManager.Threw "send failed" w.

Definition registry : CommandManager.Registry :=
  CommandManager.register
    {| CommandManager.name := "ping"; CommandManager.role := "user";
       CommandManager.cmdExecute := ping |} []
    (CommandManager.register
       {| CommandManager.name := "defense"; CommandManager.role := "author";
          CommandManager.cmdExecute := defense |} []
       {| CommandManager.commands := ∅; CommandManager.aliases := ∅ |}).

Definition author : string := "6281000000001".
Definition owner : string := "6281000000002".
Definition member : string := "6281000000003".
Definition banned : string := "6281000000004".
Definition foreigner : string := "12025550100".
Definition group : string := "120363000000000001@g.us".

Definition jid (number : string) : string := number +:+ "@s.whatsapp.net".

(** Group settings with the welcome message switched off. *)
Definition quietSettings : Db.GroupSettings :=
  {| Db.antiLink := Some true; Db.antiSpam := Some true; Db.antiToxic := Some true;
     Db.antiVirtex := Some true; Db.welcome := Some false; Db.goodbye := Some true;
     Db.geoRestriction := Some true; Db.gDefenseMode := Some NORMAL |}.

(** A database with one author, one owner, one blacklisted number and
    one protected group. *)
Definition database : Db.t :=
  {| Db.botMode := Some Db.PUBLIC; Db.defenseMode := Some NORMAL;
     Db.authors := [author]; Db.owners := [owner];
     Db.blacklisted := [banned]; Db.disabled := [];
     Db.muted := ∅; Db.warned := ∅; Db.cooldowns := ∅;
     Db.whitelisted := []; Db.protected := [group];
     Db.settings := {[ group := Db.getDefaultGroupSettings ]};
     Db.commands := ∅; Db.violations := ∅; Db.errorLog := [] |}.

Definition world : World :=
  {| db := database; virtexState := AntiVirtex.initialState;
     messageTracker := ∅; globalCooldowns := ∅;
     stats := {| totalChecks := 0; statViolations := 0; blocked := 0 |};
     outbox := [] |}.

Definition metadata : GroupMetadata := {| subject := "devs"; participants := 10 |}.

(** A bot whose socket carries out every call. *)
Definition liveBot : Bot :=
  {| selfId := "6281999999999@s.whatsapp.net";
     sockOk := λ _, true;
     groupMetadata := λ _, Some metadata |}.

(** A bot whose socket fails on the replies of command handlers. *)
Definition flakyBot : Bot :=
  {| selfId := "6281999999999@s.whatsapp.net";
     sockOk := λ e, match e with Send _ (OtherText _) => false | _ => true end;
     groupMetadata := λ _, Some metadata |}.

Definition groupMessage (number : string) (body : jsString) : MessageInfo :=
  {| from := group; sender := jid number; messageContent := body;
     isGroup := true; groupId := group; quoted := false; messageKey := 1 |}.

Definition directMessage (number : string) (body : jsString) : MessageInfo :=
  {| from := jid number; sender := jid number; messageContent := body;
     isGroup := false; groupId := "null"; quoted := false; messageKey := 1 |}.

(** Sixty times the letter a, and what [checkRepeatedCharacters] says
    about it. *)
Definition sixtyAs : jsString := replicate 60 97%Z.

Definition sixtyAsVerdict : AntiVirtex.Verdict :=
  AntiVirtex.checkRepeatedCharacters AntiVirtex.defaultSettings sixtyAs.

(** The [ping] command as registered. *)
Definition pingCommand : CommandManager.Command :=
  {| CommandManager.name := "ping"; CommandManager.role := "user";
     CommandManager.cmdExecute := ping |}.

(** [content.toLowerCase().trim()] on ASCII text. *)
Definition asciiNormalize (s : jsString) : jsString :=
  trim (asciiLowerCase s).

(** A tracker that holds a message of another user only. *)
Definition othersTracker : AntiSpam.Tracker :=
  {[ owner := [ {| AntiSpam.timestamp := 900; AntiSpam.content := js "hi" |} ] ]}.

End Sample.

(** ** Database.js: the remaining accessors *)

Module Database.

(** [get] and [set] split a path at its dots. The maps of [Db.t] are keyed
    by whole identifiers, which describes the nested objects as long as no
    stored key is a proper dot-separated prefix of another one: phone
    numbers and command names hold no dot, and group ids all end in
    [@g.us]. *)

Definition set_owners (f : list string → list string) (d : Db.t) : Db.t :=
  {| Db.botMode := Db.botMode d; Db.defenseMode := Db.defenseMode d;
     Db.authors := Db.authors d; Db.owners := f (Db.owners d);
     Db.blacklisted := Db.blacklisted d; Db.disabled := Db.disabled d;
     Db.muted := Db.muted d; Db.warned := Db.warned d;
     Db.cooldowns := Db.cooldowns d; Db.whitelisted := Db.whitelisted d;
     Db.protected := Db.protected d; Db.settings := Db.settings d;
     Db.commands := Db.commands d; Db.violations := Db.violations d;
     Db.errorLog := Db.errorLog d |}.

Definition set_blacklisted (f : list string → list string) (d : Db.t) : Db.t :=
  {| Db.botMode := Db.botMode d; Db.defenseMode := Db.defenseMode d;
     Db.authors := Db.authors d; Db.owners := Db.owners d;
     Db.blacklisted := f (Db.blacklisted d); Db.disabled := Db.disabled d;
     Db.muted := Db.muted d; Db.warned := Db.warned d;
     Db.cooldowns := Db.cooldowns d; Db.whitelisted := Db.whitelisted d;
     Db.protected := Db.protected d; Db.settings := Db.settings d;
     Db.commands := Db.commands d; Db.violations := Db.violations d;
     Db.errorLog := Db.errorLog d |}.

Definition set_protected (f : list string → list string) (d : Db.t) : Db.t :=
  {| Db.botMode := Db.botMode d; Db.defenseMode := Db.defenseMode d;
     Db.authors := Db.authors d; Db.owners := Db.owners d;
     Db.blacklisted := Db.blacklisted d; Db.disabled := Db.disabled d;
     Db.muted := Db.muted d; Db.warned := Db.warned d;
     Db.cooldowns := Db.cooldowns d; Db.whitelisted := Db.whitelisted d;
     Db.protected := f (Db.protected d); Db.settings := Db.settings d;
     Db.commands := Db.commands d; Db.violations := Db.violations d;
     Db.errorLog := Db.errorLog d |}.

Definition set_settings
    (f : gmap string Db.GroupSettings → gmap string Db.GroupSettings) (d : Db.t) : Db.t :=
  {| Db.botMode := Db.botMode d; Db.defenseMode := Db.defenseMode d;
     Db.authors := Db.authors d; Db.owners := Db.owners d;
     Db.blacklisted := Db.blacklisted d; Db.disabled := Db.disabled d;
     Db.muted := Db.muted d; Db.warned := Db.warned d;
     Db.cooldowns := Db.cooldowns d; Db.whitelisted := Db.whitelisted d;
     Db.protected := Db.protected d; Db.settings := f (Db.settings d);
     Db.commands := Db.commands d; Db.violations := Db.violations d;
     Db.errorLog := Db.errorLog d |}.

(** *** The lists of numbers and groups *)

(** [list.push(x)] *)
Definition push (x : string) (l : list string) : list string := l ++ [x].

(** [list.splice(list.indexOf(x), 1)] for an [x] that occurs: the first
    occurrence is removed. *)
Fixpoint spliceFirst (x : string) (l : list string) : list string :=
  match l with
  | [] => []
  | y :: rest => if String.eqb y x then rest else y :: spliceFirst x rest
  end.

(** The [add...] and [remove...] methods share one shape: the list is
    changed when the element is absent (present), and the result tells
    whether it was. *)
Definition addTo (set : (list string → list string) → Db.t → Db.t)
    (get : Db.t → list string) (x : string) (d : Db.t) : bool * Db.t :=
  if includes (get d) x then (false, d) else (true, set (push x) d).

Definition removeFrom (set : (list string → list string) → Db.t → Db.t)
    (get : Db.t → list string) (x : string) (d : Db.t) : bool * Db.t :=
  if includes (get d) x then (true, set (spliceFirst x) d) else (false, d).

Definition addOwner := addTo set_owners Db.owners.
Definition removeOwner := removeFrom set_owners Db.owners.
Definition addBlacklist := addTo set_blacklisted Db.blacklisted.
Definition removeBlacklist := removeFrom set_blacklisted Db.blacklisted.

(** *** Group settings *)

Definition setGroupSettings (groupId : string) (settings : Db.GroupSettings)
    (d : Db.t) : Db.t :=
  set_settings (λ m, <[groupId := settings]> m) d.

(** [addProtected]: a group that was not protected also has its settings
    set to the defaults. *)
Definition addProtected (groupId : string) (d : Db.t) : bool * Db.t :=
  if includes (Db.protected d) groupId then (false, d)
  else
    (true,
     setGroupSettings groupId Db.getDefaultGroupSettings
       (set_protected (push groupId) d)).

(** The keys of a settings object that hold a toggle. *)
Inductive Toggle :=
  | antiLink | antiSpam | antiToxic | antiVirtex | welcome | goodbye | geoRestriction.

Definition setToggle (key : Toggle) (value : bool) (g : Db.GroupSettings)
    : Db.GroupSettings :=
  let v := Some value in
  match key with
  | antiLink =>
      {| Db.antiLink := v; Db.antiSpam := Db.antiSpam g; Db.antiToxic := Db.antiToxic g;
         Db.antiVirtex := Db.antiVirtex g; Db.welcome := Db.welcome g;
         Db.goodbye := Db.goodbye g; Db.geoRestriction := Db.geoRestriction g;
         Db.gDefenseMode := Db.gDefenseMode g |}
  | antiSpam =>
      {| Db.antiLink := Db.antiLink g; Db.antiSpam := v; Db.antiToxic := Db.antiToxic g;
         Db.antiVirtex := Db.antiVirtex g; Db.welcome := Db.welcome g;
         Db.goodbye := Db.goodbye g; Db.geoRestriction := Db.geoRestriction g;
         Db.gDefenseMode := Db.gDefenseMode g |}
  | antiToxic =>
      {| Db.antiLink := Db.antiLink g; Db.antiSpam := Db.antiSpam g; Db.antiToxic := v;
         Db.antiVirtex := Db.antiVirtex g; Db.welcome := Db.welcome g;
         Db.goodbye := Db.goodbye g; Db.geoRestriction := Db.geoRestriction g;
         Db.gDefenseMode := Db.gDefenseMode g |}
  | antiVirtex =>
      {| Db.antiLink := Db.antiLink g; Db.antiSpam := Db.antiSpam g;
         Db.antiToxic := Db.antiToxic g; Db.antiVirtex := v; Db.welcome := Db.welcome g;
         Db.goodbye := Db.goodbye g; Db.geoRestriction := Db.geoRestriction g;
         Db.gDefenseMode := Db.gDefenseMode g |}
  | welcome =>
      {| Db.antiLink := Db.antiLink g; Db.antiSpam := Db.antiSpam g;
         Db.antiToxic := Db.antiToxic g; Db.antiVirtex := Db.antiVirtex g;
         Db.welcome := v; Db.goodbye := Db.goodbye g;
         Db.geoRestriction := Db.geoRestriction g;
         Db.gDefenseMode := Db.gDefenseMode g |}
  | goodbye =>
      {| Db.antiLink := Db.antiLink g; Db.antiSpam := Db.antiSpam g;
         Db.antiToxic := Db.antiToxic g; Db.antiVirtex := Db.antiVirtex g;
         Db.welcome := Db.welcome g; Db.goodbye := v;
         Db.geoRestriction := Db.geoRestriction g;
         Db.gDefenseMode := Db.gDefenseMode g |}
  | geoRestriction =>
      {| Db.antiLink := Db.antiLink g; Db.antiSpam := Db.antiSpam g;
         Db.antiToxic := Db.antiToxic g; Db.antiVirtex := Db.antiVirtex g;
         Db.welcome := Db.welcome g; Db.goodbye := Db.goodbye g;
         Db.geoRestriction := v; Db.gDefenseMode := Db.gDefenseMode g |}
  end.

(** [updateGroupSetting(groupId, key, value)] for a toggle: the group's
    settings (the defaults when none are stored) with one key replaced
    are stored. *)
Definition updateGroupSetting (groupId : string) (key : Toggle) (value : bool)
    (d : Db.t) : Db.t :=
  setGroupSettings groupId (setToggle key value (Db.getGroupSettings d groupId)) d.

(** *** Mutes *)

Definition removeMute (number : string) (d : Db.t) : Db.t :=
  Db.set_muted (λ m, delete number m) d.

(** [isMuted(number)]: a record whose time has passed is removed on the
    way. *)
Definition isMuted (now : Z) (number : string) (d : Db.t) : bool * Db.t :=
  match Db.muted d !! number with
  | None => (false, d)
  | Some until =>
      if (until <? now)%Z then (false, removeMute number d) else (true, d)
  end.

(** *** Warnings *)

(** [removeWarn(number)]: returns the decremented count, which is not
    stored when it is zero. *)
Definition removeWarn (number : string) (d : Db.t) : nat * Db.t :=
  let count := 0 `max` (Db.getWarnCount d number - 1) in
  if count =? 0 then (count, Db.set_warned (λ m, delete number m) d)
  else (count, Db.set_warned (λ m, <[number := count]> m) d).

End Database.

(** ** Stored settings, observed *)

Module SettingsSpec.

(** Every stored settings object names a defense mode. The database
    starts with no stored settings, and each writer of settings starts from
    the stored object or from the defaults, which name [NORMAL]. *)
Definition namesMode (d : Db.t) : Prop :=
  ∀ g s, Db.settings d !! g = Some s → Db.gDefenseMode s ≠ None.

End SettingsSpec.

(** ** CooldownMiddleware.js: maintenance *)

Module CooldownMaintenance.

(** [clearExpiredCooldowns()]: the two nested loops over
    [Object.entries]; removing an entry changes neither the entries still
    to come nor their timestamps. *)
Definition clearExpiredCooldowns (now : Z) (d : Db.t) : Db.t :=
  foldl
    (λ d '(number, commands),
       foldl
         (λ d '(command, timestamp),
            if (timestamp <? now)%Z then Db.removeCooldown number command d else d)
         d (map_to_list commands))
    d (map_to_list (Db.cooldowns d)).

Definition maxAge : Z := 3600000.

(** One loop of [cleanup()] over a map of timestamps: an entry keeps its
    timestamps younger than [maxAge] and is deleted when none is left. *)
Definition sweep (now : Z) (m : gmap string (list Z)) : gmap string (list Z) :=
  omap (λ requests,
          let recent := filter (λ time, (now - time < maxAge)%Z) requests in
          if length recent =? 0 then None else Some recent)
       m.

(** [cleanup()], on [globalCooldowns] and [spamTracker]. *)
Definition cleanup (now : Z) (maps : gmap string (list Z) * gmap string (list Z))
    : gmap string (list Z) * gmap string (list Z) :=
  (sweep now maps.1, sweep now maps.2).

End CooldownMaintenance.

(** ** CommandManager: the registry *)

Module CommandRegistry.

(** The registry of a fresh [CommandManager], before [registerCommands]. *)
Definition empty : CommandManager.Registry :=
  {| CommandManager.commands := ∅; CommandManager.aliases := ∅ |}.

(** A sequence of [register] calls, each with the command's aliases. *)
Definition registerAll (l : list (CommandManager.Command * list string))
    (r : CommandManager.Registry) : CommandManager.Registry :=
  foldl (λ r entry, CommandManager.register entry.1 entry.2 r) r l.

(** [has(commandName)] *)
Definition has (r : CommandManager.Registry) (commandName : string) : bool :=
  bool_decide (is_Some (CommandManager.commands r !! commandName))
  || bool_decide (is_Some (CommandManager.aliases r !! commandName)).

(** [get(commandName)] *)
Definition get (r : CommandManager.Registry) (commandName : string)
    : option CommandManager.Command :=
  CommandManager.commands r !! CommandManager.resolveAlias r commandName.

(** Every alias leads to a command with a name. *)
Definition aliasesNamed (r : CommandManager.Registry) : Prop :=
  ∀ alias target, CommandManager.aliases r !! alias = Some target → target ≠ "".

(** Every alias leads to a registered command. *)
Definition aliasesResolve (r : CommandManager.Registry) : Prop :=
  ∀ alias target,
    CommandManager.aliases r !! alias = Some target →
    is_Some (CommandManager.commands r !! target).

End CommandRegistry.

(** ** The users of the database, observed *)

Module UsersSpec.

(** Two databases agree on who is who: the same authors, owners,
    blacklisted and disabled numbers, and the same bot mode. *)
Definition sameUsers (d' d : Db.t) : Prop :=
  Db.authors d' = Db.authors d ∧ Db.owners d' = Db.owners d
  ∧ Db.blacklisted d' = Db.blacklisted d ∧ Db.disabled d' = Db.disabled d
  ∧ Db.botMode d' = Db.botMode d.

End UsersSpec.

(** ** The requirements of a command, observed *)

Module ValidationSpec.

(** The arguments and the message meet the declared requirements. *)
Definition meets (r : ValidationMiddleware.Requirements) (args : list string)
    (info : MessageInfo) : Prop :=
  (∀ n, ValidationMiddleware.minArgs r = Some (S n) → S n ≤ length args)
  ∧ (∀ n, ValidationMiddleware.maxArgs r = Some (S n) → length args ≤ S n)
  ∧ (ValidationMiddleware.groupOnly r = true → isGroup info = true)
  ∧ (ValidationMiddleware.requiresQuoted r = true → quoted info = true)
  ∧ (∀ f, ValidationMiddleware.validate r = Some f →
       f args info = ValidationMiddleware.CustomValid
       ∨ f args info = ValidationMiddleware.CustomInvalid []).

End ValidationSpec.

(** ** DefenseEngine: switches and modes *)

Module DefenseAdmin.

Global Instance Instance_eq_dec : EqDecision DefenseEngine.Instance.
Proof. solve_decision. Defined.

(** The key of the settings object that a module's [enable], [disable]
    and [isEnabled] use. *)
Definition toggleOf (i : DefenseEngine.Instance) : Database.Toggle :=
  match i with
  | DefenseEngine.antiVirtex => Database.antiVirtex
  | DefenseEngine.antiToxic => Database.antiToxic
  | DefenseEngine.antiLink => Database.antiLink
  | DefenseEngine.antiSpam => Database.antiSpam
  | DefenseEngine.geoRestriction => Database.geoRestriction
  end.

(** [instance.enable(groupId)] and [instance.disable(groupId)] *)
Definition enable (i : DefenseEngine.Instance) (groupId : string) (d : Db.t) : Db.t :=
  Database.updateGroupSetting groupId (toggleOf i) true d.

Definition disable (i : DefenseEngine.Instance) (groupId : string) (d : Db.t) : Db.t :=
  Database.updateGroupSetting groupId (toggleOf i) false d.

(** [this.modules.find(m => m.name === moduleName)] *)
Definition findModule (moduleName : string) : option DefenseEngine.Module_ :=
  head (filter (λ m, DefenseEngine.name m = moduleName) DefenseEngine.modules).

(** [disableModule]; [None] stands for the error thrown when no module
    has the name. *)
Definition disableModule (groupId moduleName : string) (d : Db.t) : option Db.t :=
  match findModule moduleName with
  | None => None
  | Some module => Some (disable (DefenseEngine.instance module) groupId d)
  end.

(** [enableAllModules] and [disableAllModules] *)
Definition enableAllModules (groupId : string) (d : Db.t) : Db.t :=
  foldl (λ d module, enable (DefenseEngine.instance module) groupId d)
    d DefenseEngine.modules.

Definition disableAllModules (groupId : string) (d : Db.t) : Db.t :=
  foldl (λ d module, disable (DefenseEngine.instance module) groupId d)
    d DefenseEngine.modules.

End DefenseAdmin.

(** ** GeoRestriction: the whitelist *)

Module GeoAdmin.

(** [addToWhitelist] and [removeFromWhitelist]: the whitelist is a [Set]
    of cleaned numbers. *)
Definition addToWhitelist (phoneNumber : string) (s : GeoRestriction.State)
    : GeoRestriction.State :=
  let cleanNumber := GeoRestriction.digitsOnly phoneNumber in
  {| GeoRestriction.allowedCountries := GeoRestriction.allowedCountries s;
     GeoRestriction.whitelist :=
       if includes (GeoRestriction.whitelist s) cleanNumber
       then GeoRestriction.whitelist s
       else GeoRestriction.whitelist s ++ [cleanNumber] |}.

Definition removeFromWhitelist (phoneNumber : string) (s : GeoRestriction.State)
    : GeoRestriction.State :=
  let cleanNumber := GeoRestriction.digitsOnly phoneNumber in
  {| GeoRestriction.allowedCountries := GeoRestriction.allowedCountries s;
     GeoRestriction.whitelist :=
       filter (λ n, n ≠ cleanNumber) (GeoRestriction.whitelist s) |}.

End GeoAdmin.

(** ** AntiSpam: maintenance *)

Module SpamMaintenance.

(** [cleanup()]: an entry keeps its messages younger than twice the
    time window and is deleted when none is left. *)
Definition cleanup (st : AntiSpam.Settings) (now : Z) (tracker : AntiSpam.Tracker)
    : AntiSpam.Tracker :=
  omap (λ messages,
          let recentMessages :=
            filter (λ msg, (now - AntiSpam.timestamp msg < AntiSpam.timeWindow st * 2)%Z)
              messages in
          if length recentMessages =? 0 then None else Some recentMessages)
       tracker.

End SpamMaintenance.

(** ** New members, observed *)

Module JoinSpec.

(** Whom [checkNewMember] lets into a group. *)
Definition admitted (cfg : Config) (d : Db.t) (groupId participant : string) : bool :=
  let number := jidNumber participant in
  negb (Db.isProtected d groupId)
  || Db.isAuthorOrOwner d number
  || (negb (Db.isBlacklisted d number)
      && (GeoRestriction.allowed (GeoRestriction.detect (geo cfg) number)
          || negb (DefenseEngine.isEnabled DefenseEngine.geoRestriction d groupId))).

(** The database without its violation counters. *)
Definition moderation (d : Db.t) : Db.t := Db.set_violations (λ _, ∅) d.

(** The calls on the socket for one new member. *)
Definition reception (cfg : Config) (d : Db.t) (groupId participant : string)
    : list Effect :=
  let number := jidNumber participant in
  if admitted cfg d groupId participant then
    [Send groupId (WelcomeMessage number)]
  else if Db.isBlacklisted d number then
    [Kick groupId [participant]; Send groupId (BlacklistKick number)]
  else
    [Kick groupId [participant];
     Send groupId
       (GeoViolation number
          (GeoRestriction.country (GeoRestriction.detect (geo cfg) number)))].

End JoinSpec.

(** ** Links, observed *)

Module LinkSpec.

(** The test of [detect] for a whitelisted link: some whitelisted domain
    occurs somewhere in the lower-cased link. *)
Definition whitelisted (toLowerCase : jsString → jsString) (link : jsString) : bool :=
  existsb (λ domain, AntiLink.jsIncludes (toLowerCase link) domain) AntiLink.whitelist.

End LinkSpec.

(** ** Further sample data *)

Module Fixtures.

(** A bot whose socket fails on welcome messages. *)
Definition unwelcomingBot : Bot :=
  {| selfId := selfId Sample.liveBot;
     sockOk := λ e, match e with Send _ (WelcomeMessage _) => false | _ => true end;
     groupMetadata := groupMetadata Sample.liveBot |}.

(** The sample world after four messages of the member within half a
    second. *)
Definition busyWorld : World :=
  set_messageTracker
    (λ _, {[ Sample.member :=
               [ {| AntiSpam.timestamp := 100; AntiSpam.content := js "a" |};
                 {| AntiSpam.timestamp := 200; AntiSpam.content := js "b" |};
                 {| AntiSpam.timestamp := 300; AntiSpam.content := js "c" |};
                 {| AntiSpam.timestamp := 400; AntiSpam.content := js "d" |} ] ]})
    Sample.world.

(** The matches of the link patterns in the message
    [https://evil.site/?x=github.com]: the whole of it for the pattern of
    standard URLs, and [github.com] for the pattern of bare domains. *)
Definition borrowedDomain : jsString := js "https://evil.site/?x=github.com".

Definition borrowedDomainMatches (message : jsString) : list jsString :=
  [borrowedDomain; js "github.com"].

(** The configuration of a process started with [MAX_WARN] set to [n]
    and nothing else in its environment. *)
Definition withMaxWarn (n : nat) : Config :=
  {| virtexSettings := virtexSettings defaultConfig;
     spamSettings := spamSettings defaultConfig;
     geo := geo defaultConfig;
     cooldownCommand := cooldownCommand defaultConfig;
     maxWarn := if n =? 0 then 3 else n |}.

(** The entries of the engine's module list for the flood detector and
    for the spam detector. *)
Definition virtexModule : DefenseEngine.Module_ :=
  {| DefenseEngine.name := "antiVirtex";
     DefenseEngine.instance := DefenseEngine.antiVirtex;
     DefenseEngine.priority := 1;
     DefenseEngine.checkOnNewMember := false |}.

Definition spamModule : DefenseEngine.Module_ :=
  {| DefenseEngine.name := "antiSpam";
     DefenseEngine.instance := DefenseEngine.antiSpam;
     DefenseEngine.priority := 4;
     DefenseEngine.checkOnNewMember := false |}.

(** The sample world with the bot in SELF mode. *)
Definition selfModeWorld : World :=
  set_db
    (λ d, {| Db.botMode := Some Db.SELF; Db.defenseMode := Db.defenseMode d;
             Db.authors := Db.authors d; Db.owners := Db.owners d;
             Db.blacklisted := Db.blacklisted d; Db.disabled := Db.disabled d;
             Db.muted := Db.muted d; Db.warned := Db.warned d;
             Db.cooldowns := Db.cooldowns d; Db.whitelisted := Db.whitelisted d;
             Db.protected := Db.protected d; Db.settings := Db.settings d;
             Db.commands := Db.commands d; Db.violations := Db.violations d;
             Db.errorLog := Db.errorLog d |})
    Sample.world.

(** A [.ping] sent to a group that is neither whitelisted nor
    protected. *)
Definition strayPing (number : string) : MessageInfo :=
  {| from := "120363000000000002@g.us"; sender := Sample.jid number;
     messageContent := js ".ping"; isGroup := true;
     groupId := "120363000000000002@g.us"; quoted := false; messageKey := 1 |}.

(** A command without a name, reachable only through its alias. *)
Definition namelessCommand : CommandManager.Command :=
  {| CommandManager.name := "";
     CommandManager.role := "user";
     CommandManager.cmdExecute := λ _ _ _ w, CommandManager.Returned w |}.

End Fixtures.

(** ** MessageHandler.js *)

Module MessageHandler.

(** What [extractMessageInfo] finds besides the fields of [MessageInfo]:
    whether the body starts with a prefix, and the command and arguments
    it then spells. *)
Record Parsed := {
  isCommand : bool;
  command : string;
  args : list string
}.

Section Handler.

Variable cfg : Config.
Variable builtins : Builtins.
Variable table : string → option ValidationMiddleware.Requirements.
Variable registry : CommandManager.Registry.
Variable bot : Bot.

(** The branch for a player of an active game ([global.gameService] and
    [handleGameMove]), taken as given. *)
Variable handleGame : MessageInfo → World → World.

(** [runDefenseModules(msg, messageInfo)] *)
Definition runDefenseModules (info : MessageInfo) (now : Z) (w : World)
    : bool * World :=
  let '(result, _, w) := DefenseEngine.checkMessage cfg builtins bot info now w in
  (DefenseEngine.resBlocked result, w).

(** [handleCommand(msg, messageInfo)] *)
Definition handleCommand (info : MessageInfo) (parsed : Parsed) (now : Z) (w : World)
    : World :=
  if negb (CommandRegistry.has registry (command parsed)) then w
  else
    let '(_, _, w) :=
      CommandManager.execute cfg table registry bot (command parsed) (args parsed)
        info now w in
    w.

(** A refusal sent from [handleMessage]; when the socket fails, the
    [catch] arm logs the error. *)
Definition refuse (info : MessageInfo) (text : string) (w : World) : World :=
  let '(ok, w) := sendMessage bot (from info) (OtherText text) w in
  if ok then w else set_db (Db.logError "send failed") w.

(** What follows the checks: the command, or else the game. *)
Definition dispatch (info : MessageInfo) (parsed : Parsed) (now : Z) (w : World)
    : World :=
  if isCommand parsed then handleCommand info parsed now w
  else if isGroup info then handleGame info w
  else w.

(** [handleMessage(msg)], for a message whose information could be
    extracted. *)
Definition handleMessage (info : MessageInfo) (parsed : Parsed) (now : Z) (w : World)
    : World :=
  let senderNumber := jidNumber (sender info) in
  if String.eqb (sender info) (selfId bot) then w
  else if Db.isBlacklisted (db w) senderNumber then w
  else if Db.isDisabled (db w) senderNumber then
    if isCommand parsed then refuse info "Anda telah kena disable oleh author." w
    else w
  else if match Db.getBotMode (db w) with
          | Db.SELF => negb (Db.isAuthor (db w) senderNumber)
          | Db.PUBLIC => false
          end
  then
    if isCommand parsed then refuse info "Only the author can use bot commands." w
    else w
  else if isGroup info then
    if negb (Db.isWhitelisted (db w) (groupId info))
       && negb (Db.isProtected (db w) (groupId info))
    then w
    else
      let '(muted, d) := Database.isMuted now senderNumber (db w) in
      let w := set_db (λ _, d) w in
      if muted then deleteMessage bot (from info) (messageKey info) w
      else if Db.isProtected (db w) (groupId info) then
        let '(shouldBlock, w) := runDefenseModules info now w in
        if shouldBlock then w else dispatch info parsed now w
      else dispatch info parsed now w
  else dispatch info parsed now w.

End Handler.

End MessageHandler.

(** ** The sender of a message, observed *)

Module MessageSpec.

(** A sender whom [handleMessage] does not turn away at the door: not
    the bot itself, neither blacklisted nor disabled, and the author when
    the bot is in SELF mode. *)
Definition admittedSender (bot : Bot) (info : MessageInfo) (w : World) : Prop :=
  String.eqb (sender info) (selfId bot) = false
  ∧ Db.isBlacklisted (db w) (jidNumber (sender info)) = false
  ∧ Db.isDisabled (db w) (jidNumber (sender info)) = false
  ∧ (Db.getBotMode (db w) = Db.PUBLIC
     ∨ Db.isAuthor (db w) (jidNumber (sender info)) = true).

End MessageSpec.

(** ** OwnerCommands.js *)

Module OwnerCommands.

Section Commands.

(** [messageInfo.quoted.participant], when the message quotes another
    and the quoted message has that field; [MessageInfo] itself records
    only whether a message is quoted. *)
Variable quotedParticipant : option string.

(** The number a command is aimed at: the quoted participant, or else
    the digits of the first argument; the empty string stands for
    [null]. *)
Definition targetNumber (args : list string) : string :=
  match quotedParticipant with
  | Some (String c rest) => jidNumber (String c rest)
  | _ =>
      match args with
      | a :: _ => GeoRestriction.digitsOnly a
      | [] => ""
      end
  end.

(** A reply of a command; a failure of the socket leaves the command by
    an exception. *)
Definition reply (bot : Bot) (info : MessageInfo) (text : string) (w : World)
    : CommandManager.Outcome :=
  let '(ok, w) := sendMessage bot (from info) (OtherText text) w in
  if ok then CommandManager.Returned w else CommandManager.Threw "send failed" w.

(** [warn] *)
Definition warn (bot : Bot) (args : list string) (info : MessageInfo) (w : World)
    : CommandManager.Outcome :=
  if negb (isGroup info) then
    reply bot info "Command ini hanya bisa digunakan di grup." w
  else
    let target := targetNumber args in
    if String.eqb target "" then reply bot info "WARN USER" w
    else if Db.isAuthorOrOwner (db w) target then
      reply bot info "Tidak bisa warn Author/Owner." w
    else
      let '(warnCount, d) := Db.addWarn target (db w) in
      let w := set_db (λ _, d) w in
      let maxWarn := 3 in
      let w :=
        if maxWarn <=? warnCount then
          set_db (Db.resetWarn target)
            (kickParticipant bot (groupId info) [target +:+ "@s.whatsapp.net"] w)
        else w in
      reply bot info "USER WARNED" w.

(** [blacklist] *)
Definition blacklist (bot : Bot) (args : list string) (info : MessageInfo) (w : World)
    : CommandManager.Outcome :=
  let target := targetNumber args in
  if String.eqb target "" then reply bot info "BLACKLIST USER" w
  else if Db.isAuthorOrOwner (db w) target then
    reply bot info "Tidak bisa blacklist Author/Owner." w
  else
    let w := set_db (λ d, (Database.addBlacklist target d).2) w in
    reply bot info "USER BLACKLISTED" w.

End Commands.

(** The world in which a command ended. *)
Definition worldOf (o : CommandManager.Outcome) : World :=
  match o with
  | CommandManager.Returned w => w
  | CommandManager.Threw _ w => w
  end.

End OwnerCommands.

(** * Properties *)

(** Decides a closed decidable proposition by evaluation. *)
Ltac by_evaluation :=
  match goal with |- ?P => refine (@bool_decide_unpack P _ _) end; vm_compute; exact I.

(** ** Authorization *)

Section Authorization.

Lemma includes_false (l : list string) (x : string) :
  x ∉ l → includes l x = false.
Proof. intros H. unfold includes. by apply bool_decide_eq_false. Qed.

Lemma checkRole_member (d : Db.t) (number requiredRole : string) :
  number ∉ Db.authors d → number ∉ Db.owners d →
  requiredRole = "owner" ∨ requiredRole = "author" →
  AuthMiddleware.authorized
    (AuthMiddleware.checkRole d number requiredRole) = false.
Proof.
  intros Ha Ho Hr.
  unfold AuthMiddleware.checkRole, AuthMiddleware.userRoleOf,
    Db.isAuthor, Db.isOwner.
  rewrite (includes_false _ _ Ha), (includes_false _ _ Ho).
  destruct Hr as [-> | ->]; reflexivity.
Qed.

Lemma checkAuth_member (d : Db.t) (sender requiredRole : string) :
  jidNumber sender ∉ Db.authors d → jidNumber sender ∉ Db.owners d →
  requiredRole = "owner" ∨ requiredRole = "author" →
  AuthMiddleware.authorized
    (AuthMiddleware.checkAuth d sender requiredRole) = false.
Proof.
  intros Ha Ho Hr. unfold AuthMiddleware.checkAuth.
  destruct (Db.isDisabled d _); [reflexivity |].
  destruct (Db.isBlacklisted d _); [reflexivity |].
  match goal with |- context [if ?c then _ else _] => destruct c end;
    [reflexivity |].
  rewrite (checkRole_member d _ _ Ha Ho Hr). simpl.
  apply (checkRole_member d _ _ Ha Ho Hr).
Qed.

(** C6. A user whose number is in neither [users.authors] nor
    [users.owners] is refused by [checkAuth], and by [checkRole], both when
    the required role is owner and when it is author. *)
Theorem C6_member_refused_owner_and_author (d : Db.t) (sender : string) :
  jidNumber sender ∉ Db.authors d →
  jidNumber sender ∉ Db.owners d →
  AuthMiddleware.authorized (AuthMiddleware.checkAuth d sender "owner") = false
  ∧ AuthMiddleware.authorized (AuthMiddleware.checkAuth d sender "author") = false
  ∧ AuthMiddleware.authorized
      (AuthMiddleware.checkRole d (jidNumber sender) "owner") = false
  ∧ AuthMiddleware.authorized
      (AuthMiddleware.checkRole d (jidNumber sender) "author") = false.
Proof.
  intros Ha Ho. repeat split.
  - apply checkAuth_member; auto.
  - apply checkAuth_member; auto.
  - apply checkRole_member; auto.
  - apply checkRole_member; auto.
Qed.

Lemma C6_witness :
  (jidNumber (Sample.jid Sample.member) ∉ Db.authors Sample.database)
  ∧ (jidNumber (Sample.jid Sample.member) ∉ Db.owners Sample.database)
  ∧ AuthMiddleware.authorized
      (AuthMiddleware.checkAuth Sample.database (Sample.jid Sample.member) "owner") = false
  ∧ AuthMiddleware.authorized
      (AuthMiddleware.checkAuth Sample.database (Sample.jid Sample.member) "author") = false.
Proof.
  assert (Ha : jidNumber (Sample.jid Sample.member) ∉ Db.authors Sample.database)
    by by_evaluation.
  assert (Ho : jidNumber (Sample.jid Sample.member) ∉ Db.owners Sample.database)
    by by_evaluation.
  split; [exact Ha |]. split; [exact Ho |].
  pose proof (C6_member_refused_owner_and_author
                Sample.database (Sample.jid Sample.member) Ha Ho) as H.
  split; [exact (proj1 H) | exact (proj1 (proj2 H))].
Defined.

End Authorization.

(** ** The action tables *)

Section ActionTables.

(** C1, as stated, fails: on a [high] violation in [STRICT] mode the
    AntiVirtex module kicks where the specification's matrix mutes, and the
    two modules that have a matrix disagree with each other there. *)
Lemma C1_counterexample :
  (AntiVirtex.determineAction (Some high) STRICT ≠ specActionMatrix high STRICT)
  ∧ (AntiVirtex.determineAction (Some high) STRICT
     ≠ AntiToxic.determineAction (Some high) STRICT).
Proof. split; discriminate. Qed.

(** C1, amended. Each module has its own fixed table, a function of the
    severity and the mode (AntiLink: of the mode alone). AntiVirtex kicks on
    [critical] in every mode, warns throughout [NORMAL], in [STRICT] warns on
    [low] and [medium] and kicks on [high], in [LOCKDOWN] warns on [low] and
    kicks on [medium] and [high]. AntiToxic warns throughout [NORMAL], in
    [STRICT] warns on [low] and mutes on [medium] and [high], in [LOCKDOWN]
    mutes on [low] and kicks on [medium] and [high]. AntiLink warns in
    [NORMAL], mutes in [STRICT] and kicks in [LOCKDOWN]. *)
Theorem C1_module_action_tables :
  (∀ mode, AntiVirtex.determineAction (Some critical) mode = kick)
  ∧ (AntiVirtex.determineAction (Some low) NORMAL = warn
     ∧ AntiVirtex.determineAction (Some medium) NORMAL = warn
     ∧ AntiVirtex.determineAction (Some high) NORMAL = warn
     ∧ AntiVirtex.determineAction (Some low) STRICT = warn
     ∧ AntiVirtex.determineAction (Some medium) STRICT = warn
     ∧ AntiVirtex.determineAction (Some high) STRICT = kick
     ∧ AntiVirtex.determineAction (Some low) LOCKDOWN = warn
     ∧ AntiVirtex.determineAction (Some medium) LOCKDOWN = kick
     ∧ AntiVirtex.determineAction (Some high) LOCKDOWN = kick)
  ∧ (AntiToxic.determineAction (Some low) NORMAL = warn
     ∧ AntiToxic.determineAction (Some medium) NORMAL = warn
     ∧ AntiToxic.determineAction (Some high) NORMAL = warn
     ∧ AntiToxic.determineAction (Some low) STRICT = warn
     ∧ AntiToxic.determineAction (Some medium) STRICT = mute
     ∧ AntiToxic.determineAction (Some high) STRICT = mute
     ∧ AntiToxic.determineAction (Some low) LOCKDOWN = mute
     ∧ AntiToxic.determineAction (Some medium) LOCKDOWN = kick
     ∧ AntiToxic.determineAction (Some high) LOCKDOWN = kick)
  ∧ (AntiLink.getDefenseModeConfig NORMAL = warn
     ∧ AntiLink.getDefenseModeConfig STRICT = mute
     ∧ AntiLink.getDefenseModeConfig LOCKDOWN = kick).
Proof.
  split; [intros []; reflexivity |].
  repeat split; reflexivity.
Qed.

(** Where the two matrices agree with the specification's. *)
Lemma action_tables_common (severity : Severity) (mode : DefenseMode) :
  (mode = NORMAL ∧ severity ∈ [low; medium; high])
  ∨ (mode = STRICT ∧ severity = low)
  ∨ (mode = LOCKDOWN ∧ severity ∈ [medium; high]) →
  AntiVirtex.determineAction (Some severity) mode = specActionMatrix severity mode
  ∧ AntiToxic.determineAction (Some severity) mode = specActionMatrix severity mode.
Proof.
  intros [[-> H] | [[-> ->] | [-> H]]]; [| split; reflexivity |];
    repeat (apply elem_of_cons in H as [-> | H]; [split; reflexivity |]);
    by apply elem_of_nil in H.
Qed.

End ActionTables.

(** ** The join handler *)

Section Join.

(** C10. When the group's [welcome] setting is not on, [handleMemberJoin]
    returns at once: the world is unchanged, so no participant is looked up
    in the blacklist, checked for origin, kicked or greeted. The same holds
    for the participants update of a group whose stored settings have the
    welcome message off. *)
Theorem C10_join_checks_need_welcome (cfg : Config) (bot : Bot) (groupId : string)
    (participants : list string) (w : World) :
  (∀ groupSettings,
     Db.welcome groupSettings ≠ Some true →
     GroupHandler.handleMemberJoin cfg bot groupId participants groupSettings w = w)
  ∧ (Db.welcome (Db.getGroupSettings (db w) groupId) ≠ Some true →
     GroupHandler.handleParticipantsAdd cfg bot groupId participants w = w).
Proof.
  assert (H : ∀ groupSettings,
            Db.welcome groupSettings ≠ Some true →
            GroupHandler.handleMemberJoin cfg bot groupId participants groupSettings w = w).
  { intros groupSettings Hoff. unfold GroupHandler.handleMemberJoin.
    destruct (Db.welcome groupSettings) as [[] |]; congruence. }
  split; [exact H |].
  intros Hoff. unfold GroupHandler.handleParticipantsAdd.
  destruct (negb _ && negb _); [reflexivity | by apply H].
Qed.

End Join.

Section JoinExamples.

Lemma C10_witness :
  Db.welcome Sample.quietSettings ≠ Some true
  ∧ GroupHandler.handleMemberJoin defaultConfig Sample.liveBot Sample.group
      [Sample.jid Sample.banned; Sample.jid Sample.foreigner]
      Sample.quietSettings Sample.world
    = Sample.world.
Proof.
  split; [discriminate |].
  apply (proj1 (C10_join_checks_need_welcome defaultConfig Sample.liveBot Sample.group
                  [Sample.jid Sample.banned; Sample.jid Sample.foreigner]
                  Sample.world)).
  discriminate.
Defined.

(** The same join with the welcome message on: the blacklisted number
    and the foreign number are both removed. *)
Example join_with_welcome_is_moderated :
  outbox (GroupHandler.handleMemberJoin defaultConfig Sample.liveBot Sample.group
            [Sample.jid Sample.banned; Sample.jid Sample.foreigner]
            Db.getDefaultGroupSettings Sample.world)
  = [ Kick Sample.group [Sample.jid Sample.banned];
      Send Sample.group (BlacklistKick Sample.banned);
      Kick Sample.group [Sample.jid Sample.foreigner];
      Send Sample.group (GeoViolation Sample.foreigner "USA/Canada") ].
Proof. vm_compute. reflexivity. Qed.

End JoinExamples.

(** ** Warning escalation *)

Section Warnings.

Variable bot : Bot.
Variables groupId sender : string.
Variable messageKey : nat.

Let number := jidNumber sender.

Lemma getWarnCount_addWarn (d : Db.t) (n : string) :
  Db.getWarnCount (snd (Db.addWarn n d)) n = Db.getWarnCount d n + 1.
Proof.
  unfold Db.addWarn, Db.getWarnCount. simpl. by rewrite lookup_insert_eq.
Qed.

Lemma getWarnCount_resetWarn (d : Db.t) (n : string) :
  Db.getWarnCount (Db.resetWarn n d) n = 0.
Proof.
  unfold Db.resetWarn, Db.getWarnCount. simpl. by rewrite lookup_delete_eq.
Qed.

(** One warning: the count goes up by one and the notice shows it, unless
    it reaches [maxWarn], in which case the sender is kicked and the count
    is cleared. The group's mode is left as it was. *)
Lemma antiVirtexHandle_warn (v : AntiVirtex.Verdict) (w : World) :
  WarnSpec.warns groupId v w →
  let count := Db.getWarnCount (db w) number + 1 in
  let w' := Handlers.antiVirtexHandle bot groupId sender messageKey v w in
  Db.effectiveDefenseMode (db w') groupId = Db.effectiveDefenseMode (db w) groupId
  ∧ (count < Handlers.maxWarn →
     Db.getWarnCount (db w') number = count
     ∧ outbox w' = outbox w ++
         [ Delete groupId messageKey;
           Send groupId (ViolationWarning "antiVirtex" number count Handlers.maxWarn) ])
  ∧ (Handlers.maxWarn ≤ count →
     Db.getWarnCount (db w') number = 0
     ∧ outbox w' = outbox w ++
         [ Delete groupId messageKey;
           Kick groupId [sender];
           Send groupId (ViolationWarning "antiVirtex" number count Handlers.maxWarn) ]).
Proof.
  intros Hw. unfold WarnSpec.warns in Hw. cbv zeta.
  unfold Handlers.antiVirtexHandle. cbv zeta.
  change (db (deleteMessage bot groupId messageKey w)) with (db w).
  rewrite Hw. fold number.
  unfold Db.addWarn. cbv zeta.
  unfold sendMessage.
  destruct (Nat.leb_spec Handlers.maxWarn (Db.getWarnCount (db w) number + 1))
    as [Hge | Hlt];
    destruct (sockOk bot _);
    (split; [reflexivity |]); split; intros H; try lia;
    (split; [unfold Db.getWarnCount; simpl;
             rewrite ?lookup_delete_eq, ?lookup_insert_eq; reflexivity
            | simpl; rewrite <- ?app_assoc; reflexivity ]).
Qed.

Lemma warns_after (v v' : AntiVirtex.Verdict) (w : World) :
  WarnSpec.warns groupId v w → WarnSpec.warns groupId v' w →
  WarnSpec.warns groupId v' (Handlers.antiVirtexHandle bot groupId sender messageKey v w).
Proof.
  intros Hv Hv'. unfold WarnSpec.warns.
  destruct (antiVirtexHandle_warn v w Hv) as [-> _]. exact Hv'.
Qed.

(** The handlers escalate at their own constant: a violation that is
    answered with a warning raises the sender's warning count by one; when
    the raised count reaches 3 the sender is kicked and the count is cleared
    instead. Hence three such violations in a row by a sender without
    warnings take the count to 1, to 2 and back to 0, and cause exactly one
    kick. *)
Lemma warning_escalation_at_three :
  (∀ v w, WarnSpec.warns groupId v w →
     let count := Db.getWarnCount (db w) number + 1 in
     let w' := Handlers.antiVirtexHandle bot groupId sender messageKey v w in
     Db.getWarnCount (db w') number = (if 3 <=? count then 0 else count)
     ∧ kicksIn (outbox w')
       = kicksIn (outbox w) ++ (if 3 <=? count then [Kick groupId [sender]] else []))
  ∧ (∀ v1 v2 v3 w,
       Db.getWarnCount (db w) number = 0 →
       WarnSpec.warns groupId v1 w → WarnSpec.warns groupId v2 w → WarnSpec.warns groupId v3 w →
       let w1 := Handlers.antiVirtexHandle bot groupId sender messageKey v1 w in
       let w2 := Handlers.antiVirtexHandle bot groupId sender messageKey v2 w1 in
       let w3 := Handlers.antiVirtexHandle bot groupId sender messageKey v3 w2 in
       Db.getWarnCount (db w1) number = 1
       ∧ Db.getWarnCount (db w2) number = 2
       ∧ Db.getWarnCount (db w3) number = 0
       ∧ kicksIn (outbox w3) = kicksIn (outbox w) ++ [Kick groupId [sender]]).
Proof.
  assert (Hstep : ∀ v w, WarnSpec.warns groupId v w →
     let count := Db.getWarnCount (db w) number + 1 in
     let w' := Handlers.antiVirtexHandle bot groupId sender messageKey v w in
     Db.getWarnCount (db w') number = (if 3 <=? count then 0 else count)
     ∧ kicksIn (outbox w')
       = kicksIn (outbox w) ++ (if 3 <=? count then [Kick groupId [sender]] else [])).
  { intros v w Hw. cbv zeta.
    destruct (antiVirtexHandle_warn v w Hw) as (_ & Hlt & Hge).
    change Handlers.maxWarn with 3 in *.
    destruct (Nat.leb_spec 3 (Db.getWarnCount (db w) number + 1)) as [H | H].
    - destruct (Hge H) as [-> ->]. split; [reflexivity |].
      unfold kicksIn. rewrite filter_app. reflexivity.
    - destruct (Hlt H) as [-> ->]. split; [reflexivity |].
      unfold kicksIn. rewrite filter_app. reflexivity. }
  split; [exact Hstep |].
  intros v1 v2 v3 w H0 Hv1 Hv2 Hv3. cbv zeta.
  pose proof (warns_after v1 v2 w Hv1 Hv2) as Hv2'.
  pose proof (warns_after v1 v3 w Hv1 Hv3) as Hv3'.
  pose proof (warns_after v2 v3 _ Hv2' Hv3') as Hv3''.
  destruct (Hstep v1 w Hv1) as [C1 K1]. rewrite H0 in C1, K1. simpl in C1, K1.
  destruct (Hstep v2 _ Hv2') as [C2 K2]. rewrite C1 in C2, K2. simpl in C2, K2.
  destruct (Hstep v3 _ Hv3'') as [C3 K3]. rewrite C2 in C3, K3. simpl in C3, K3.
  repeat split; [exact C1 | exact C2 | exact C3 |].
  rewrite K3, K2, K1. by rewrite !app_nil_r.
Qed.

End Warnings.

Section WarningExamples.

(** The scenario of the specification, run: the third message is the one
    that kicks. *)
Example three_floods_in_a_row :
  let handle :=
    Handlers.antiVirtexHandle Sample.liveBot Sample.group
      (Sample.jid Sample.member) 1 Sample.sixtyAsVerdict in
  outbox (handle (handle (handle Sample.world)))
  = [ Delete Sample.group 1;
      Send Sample.group (ViolationWarning "antiVirtex" Sample.member 1 3);
      Delete Sample.group 1;
      Send Sample.group (ViolationWarning "antiVirtex" Sample.member 2 3);
      Delete Sample.group 1;
      Kick Sample.group [Sample.jid Sample.member];
      Send Sample.group (ViolationWarning "antiVirtex" Sample.member 3 3) ].
Proof. vm_compute. reflexivity. Qed.

(** C2, where it fails. The maximum is configurable ([security.maxWarn],
    from [MAX_WARN]), and the log line of [addWarn] prints the count against
    it, but no handler reads it. Whatever maximum is configured, three
    floods in a row by a member of a protected group in NORMAL mode take the
    count to 1, to 2 and back to 0, and the third is answered with a kick
    and the notice [3/3]: with a maximum of 5 the member is kicked two
    warnings early. *)
Theorem C2_escalation_ignores_configured_maximum (n : nat) :
  let cfg := Fixtures.withMaxWarn n in
  let flood := Sample.groupMessage Sample.member Sample.sixtyAs in
  let check w :=
    (DefenseEngine.checkMessage cfg Sample.asciiBuiltins Sample.liveBot flood 1000 w).2 in
  let w1 := check Sample.world in
  let w2 := check w1 in
  let w3 := check w2 in
  maxWarn (Fixtures.withMaxWarn 5) = 5
  ∧ Db.getWarnCount (db Sample.world) Sample.member = 0
  ∧ Db.getWarnCount (db w1) Sample.member = 1
  ∧ Db.getWarnCount (db w2) Sample.member = 2
  ∧ kicksIn (outbox w2) = []
  ∧ Db.getWarnCount (db w3) Sample.member = 0
  ∧ kicksIn (outbox w3) = [Kick Sample.group [Sample.jid Sample.member]]
  ∧ last (outbox w3)
    = Some (Send Sample.group (ViolationWarning "antiVirtex" Sample.member 3 3)).
Proof. cbv zeta. repeat split; vm_compute; reflexivity. Qed.

End WarningExamples.

(** ** Repeated characters *)

Section RepeatedCharacters.

Lemma countLeading_le {A} (p : A → bool) (l : list A) :
  Regex.countLeading p l ≤ length l.
Proof. induction l as [| x l IH]; simpl; [lia |]. destruct (p x); simpl; lia. Qed.

Lemma countLeading_app {A} (p : A → bool) (a b : list A) :
  Regex.countLeading p (a ++ b)
  = if Regex.countLeading p a =? length a
    then length a + Regex.countLeading p b
    else Regex.countLeading p a.
Proof.
  induction a as [| x a IH]; simpl; [reflexivity |].
  destruct (p x); simpl; [| reflexivity].
  rewrite IH. destruct (Nat.eqb_spec (Regex.countLeading p a) (length a));
    reflexivity.
Qed.

Lemma countLeading_replicate (c : Z) (n : nat) (post : jsString) :
  n ≤ Regex.countLeading (Z.eqb c) (replicate n c ++ post).
Proof.
  induction n as [| n IH]; simpl; [lia |]. rewrite Z.eqb_refl. lia.
Qed.

(** If the run of [d] that starts the text reaches past [pre], it
    swallows the whole run of [c] that follows. *)
Lemma countLeading_past (d c : Z) (n : nat) (pre post : jsString) :
  0 < n →
  length pre < Regex.countLeading (Z.eqb d) (pre ++ replicate n c ++ post) →
  n ≤ Regex.countLeading (Z.eqb d) (pre ++ replicate n c ++ post).
Proof.
  intros Hn. rewrite countLeading_app.
  pose proof (countLeading_le (Z.eqb d) pre) as Hle.
  destruct (Nat.eqb_spec (Regex.countLeading (Z.eqb d) pre) (length pre)) as [E | E];
    [| lia].
  intros H.
  assert (Hc : d = c).
  { destruct n as [| n]; [lia |]. simpl in H.
    destruct (Z.eqb_spec d c); [assumption | lia]. }
  subst d. pose proof (countLeading_replicate c n post). lia.
Qed.

Lemma matchAllFrom_cons (fuel : nat) (m : Regex.Matcher) (c : Z) (rest : jsString) :
  Regex.matchAllFrom (S fuel) m (c :: rest)
  = match m (c :: rest) with
    | Some (S n) =>
        take (S n) (c :: rest) :: Regex.matchAllFrom fuel m (drop (S n) (c :: rest))
    | _ => Regex.matchAllFrom fuel m rest
    end.
Proof. reflexivity. Qed.

Lemma repeatedPattern_cons (c : Z) (rest : jsString) :
  Regex.repeatedPattern (c :: rest)
  = if Regex.isLineTerminator c then None
    else if 9 <=? Regex.countLeading (Z.eqb c) rest
         then Some (S (Regex.countLeading (Z.eqb c) rest))
         else None.
Proof. reflexivity. Qed.

Lemma matchAllFrom_finds_run (fuel : nat) :
  ∀ (pre : jsString) (c : Z) (n : nat) (post : jsString),
    length (pre ++ replicate n c ++ post) ≤ fuel →
    Regex.isLineTerminator c = false →
    10 ≤ n →
    ∃ m, m ∈ Regex.matchAllFrom fuel Regex.repeatedPattern
               (pre ++ replicate n c ++ post)
         ∧ n ≤ length m.
Proof.
  induction fuel as [| fuel IH]; intros pre c n post Hfuel Hc Hn.
  - rewrite !length_app, length_replicate in Hfuel. lia.
  - destruct pre as [| d pre].
    + destruct n as [| n]; [lia |].
      cbn [app replicate].
      rewrite matchAllFrom_cons, repeatedPattern_cons, Hc.
      pose proof (countLeading_replicate c n post) as Hk.
      pose proof (countLeading_le (Z.eqb c) (replicate n c ++ post)) as Hl.
      destruct (Nat.leb_spec 9 (Regex.countLeading (Z.eqb c) (replicate n c ++ post)))
        as [H9 | H9]; [| lia].
      eexists. split; [apply list_elem_of_here |].
      rewrite length_take. cbn [length]. lia.
    + cbn [app]. cbn [app length] in Hfuel.
      set (rest := pre ++ replicate n c ++ post) in *.
      rewrite matchAllFrom_cons, repeatedPattern_cons.
      set (k := Regex.countLeading (Z.eqb d) rest).
      assert (Hrec : ∃ m, m ∈ Regex.matchAllFrom fuel Regex.repeatedPattern rest
                          ∧ n ≤ length m)
        by (apply (IH pre c n post); [fold rest; lia | assumption | assumption]).
      destruct (Regex.isLineTerminator d); [exact Hrec |].
      destruct (Nat.leb_spec 9 k) as [H9 | H9]; [| exact Hrec].
      pose proof (countLeading_le (Z.eqb d) rest) as Hl. fold k in Hl.
      destruct (Nat.le_gt_cases k (length pre)) as [Hin | Hout].
      * destruct (IH (drop k pre) c n post) as (m & Hm & Hlen);
          [| assumption | assumption |].
        { rewrite length_app, length_drop. unfold rest in Hfuel.
          rewrite length_app in Hfuel. lia. }
        exists m. split; [| exact Hlen].
        apply list_elem_of_further.
        cbn [drop]. unfold rest. rewrite drop_app_le by exact Hin. exact Hm.
      * eexists. split; [apply list_elem_of_here |].
        rewrite length_take. cbn [length].
        pose proof (countLeading_past d c n pre post ltac:(lia) Hout) as Hp.
        fold rest in Hp. fold k in Hp. lia.
Qed.

Lemma longest_ge (matches : list jsString) (m : jsString) :
  m ∈ matches → length m ≤ AntiVirtex.longest matches.
Proof.
  induction matches as [| x l IH]; intros H.
  - by apply elem_of_nil in H.
  - apply elem_of_cons in H as [-> | H]; cbn [AntiVirtex.longest foldr].
    + lia.
    + specialize (IH H). unfold AntiVirtex.longest in IH. lia.
Qed.

(** C8, amended. A message that contains a run of [n] equal code units,
    none of them a line terminator, with [n] at least 10 and at least the
    module's [repeatedCharThreshold] (50), gets from
    [checkRepeatedCharacters] a positive verdict of type
    [repeated_characters] and severity [high]; [detect] returns that
    verdict when the message is not longer than [maxLength]. *)
Theorem C8_long_runs_are_floods (st : AntiVirtex.Settings)
    (pre : jsString) (c : Z) (n : nat) (post : jsString) :
  Regex.isLineTerminator c = false →
  10 ≤ n →
  AntiVirtex.repeatedCharThreshold st ≤ n →
  let message := pre ++ replicate n c ++ post in
  let v := AntiVirtex.checkRepeatedCharacters st message in
  AntiVirtex.detected v = true
  ∧ AntiVirtex.type v = Some AntiVirtex.repeated_characters
  ∧ AntiVirtex.severity v = Some high
  ∧ (length message ≤ AntiVirtex.maxLength st →
     ∀ s, AntiVirtex.detect st s message = (v, s)).
Proof.
  intros Hc Hn Ht. cbv zeta.
  destruct (matchAllFrom_finds_run (length (pre ++ replicate n c ++ post))
              pre c n post (le_n _) Hc Hn) as (m & Hm & Hlen).
  fold (Regex.matchAll Regex.repeatedPattern (pre ++ replicate n c ++ post)) in Hm.
  pose proof (longest_ge _ _ Hm) as Hlong.
  assert (Hv : AntiVirtex.checkRepeatedCharacters st (pre ++ replicate n c ++ post)
               = {| AntiVirtex.detected := true;
                    AntiVirtex.type := Some AntiVirtex.repeated_characters;
                    AntiVirtex.count :=
                      Some (AntiVirtex.longest
                              (Regex.matchAll Regex.repeatedPattern
                                 (pre ++ replicate n c ++ post)));
                    AntiVirtex.severity := Some high |}).
  { unfold AntiVirtex.checkRepeatedCharacters.
    destruct (Regex.matchAll Regex.repeatedPattern (pre ++ replicate n c ++ post))
      as [| x l] eqn:E; [by apply elem_of_nil in Hm |].
    cbn [length]. change (0 <? S (length l)) with true. cbv iota.
    destruct (Nat.leb_spec (AntiVirtex.repeatedCharThreshold st)
                (AntiVirtex.longest (x :: l))); [reflexivity | lia]. }
  rewrite Hv. repeat split.
  intros Hlen' s. unfold AntiVirtex.detect.
  destruct (pre ++ replicate n c ++ post) as [| y ys] eqn:E.
  { apply (f_equal length) in E. rewrite !length_app, length_replicate in E.
    cbn in E. lia. }
  unfold AntiVirtex.checkLength.
  destruct (Nat.ltb_spec (AntiVirtex.maxLength st) (length (y :: ys))); [lia |].
  cbn [AntiVirtex.detected AntiVirtex.notDetected]. cbv iota.
  rewrite Hv. reflexivity.
Qed.

Lemma C8_witness :
  Regex.isLineTerminator 97 = false
  ∧ 10 ≤ 50
  ∧ AntiVirtex.repeatedCharThreshold AntiVirtex.defaultSettings ≤ 50
  ∧ AntiVirtex.severity
      (AntiVirtex.checkRepeatedCharacters AntiVirtex.defaultSettings
         (js "x" ++ replicate 50 97%Z ++ js "y")) = Some high.
Proof.
  assert (H1 : Regex.isLineTerminator 97 = false) by reflexivity.
  assert (H2 : 10 ≤ 50) by lia.
  assert (H3 : AntiVirtex.repeatedCharThreshold AntiVirtex.defaultSettings ≤ 50)
    by (simpl; lia).
  split; [exact H1 |]. split; [exact H2 |]. split; [exact H3 |].
  exact (proj1 (proj2 (proj2
           (C8_long_runs_are_floods AntiVirtex.defaultSettings
              (js "x") 97%Z 50 (js "y") H1 H2 H3)))).
Defined.

(** C8, as stated, fails: ten times the letter a is a run of ten repeated
    visible characters, and neither [checkRepeatedCharacters] nor the whole
    of [detect] reports it. *)
Lemma C8_counterexample :
  AntiVirtex.detected
    (AntiVirtex.checkRepeatedCharacters AntiVirtex.defaultSettings
       (replicate 10 97%Z)) = false
  ∧ AntiVirtex.detected
      (fst (AntiVirtex.detect AntiVirtex.defaultSettings AntiVirtex.initialState
              (replicate 10 97%Z))) = false.
Proof. split; vm_compute; reflexivity. Qed.

End RepeatedCharacters.

(** ** The global rate window *)

Section RateWindowFacts.

Variable sender : string.

Local Open Scope Z_scope.

Lemma recent_app (T : Z) (l k : list Z) :
  CooldownMiddleware.recent T (l ++ k)
  = CooldownMiddleware.recent T l ++ CooldownMiddleware.recent T k.
Proof. unfold CooldownMiddleware.recent. apply filter_app. Qed.

(** Pruning at an earlier time loses nothing that a later pruning keeps. *)
Lemma recent_recent (t T : Z) (l : list Z) :
  t ≤ T →
  CooldownMiddleware.recent T (CooldownMiddleware.recent t l)
  = CooldownMiddleware.recent T l.
Proof.
  intros Hle. unfold CooldownMiddleware.recent.
  induction l as [| x l IH]; [reflexivity |].
  rewrite (filter_cons _ x l).
  destruct (decide (t - x < CooldownMiddleware.timeWindow)) as [H | H].
  - rewrite !filter_cons. rewrite IH. reflexivity.
  - rewrite filter_cons. rewrite IH.
    destruct (decide (T - x < CooldownMiddleware.timeWindow)); [lia | reflexivity].
Qed.

Lemma checkGlobalRateLimit_spec (now : Z) (w : World) :
  Db.isAuthorOrOwner (db w) (jidNumber sender) = false →
  let limited :=
    (CooldownMiddleware.maxRequests <=? RateWindow.count now w sender)%nat in
  let w' := snd (CooldownMiddleware.checkGlobalRateLimit now sender w) in
  fst (CooldownMiddleware.checkGlobalRateLimit now sender w) = limited
  ∧ db w' = db w
  ∧ RateWindow.stored w' sender
    = CooldownMiddleware.recent now (RateWindow.stored w sender)
      ++ (if limited then [] else [now]).
Proof.
  intros Hp. cbv zeta.
  unfold CooldownMiddleware.checkGlobalRateLimit, RateWindow.count, RateWindow.stored.
  rewrite Hp.
  destruct (CooldownMiddleware.maxRequests <=? _)%nat; simpl;
    rewrite lookup_insert_eq; simpl; rewrite ?app_nil_r; auto.
Qed.

Lemma requestsAt_invariant (times : list Z) :
  ∀ (w : World) (base : list Z) (lo : Z),
    Db.isAuthorOrOwner (db w) (jidNumber sender) = false →
    StronglySorted Z.le (lo :: times) →
    (∀ T, lo ≤ T →
       CooldownMiddleware.recent T (RateWindow.stored w sender)
       = CooldownMiddleware.recent T base) →
    ∀ T, Forall (λ t, t ≤ T) (lo :: times) →
      db (snd (RateWindow.requestsAt times sender w)) = db w
      ∧ CooldownMiddleware.recent T
          (RateWindow.stored (snd (RateWindow.requestsAt times sender w)) sender)
        = CooldownMiddleware.recent T
            (base ++ fst (RateWindow.requestsAt times sender w)).
Proof.
  induction times as [| t ts IH]; intros w base lo Hp Hs Hinv T HT.
  - simpl. rewrite app_nil_r. split; [reflexivity |].
    apply Hinv. by inversion HT.
  - apply StronglySorted_inv in Hs as [Hs Hlo].
    apply Forall_cons in Hlo as [Hlot _].
    apply Forall_cons in HT as [_ HT].
    destruct (checkGlobalRateLimit_spec t w Hp) as (Hl & Hdb & Hst).
    cbv zeta in Hl, Hdb, Hst.
    simpl RateWindow.requestsAt.
    destruct (CooldownMiddleware.checkGlobalRateLimit t sender w) as [limited w1] eqn:E.
    simpl in Hl, Hdb, Hst.
    destruct (RateWindow.requestsAt ts sender w1) as [inserted w2] eqn:E2.
    assert (Hp1 : Db.isAuthorOrOwner (db w1) (jidNumber sender) = false)
      by (rewrite Hdb; exact Hp).
    assert (Hinv1 : ∀ T, t ≤ T →
              CooldownMiddleware.recent T (RateWindow.stored w1 sender)
              = CooldownMiddleware.recent T
                  (base ++ (if limited then [] else [t]))).
    { intros T' HT'. rewrite Hst, !recent_app, recent_recent by exact HT'.
      rewrite Hinv by lia. rewrite Hl. reflexivity. }
    destruct (IH w1 _ t Hp1 Hs Hinv1 T HT) as [Hdb2 Hrec].
    rewrite E2 in Hdb2, Hrec. simpl in Hdb2, Hrec. simpl.
    split; [congruence |].
    rewrite Hrec. destruct limited; simpl.
    + rewrite app_nil_r. reflexivity.
    + rewrite <- app_assoc. reflexivity.
Qed.

Lemma inserted_bounded (times : list Z) :
  ∀ (w : World) (T : Z),
    Forall (λ t, t ≤ T) times →
    Forall (λ t, t ≤ T) (fst (RateWindow.requestsAt times sender w)).
Proof.
  induction times as [| t ts IH]; intros w T HT; simpl; [constructor |].
  apply Forall_cons in HT as [Ht HT].
  destruct (CooldownMiddleware.checkGlobalRateLimit t sender w) as [limited w1].
  specialize (IH w1 T HT).
  destruct (RateWindow.requestsAt ts sender w1) as [inserted w2]. simpl in *.
  destruct limited; [exact IH | by constructor].
Qed.

Lemma recent_length_halfOpen (T : Z) (l : list Z) :
  Forall (λ t, t ≤ T) l →
  length (CooldownMiddleware.recent T l) = RateWindow.halfOpenCount T l.
Proof.
  intros H. unfold CooldownMiddleware.recent, RateWindow.halfOpenCount.
  induction H as [| x l Hx Hl IH]; [reflexivity |].
  rewrite !filter_cons.
  destruct (decide (T - x < CooldownMiddleware.timeWindow));
    destruct (decide (T - CooldownMiddleware.timeWindow < x ≤ T));
    simpl; try lia; congruence.
Qed.

(** C7, amended. For calls of a user who is neither author nor owner,
    made at non-decreasing times starting from an empty window, the count
    that the window reports at a later time [T] is the number of inserted
    timestamps after [T - 60000] and up to [T] (an entry exactly 60000 ms
    old is not counted), and the user is limited at [T] exactly when that
    count has reached the budget of 10. *)
Theorem C7_window_count (w : World) (times : list Z) (T : Z) :
  Db.isAuthorOrOwner (db w) (jidNumber sender) = false →
  RateWindow.stored w sender = [] →
  StronglySorted Z.le (times ++ [T]) →
  let inserted := fst (RateWindow.requestsAt times sender w) in
  let w' := snd (RateWindow.requestsAt times sender w) in
  RateWindow.count T w' sender = RateWindow.halfOpenCount T inserted
  ∧ (fst (CooldownMiddleware.checkGlobalRateLimit T sender w') = true
     ↔ (CooldownMiddleware.maxRequests ≤ RateWindow.halfOpenCount T inserted)%nat).
Proof.
  intros Hp H0 Hs. cbv zeta.
  assert (HT : Forall (λ t, t ≤ T) times).
  { clear -Hs. induction times as [| t ts IH]; [constructor |].
    simpl in Hs. apply StronglySorted_inv in Hs as [Hs Hall].
    constructor; [| by apply IH].
    apply Forall_app in Hall as [_ Hall]. by apply Forall_cons in Hall as [? _]. }
  assert (Hsorted : StronglySorted Z.le times).
  { clear -Hs. induction times as [| t ts IH]; [constructor |].
    simpl in Hs. apply StronglySorted_inv in Hs as [Hs Hall].
    constructor; [by apply IH |]. by apply Forall_app in Hall as [? _]. }
  set (lo := hd T times).
  assert (Hlo : StronglySorted Z.le (lo :: times)).
  { constructor; [exact Hsorted |].
    destruct times as [| t ts]; [constructor |]. simpl in lo. subst lo.
    apply StronglySorted_inv in Hsorted as [_ Hall].
    constructor; [lia | exact Hall]. }
  assert (HloT : lo ≤ T).
  { destruct times as [| t ts]; simpl in lo; subst lo; [lia |].
    by apply Forall_cons in HT as [? _]. }
  destruct (requestsAt_invariant times w [] lo Hp Hlo) with (T := T) as [Hdb Hrec].
  { intros T' _. rewrite H0. reflexivity. }
  { by constructor. }
  simpl in Hrec.
  assert (Hcount : RateWindow.count T (snd (RateWindow.requestsAt times sender w)) sender
                   = RateWindow.halfOpenCount T
                       (fst (RateWindow.requestsAt times sender w))).
  { unfold RateWindow.count. rewrite Hrec.
    apply recent_length_halfOpen, inserted_bounded, HT. }
  split; [exact Hcount |].
  destruct (checkGlobalRateLimit_spec T (snd (RateWindow.requestsAt times sender w)))
    as (Hl & _ & _); [rewrite Hdb; exact Hp |].
  cbv zeta in Hl. rewrite Hl, Hcount.
  split; [intros H; by apply Nat.leb_le in H | intros H; by apply Nat.leb_le].
Qed.

End RateWindowFacts.

Section RateWindowExamples.

Local Open Scope Z_scope.

Lemma C7_witness :
  Db.isAuthorOrOwner (db Sample.world) (jidNumber (Sample.jid Sample.member)) = false
  ∧ RateWindow.stored Sample.world (Sample.jid Sample.member) = []
  ∧ StronglySorted Z.le ([0; 1000; 59999] ++ [60000])
  ∧ RateWindow.count 60000
      (snd (RateWindow.requestsAt [0; 1000; 59999] (Sample.jid Sample.member)
              Sample.world))
      (Sample.jid Sample.member)
    = RateWindow.halfOpenCount 60000
        (fst (RateWindow.requestsAt [0; 1000; 59999] (Sample.jid Sample.member)
                Sample.world)).
Proof.
  assert (H1 : Db.isAuthorOrOwner (db Sample.world)
                 (jidNumber (Sample.jid Sample.member)) = false)
    by (vm_compute; reflexivity).
  assert (H2 : RateWindow.stored Sample.world (Sample.jid Sample.member) = [])
    by (vm_compute; reflexivity).
  assert (H3 : StronglySorted Z.le ([0; 1000; 59999] ++ [60000])).
  { simpl. repeat (constructor; [| repeat constructor; lia]). constructor. }
  split; [exact H1 |]. split; [exact H2 |]. split; [exact H3 |].
  exact (proj1 (C7_window_count (Sample.jid Sample.member) Sample.world
                  [0; 1000; 59999] 60000 H1 H2 H3)).
Defined.

(** C7, as stated, fails at the edge of the window: a request inserted at
    time 0 lies within the closed interval from [60000 - 60000] to 60000,
    yet the window reports no entry at time 60000. *)
Lemma C7_counterexample :
  fst (RateWindow.requestsAt [0] (Sample.jid Sample.member) Sample.world) = [0]
  ∧ RateWindow.specCount 60000 [0] = 1%nat
  ∧ RateWindow.count 60000
      (snd (RateWindow.requestsAt [0] (Sample.jid Sample.member) Sample.world))
      (Sample.jid Sample.member) = 0%nat.
Proof. repeat split; vm_compute; reflexivity. Qed.

End RateWindowExamples.

(** ** The defense engine *)

Section EngineFacts.

Variable cfg : Config.
Variable builtins : Builtins.
Variable bot : Bot.

Lemma runModuleDetection_db (m : DefenseEngine.Module_) (body : jsString)
    (sender : string) (now : Z) (w : World) :
  db (snd (DefenseEngine.runModuleDetection cfg builtins m body sender now w)) = db w.
Proof.
  unfold DefenseEngine.runModuleDetection.
  destruct (String.eqb _ "antiVirtex");
    [destruct (AntiVirtex.detect _ _ _); reflexivity |].
  destruct (String.eqb _ "antiToxic"); [reflexivity |].
  destruct (String.eqb _ "antiLink"); [reflexivity |].
  destruct (String.eqb _ "antiSpam"); [| reflexivity].
  destruct (AntiSpam.detect _ _ _ _ _ _). reflexivity.
Qed.

Lemma runModules_spec (ms : list DefenseEngine.Module_) (info : MessageInfo) (now : Z) :
  ∀ w,
    let out := DefenseEngine.runModules cfg builtins bot ms info now w in
    let r := out.1.1 in
    let consulted := out.1.2 in
    (DefenseEngine.resBlocked r = true →
       ∃ front n,
         consulted = front ++ [(n, true)]
         ∧ Forall (λ p, snd p = false) front
         ∧ DefenseEngine.resModule r = Some n
         ∧ (map fst consulted) `prefix_of`
             (map DefenseEngine.name (EngineSpec.enabledIn (db w) (groupId info) ms)))
    ∧ (DefenseEngine.resBlocked r = false →
         Forall (λ p, snd p = false) consulted
         ∧ DefenseEngine.resModule r = None
         ∧ map fst consulted
           = map DefenseEngine.name (EngineSpec.enabledIn (db w) (groupId info) ms)).
Proof.
  induction ms as [| m ms IH]; intros w; cbv zeta.
  - simpl. split; [discriminate |]. intros _. repeat split. constructor.
  - cbn [DefenseEngine.runModules]. unfold EngineSpec.enabledIn. rewrite filter_cons.
    fold (EngineSpec.enabledIn (db w) (groupId info) ms).
    destruct (DefenseEngine.isEnabled (DefenseEngine.instance m) (db w) (groupId info))
      eqn:En; cbn [negb].
    + destruct (decide (true = true)) as [_ | ?]; [| congruence].
      pose proof (runModuleDetection_db m (messageContent info) (sender info) now w)
        as Hdb.
      destruct (DefenseEngine.runModuleDetection cfg builtins m _ _ now w)
        as [detection w1] eqn:E.
      cbn [snd] in Hdb.
      destruct (DefenseEngine.detected detection) eqn:D.
      * cbn. split; [| discriminate]. intros _.
        exists [], (DefenseEngine.name m). repeat split; [constructor |].
        exists (map DefenseEngine.name (EngineSpec.enabledIn (db w) (groupId info) ms)).
        reflexivity.
      * specialize (IH w1). cbv zeta in IH. rewrite Hdb in IH.
        destruct (DefenseEngine.runModules cfg builtins bot ms info now w1)
          as [[r consulted] w2].
        cbn in IH |- *. destruct IH as [IHb IHn]. split.
        -- intros Hb. destruct (IHb Hb) as (front & n & -> & Hf & Hm & Hp).
           exists ((DefenseEngine.name m, false) :: front), n.
           repeat split; [by constructor | exact Hm |].
           cbn. by apply prefix_cons.
        -- intros Hb. destruct (IHn Hb) as (Hf & Hm & Heq).
           repeat split; [by constructor | exact Hm |]. by rewrite Heq.
    + destruct (decide (false = true)) as [? | _]; [congruence |].
      apply IH.
Qed.

End EngineFacts.

Section EngineActs.

Variable cfg : Config.
Variable builtins : Builtins.
Variable bot : Bot.
Variable info : MessageInfo.
Variable now : Z.

Local Abbreviation verdictAt := (EngineSpec.verdictOf cfg builtins info now).
Local Abbreviation detects := (λ w m, DefenseEngine.detected (verdictAt w m)).

Lemma runModuleDetection_outbox (m : DefenseEngine.Module_) (body : jsString)
    (sender : string) (w : World) :
  outbox (DefenseEngine.runModuleDetection cfg builtins m body sender now w).2 = outbox w.
Proof.
  unfold DefenseEngine.runModuleDetection.
  destruct (String.eqb _ "antiVirtex");
    [destruct (AntiVirtex.detect _ _ _); reflexivity |].
  destruct (String.eqb _ "antiToxic"); [reflexivity |].
  destruct (String.eqb _ "antiLink"); [reflexivity |].
  destruct (String.eqb _ "antiSpam"); [| reflexivity].
  destruct (AntiSpam.detect _ _ _ _ _ _). reflexivity.
Qed.

(** The detection of one module leaves the verdict of every module of
    another name as it was. *)
Lemma verdict_frame (m0 m : DefenseEngine.Module_) (w : World) :
  DefenseEngine.name m ≠ DefenseEngine.name m0 →
  verdictAt
    (DefenseEngine.runModuleDetection cfg builtins m0
       (messageContent info) (sender info) now w).2 m
  = verdictAt w m.
Proof.
  intros Hne. unfold EngineSpec.verdictOf, DefenseEngine.runModuleDetection.
  destruct (String.eqb_spec (DefenseEngine.name m0) "antiVirtex") as [E0 | _].
  { destruct (AntiVirtex.detect _ (virtexState w) _) as [v0 s0]. cbn [snd].
    destruct (String.eqb_spec (DefenseEngine.name m) "antiVirtex") as [E | _];
      [congruence |].
    cbn [messageTracker set_virtexState].
    repeat match goal with
           | |- context [String.eqb ?a ?b] => destruct (String.eqb a b)
           end; reflexivity. }
  destruct (String.eqb_spec (DefenseEngine.name m0) "antiToxic") as [_ | _];
    [reflexivity |].
  destruct (String.eqb_spec (DefenseEngine.name m0) "antiLink") as [_ | _];
    [reflexivity |].
  destruct (String.eqb_spec (DefenseEngine.name m0) "antiSpam") as [E0 | _];
    [| reflexivity].
  destruct (AntiSpam.detect _ _ (messageTracker w) _ _ _) as [v0 t0]. cbn [snd].
  destruct (String.eqb (DefenseEngine.name m) "antiVirtex").
  { cbn [virtexState set_messageTracker]. by destruct (AntiVirtex.detect _ _ _). }
  destruct (String.eqb (DefenseEngine.name m) "antiToxic"); [reflexivity |].
  destruct (String.eqb (DefenseEngine.name m) "antiLink"); [reflexivity |].
  destruct (String.eqb_spec (DefenseEngine.name m) "antiSpam") as [E | _];
    [congruence | reflexivity].
Qed.

Lemma verdict_stats (f : Stats → Stats) (w : World) (m : DefenseEngine.Module_) :
  verdictAt (set_stats f w) m = verdictAt w m.
Proof.
  unfold EngineSpec.verdictOf, DefenseEngine.runModuleDetection.
  destruct (String.eqb _ "antiVirtex").
  { cbn [virtexState set_stats]. by destruct (AntiVirtex.detect _ _ _). }
  destruct (String.eqb _ "antiToxic"); [reflexivity |].
  destruct (String.eqb _ "antiLink"); [reflexivity |].
  destruct (String.eqb _ "antiSpam"); [| reflexivity].
  cbn [messageTracker set_stats]. by destruct (AntiSpam.detect _ _ _ _ _ _).
Qed.

(** What a handler does to the database and to the socket depends on
    the database and on the calls made so far only. *)
Lemma response_frame (detection : DefenseEngine.Detection) (w' w : World) :
  db w' = db w → outbox w' = outbox w →
  db (EngineSpec.response bot info now detection w')
  = db (EngineSpec.response bot info now detection w)
  ∧ outbox (EngineSpec.response bot info now detection w')
    = outbox (EngineSpec.response bot info now detection w).
Proof.
  destruct w' as [d' vs' mt' gc' st' ob'], w as [d vs mt gc st ob].
  cbn [db outbox]. intros -> ->.
  destruct detection as [v | v | v | v |]; cbn [EngineSpec.response];
    [| | | | split; reflexivity].
  - unfold Handlers.antiVirtexHandle, deleteMessage, kickParticipant, sendMessage,
      Db.addWarn. cbn.
    repeat case_match; split; reflexivity.
  - unfold Handlers.antiToxicHandle, deleteMessage, kickParticipant, sendMessage,
      Db.addWarn. cbn.
    repeat case_match; split; reflexivity.
  - unfold Handlers.antiLinkHandle, deleteMessage, kickParticipant, sendMessage,
      Db.addWarn. cbn.
    repeat case_match; split; reflexivity.
  - unfold Handlers.antiSpamHandle, sendMessage. cbn.
    repeat case_match; split; reflexivity.
Qed.

(** The engine hands a verdict to the handler of the module that gave
    it. *)
Lemma handleViolation_response (m : DefenseEngine.Module_) (w0 w : World) :
  DefenseEngine.handleViolation bot m now (groupId info) (sender info)
    (messageKey info) (verdictAt w0 m) w
  = EngineSpec.response bot info now (verdictAt w0 m) w.
Proof.
  unfold EngineSpec.verdictOf, DefenseEngine.runModuleDetection,
    DefenseEngine.handleViolation.
  destruct (String.eqb (DefenseEngine.name m) "antiVirtex") eqn:E1.
  { by destruct (AntiVirtex.detect _ _ _). }
  destruct (String.eqb (DefenseEngine.name m) "antiToxic") eqn:E2; [reflexivity |].
  destruct (String.eqb (DefenseEngine.name m) "antiLink") eqn:E3; [reflexivity |].
  destruct (String.eqb (DefenseEngine.name m) "antiSpam") eqn:E4; [| reflexivity].
  by destruct (AntiSpam.detect _ _ _ _ _ _).
Qed.

Lemma runModules_acts (ms : list DefenseEngine.Module_) :
  NoDup (map DefenseEngine.name ms) →
  ∀ w0 w,
    db w = db w0 → outbox w = outbox w0 →
    (∀ m, m ∈ ms → verdictAt w m = verdictAt w0 m) →
    let out := DefenseEngine.runModules cfg builtins bot ms info now w in
    let enabled := EngineSpec.enabledIn (db w0) (groupId info) ms in
    (∀ before m after,
       enabled = before ++ m :: after →
       Forall (λ m', DefenseEngine.detected (verdictAt w0 m') = false) before →
       DefenseEngine.detected (verdictAt w0 m) = true →
       out.1.1 = {| DefenseEngine.resBlocked := true;
                    DefenseEngine.resModule := Some (DefenseEngine.name m);
                    DefenseEngine.resDetection := Some (verdictAt w0 m) |}
       ∧ out.1.2
         = map (λ m', (DefenseEngine.name m', false)) before
           ++ [(DefenseEngine.name m, true)]
       ∧ db out.2 = db (EngineSpec.response bot info now (verdictAt w0 m) w0)
       ∧ outbox out.2
         = outbox (EngineSpec.response bot info now (verdictAt w0 m) w0))
    ∧ (Forall (λ m', DefenseEngine.detected (verdictAt w0 m') = false) enabled →
       out.1.1 = DefenseEngine.notBlocked
       ∧ out.1.2 = map (λ m', (DefenseEngine.name m', false)) enabled
       ∧ db out.2 = db w0 ∧ outbox out.2 = outbox w0).
Proof.
  induction ms as [| m0 ms IH]; intros Hnd w0 w Hdb Hout Hv; cbv zeta.
  - cbn. split; [| intros _; by repeat split].
    intros before m after Heq. by destruct before.
  - apply NoDup_cons in Hnd as [Hm0 Hnd]. cbn [DefenseEngine.runModules].
    unfold EngineSpec.enabledIn. rewrite filter_cons.
    fold (EngineSpec.enabledIn (db w0) (groupId info) ms).
    rewrite Hdb.
    destruct (DefenseEngine.isEnabled (DefenseEngine.instance m0) (db w0) (groupId info))
      eqn:En; cbn [negb].
    2: { destruct (decide (false = true)) as [? | _]; [congruence |].
         apply (IH Hnd w0 w Hdb Hout). intros m Hm. apply Hv. by right. }
    destruct (decide (true = true)) as [_ | ?]; [| congruence].
    pose proof (runModuleDetection_db cfg builtins m0 (messageContent info)
                  (sender info) now w) as Hdb1.
    pose proof (runModuleDetection_outbox m0 (messageContent info) (sender info) w)
      as Hout1.
    assert (Hv0 : (DefenseEngine.runModuleDetection cfg builtins m0
                     (messageContent info) (sender info) now w).1
                  = verdictAt w0 m0).
    { apply (Hv m0). by left. }
    assert (Hrest : ∀ m, m ∈ ms →
              verdictAt (DefenseEngine.runModuleDetection cfg builtins m0
                           (messageContent info) (sender info) now w).2 m
              = verdictAt w0 m).
    { intros m Hm. rewrite verdict_frame; [apply Hv; by right |].
      intros Heq. apply Hm0. rewrite <- Heq. apply list_elem_of_fmap. by exists m. }
    destruct (DefenseEngine.runModuleDetection cfg builtins m0 _ _ now w)
      as [detection w1].
    cbn [fst snd] in Hdb1, Hout1, Hv0, Hrest. subst detection.
    destruct (DefenseEngine.detected (verdictAt w0 m0)) eqn:D.
    + split.
      * intros before m after Heq Hbefore Hm.
        destruct before as [| b before].
        2: { injection Heq as <- _. apply Forall_cons in Hbefore as [Hb _]. congruence. }
        injection Heq as <- _. cbn [fst snd map app].
        split; [reflexivity |]. split; [reflexivity |].
        cbn [db outbox set_stats]. rewrite handleViolation_response.
        apply response_frame; cbn [db outbox set_stats]; congruence.
      * intros Hall. apply Forall_cons in Hall as [Hb _]. congruence.
    + assert (Hdb2 : db w1 = db w0) by congruence.
      assert (Hout2 : outbox w1 = outbox w0) by congruence.
      specialize (IH Hnd w0 w1 Hdb2 Hout2 Hrest). cbv zeta in IH.
      destruct (DefenseEngine.runModules cfg builtins bot ms info now w1)
        as [[r consulted] w2].
      cbn [fst snd] in IH |- *. destruct IH as [IHa IHb]. split.
      * intros before m after Heq Hbefore Hm.
        destruct before as [| b before].
        { injection Heq as <- _. congruence. }
        injection Heq as <- Heq. apply Forall_cons in Hbefore as [_ Hbefore].
        destruct (IHa before m after Heq Hbefore Hm) as (-> & -> & Hd & Ho).
        by repeat split.
      * intros Hall. apply Forall_cons in Hall as [_ Hall].
        destruct (IHb Hall) as (-> & -> & Hd & Ho). by repeat split.
Qed.

(** A module that was not consulted has not seen the message: the state
    of the spam detector and of the flood detector is touched by their own
    detection only (and the tracker by the handler of the spam detector). *)
Lemma runModules_untouched (ms : list DefenseEngine.Module_) :
  ∀ w,
    let out := DefenseEngine.runModules cfg builtins bot ms info now w in
    ("antiSpam" ∉ map fst out.1.2 → messageTracker out.2 = messageTracker w)
    ∧ ("antiVirtex" ∉ map fst out.1.2 → virtexState out.2 = virtexState w).
Proof.
  induction ms as [| m ms IH]; intros w; cbv zeta; [by split |].
  cbn [DefenseEngine.runModules].
  destruct (negb _); [apply IH |].
  assert (Hdet :
            let run := DefenseEngine.runModuleDetection cfg builtins m
                         (messageContent info) (sender info) now w in
            (DefenseEngine.name m ≠ "antiSpam" →
             messageTracker run.2 = messageTracker w
             ∧ ∀ w', messageTracker
                       (DefenseEngine.handleViolation bot m now (groupId info)
                          (sender info) (messageKey info) run.1 w')
                     = messageTracker w')
            ∧ (DefenseEngine.name m ≠ "antiVirtex" →
               virtexState run.2 = virtexState w)
            ∧ ∀ w', virtexState
                      (DefenseEngine.handleViolation bot m now (groupId info)
                         (sender info) (messageKey info) run.1 w')
                    = virtexState w').
  { cbv zeta. unfold DefenseEngine.runModuleDetection, DefenseEngine.handleViolation.
    destruct (String.eqb_spec (DefenseEngine.name m) "antiVirtex") as [E1 | E1].
    { destruct (AntiVirtex.detect _ _ _) as [v s]. cbn [fst snd].
      split; [intros _; split; [reflexivity |] | split; [congruence |]]; intros w';
        unfold Handlers.antiVirtexHandle, sendMessage, deleteMessage, kickParticipant,
          Db.addWarn; cbn; by repeat case_match. }
    destruct (String.eqb_spec (DefenseEngine.name m) "antiToxic") as [E2 | E2].
    { cbn [fst snd].
      split; [intros _; split; [reflexivity |] | split; [reflexivity |]]; intros w';
        unfold Handlers.antiToxicHandle, sendMessage, deleteMessage, kickParticipant,
          Db.addWarn; cbn; by repeat case_match. }
    destruct (String.eqb_spec (DefenseEngine.name m) "antiLink") as [E3 | E3].
    { cbn [fst snd].
      split; [intros _; split; [reflexivity |] | split; [reflexivity |]]; intros w';
        unfold Handlers.antiLinkHandle, sendMessage, deleteMessage, kickParticipant,
          Db.addWarn; cbn; by repeat case_match. }
    destruct (String.eqb_spec (DefenseEngine.name m) "antiSpam") as [E4 | E4].
    { destruct (AntiSpam.detect _ _ _ _ _ _) as [v t]. cbn [fst snd].
      split; [congruence |]. split; [reflexivity |]. intros w'.
      unfold Handlers.antiSpamHandle, sendMessage. cbn. by repeat case_match. }
    cbn [fst snd]. by repeat split. }
  cbv zeta in Hdet. destruct Hdet as (Hspam & Hvirtex & Hhandle).
  destruct (DefenseEngine.runModuleDetection cfg builtins m _ _ now w)
    as [detection w1].
  cbn [fst snd] in Hspam, Hvirtex, Hhandle.
  destruct (DefenseEngine.detected detection).
  - cbn [fst snd map]. rewrite !list_elem_of_singleton.
    cbn [messageTracker virtexState set_stats]. split.
    + intros Hne. destruct (Hspam (λ H, Hne (eq_sym H))) as [H1 H2].
      rewrite H2. exact H1.
    + intros Hne. rewrite Hhandle. apply Hvirtex. congruence.
  - specialize (IH w1). cbv zeta in IH.
    destruct (DefenseEngine.runModules cfg builtins bot ms info now w1)
      as [[r consulted] w2].
    cbn [fst snd map] in IH |- *. destruct IH as [IH1 IH2].
    rewrite !not_elem_of_cons. split.
    + intros [Hne Hrest]. rewrite (IH1 Hrest).
      apply (Hspam (λ H, Hne (eq_sym H))).
    + intros [Hne Hrest]. rewrite (IH2 Hrest). apply Hvirtex. congruence.
Qed.

End EngineActs.

Section EnginePriority.

Variable cfg : Config.
Variable builtins : Builtins.
Variable bot : Bot.

Lemma modules_names_NoDup : NoDup (map DefenseEngine.name DefenseEngine.modules).
Proof. by_evaluation. Qed.

Lemma enabledIn_names_NoDup (d : Db.t) (groupId : string) :
  NoDup (map DefenseEngine.name (EngineSpec.enabledIn d groupId DefenseEngine.modules)).
Proof.
  eapply sublist_NoDup; [exact modules_names_NoDup |].
  apply fmap_sublist. unfold EngineSpec.enabledIn. apply sublist_filter.
Qed.

(** C3. The engine consults the modules in the order antiVirtex,
    antiToxic, antiLink, antiSpam, geoRestriction, skipping those that are
    switched off for the group. The modules it ran form an initial part of
    that order; a blocked message is blocked by the last module run, the
    only one that detected, so no module after the first detection is run;
    a message that is not blocked was either exempt from the checks or
    seen by every enabled module. What the engine acts upon is the verdict
    of the first enabled module that detects: the result carries that
    verdict, the database and the calls on the socket afterwards are those
    of that module's handler on that verdict, and no module after it is
    consulted, whatever it would have said; where no enabled module
    detects, the database and the socket are left alone. A module that was
    not consulted has not seen the message: the tracker of the spam
    detector and the pattern state of the flood detector are as they
    were. *)
Theorem C3_priority_order_and_short_circuit (info : MessageInfo) (now : Z) (w : World) :
  map DefenseEngine.name DefenseEngine.modules
  = ["antiVirtex"; "antiToxic"; "antiLink"; "antiSpam"; "geoRestriction"]
  ∧ let out := DefenseEngine.checkMessage cfg builtins bot info now w in
    let r := out.1.1 in
    let consulted := out.1.2 in
    let enabledModules :=
      EngineSpec.enabledIn (db w) (groupId info) DefenseEngine.modules in
    let enabled := map DefenseEngine.name enabledModules in
    let verdict := EngineSpec.verdictOf cfg builtins info now w in
    (map fst consulted) `prefix_of` enabled
    ∧ (DefenseEngine.resBlocked r = true →
         ∃ front n,
           consulted = front ++ [(n, true)]
           ∧ Forall (λ p, snd p = false) front
           ∧ DefenseEngine.resModule r = Some n)
    ∧ (DefenseEngine.resBlocked r = false →
         Forall (λ p, snd p = false) consulted
         ∧ DefenseEngine.resModule r = None
         ∧ (EngineSpec.skipsChecks bot info w = false →
            map fst consulted = enabled))
    ∧ (EngineSpec.skipsChecks bot info w = true →
         out = (DefenseEngine.notBlocked, [], w))
    ∧ (EngineSpec.skipsChecks bot info w = false →
         (∀ before m after,
            enabledModules = before ++ m :: after →
            Forall (λ m', DefenseEngine.detected (verdict m') = false) before →
            DefenseEngine.detected (verdict m) = true →
            r = {| DefenseEngine.resBlocked := true;
                   DefenseEngine.resModule := Some (DefenseEngine.name m);
                   DefenseEngine.resDetection := Some (verdict m) |}
            ∧ consulted
              = map (λ m', (DefenseEngine.name m', false)) before
                ++ [(DefenseEngine.name m, true)]
            ∧ (∀ m', m' ∈ after → DefenseEngine.name m' ∉ map fst consulted)
            ∧ db out.2 = db (EngineSpec.response bot info now (verdict m) w)
            ∧ outbox out.2
              = outbox (EngineSpec.response bot info now (verdict m) w))
         ∧ (Forall (λ m', DefenseEngine.detected (verdict m') = false) enabledModules →
            r = DefenseEngine.notBlocked
            ∧ consulted = map (λ m', (DefenseEngine.name m', false)) enabledModules
            ∧ db out.2 = db w
            ∧ outbox out.2 = outbox w))
    ∧ ("antiSpam" ∉ map fst consulted → messageTracker out.2 = messageTracker w)
    ∧ ("antiVirtex" ∉ map fst consulted → virtexState out.2 = virtexState w).
Proof.
  split; [reflexivity |]. cbv zeta.
  unfold DefenseEngine.checkMessage, EngineSpec.skipsChecks.
  assert (Hskip : ∀ (enabled : list string) (P : Prop),
            (map fst (@nil (string * bool))) `prefix_of` enabled
            ∧ (DefenseEngine.resBlocked DefenseEngine.notBlocked = true →
               ∃ front n,
                 @nil (string * bool) = front ++ [(n, true)]
                 ∧ Forall (λ p, snd p = false) front
                 ∧ DefenseEngine.resModule DefenseEngine.notBlocked = Some n)
            ∧ (DefenseEngine.resBlocked DefenseEngine.notBlocked = false →
               Forall (λ p : string * bool, snd p = false) []
               ∧ DefenseEngine.resModule DefenseEngine.notBlocked = None
               ∧ (true = false → map fst (@nil (string * bool)) = enabled))
            ∧ (true = true →
               (DefenseEngine.notBlocked, @nil (string * bool), w)
               = (DefenseEngine.notBlocked, [], w))
            ∧ (true = false → P)
            ∧ ("antiSpam" ∉ map fst (@nil (string * bool)) →
               messageTracker w = messageTracker w)
            ∧ ("antiVirtex" ∉ map fst (@nil (string * bool)) →
               virtexState w = virtexState w)).
  { intros enabled P. split; [apply prefix_nil |].
    split; [discriminate |].
    split; [| split; [reflexivity | split; [discriminate | by split]]].
    intros _. repeat split; [constructor | discriminate]. }
  destruct (isGroup info && negb (Db.isProtected (db w) (groupId info)));
    [apply Hskip |].
  destruct (Db.isAuthorOrOwner (db w) (jidNumber (sender info)));
    [apply Hskip |].
  destruct (String.eqb (sender info) (selfId bot)); [apply Hskip |].
  cbn [orb]. clear Hskip.
  match goal with
  | |- context [DefenseEngine.runModules _ _ _ _ _ _ ?w1] =>
      pose proof (runModules_spec cfg builtins bot DefenseEngine.modules info now w1)
        as H;
      pose proof (runModules_acts cfg builtins bot info now DefenseEngine.modules
                    modules_names_NoDup w w1 eq_refl eq_refl
                    (λ m _, verdict_stats cfg builtins info now _ w m))
        as Hacts;
      pose proof (runModules_untouched cfg builtins bot info now
                    DefenseEngine.modules w1) as Hstate
  end.
  cbv zeta in H, Hacts, Hstate. cbn [db set_stats] in H.
  destruct H as [Hb Hn]. destruct Hacts as [Ha Hq].
  split; [| split; [| split; [| split; [discriminate | split; [| exact Hstate]]]]].
  - match type of Hb with
    | DefenseEngine.resBlocked ?r = true → _ =>
        destruct (DefenseEngine.resBlocked r) eqn:B
    end.
    + destruct (Hb eq_refl) as (front & n & _ & _ & _ & Hp). exact Hp.
    + destruct (Hn eq_refl) as (_ & _ & ->). reflexivity.
  - intros B. destruct (Hb B) as (front & n & Hc & Hf & Hm & _).
    exists front, n. auto.
  - intros B. destruct (Hn B) as (Hf & Hm & He). auto.
  - intros _. split; [| exact Hq].
    intros before m after Heq Hbefore Hm.
    destruct (Ha before m after Heq Hbefore Hm) as (Hr & Hc & Hd & Ho).
    split; [exact Hr |]. split; [exact Hc |]. split; [| by split].
    intros m' Hm'. rewrite Hc.
    pose proof (enabledIn_names_NoDup (db w) (groupId info)) as Hnd.
    rewrite Heq, fmap_app, fmap_cons, cons_middle, app_assoc in Hnd.
    apply NoDup_app in Hnd as (_ & Hdisj & _).
    intros Hin. apply (Hdisj (DefenseEngine.name m')).
    + rewrite fmap_app, <- list_fmap_compose in Hin. exact Hin.
    + apply list_elem_of_fmap. by exists m'.
Qed.

End EnginePriority.

Section EngineExamples.

(** A flood of sixty letters would trigger two modules: on its own the
    spam module reports it as a character flood. *)
Example flood_is_spam_too :
  AntiSpam.detectCharacterFlood Sample.sixtyAs = true.
Proof. vm_compute. reflexivity. Qed.

Lemma C3_witness :
  let info := Sample.groupMessage Sample.member Sample.sixtyAs in
  let out :=
    DefenseEngine.checkMessage defaultConfig Sample.asciiBuiltins Sample.liveBot
      info 1000 Sample.world in
  let verdict :=
    EngineSpec.verdictOf defaultConfig Sample.asciiBuiltins info 1000 Sample.world in
  (∃ m1 between m2 after,
     EngineSpec.enabledIn (db Sample.world) (groupId info) DefenseEngine.modules
     = m1 :: between ++ m2 :: after
     ∧ DefenseEngine.name m1 = "antiVirtex"
     ∧ DefenseEngine.name m2 = "antiSpam"
     ∧ DefenseEngine.detected (verdict m1) = true
     ∧ DefenseEngine.detected (verdict m2) = true)
  ∧ out.1.1 = {| DefenseEngine.resBlocked := true;
                 DefenseEngine.resModule := Some "antiVirtex";
                 DefenseEngine.resDetection :=
                   Some (DefenseEngine.VirtexDetection Sample.sixtyAsVerdict) |}
  ∧ out.1.2 = [("antiVirtex", true)]
  ∧ ("antiSpam" ∉ map fst out.1.2)
  ∧ messageTracker out.2 = messageTracker Sample.world
  ∧ outbox out.2
    = [ Delete Sample.group 1;
        Send Sample.group (ViolationWarning "antiVirtex" Sample.member 1 3) ].
Proof.
  cbv zeta.
  pose proof (C3_priority_order_and_short_circuit defaultConfig Sample.asciiBuiltins
                Sample.liveBot (Sample.groupMessage Sample.member Sample.sixtyAs)
                1000 Sample.world) as [_ H].
  cbv zeta in H. destruct H as (_ & _ & _ & _ & H & Htracker & _).
  assert (Hchecked : EngineSpec.skipsChecks Sample.liveBot
                       (Sample.groupMessage Sample.member Sample.sixtyAs) Sample.world
                     = false) by (vm_compute; reflexivity).
  destruct (H Hchecked) as [Hacts _].
  destruct (Hacts [] Fixtures.virtexModule (tail DefenseEngine.modules))
    as (Hr & Hc & Hlater & _ & Ho);
    [vm_compute; reflexivity | constructor | vm_compute; reflexivity |].
  split.
  { exists Fixtures.virtexModule, (take 2 (tail DefenseEngine.modules)),
      Fixtures.spamModule, (drop 4 DefenseEngine.modules).
    repeat split; vm_compute; reflexivity. }
  split; [rewrite Hr; vm_compute; reflexivity |].
  split; [rewrite Hc; vm_compute; reflexivity |].
  split.
  { apply (Hlater Fixtures.spamModule).
    do 2 apply list_elem_of_further. apply list_elem_of_here. }
  split.
  { apply Htracker. apply (Hlater Fixtures.spamModule).
    do 2 apply list_elem_of_further. apply list_elem_of_here. }
  rewrite Ho. vm_compute. reflexivity.
Defined.

End EngineExamples.

(** ** The command dispatcher *)

Section DispatcherFacts.

Variable cfg : Config.
Variable table : string → option ValidationMiddleware.Requirements.
Variable registry : CommandManager.Registry.
Variable bot : Bot.

Import CommandManager.

Import DispatchSpec.

Lemma noNewCooldown_refl (d : Db.t) : noNewCooldown d d.
Proof. intros ???. auto. Qed.

Lemma noNewCooldown_eq (d' d : Db.t) :
  Db.cooldowns d' = Db.cooldowns d → noNewCooldown d' d.
Proof. intros H ???. unfold Db.userCooldowns. by rewrite H. Qed.

Lemma noNewCooldown_trans (d1 d2 d3 : Db.t) :
  noNewCooldown d1 d2 → noNewCooldown d2 d3 → noNewCooldown d1 d3.
Proof. intros H12 H23 ??? H. auto. Qed.

Lemma removeCooldown_noNew (number command : string) (d : Db.t) :
  noNewCooldown (Db.removeCooldown number command d) d.
Proof.
  intros n c u. unfold Db.removeCooldown, Db.userCooldowns. simpl.
  destruct (decide (number = n)) as [-> | Hne].
  - rewrite lookup_insert_eq. simpl. intros H.
    apply lookup_delete_Some in H as [_ H]. exact H.
  - rewrite lookup_insert_ne by exact Hne. auto.
Qed.

Lemma checkCooldown_noNew (now : Z) (sender command : string) (w : World) :
  noNewCooldown (db (snd (CooldownMiddleware.checkCooldown now sender command w))) (db w)
  ∧ outbox (snd (CooldownMiddleware.checkCooldown now sender command w)) = outbox w.
Proof.
  unfold CooldownMiddleware.checkCooldown.
  destruct (Db.isAuthorOrOwner _ _); [split; [apply noNewCooldown_refl | reflexivity] |].
  unfold Db.isOnCooldown.
  destruct (Db.userCooldowns _ _ !! command) as [cooldown |];
    [| split; [apply noNewCooldown_refl | reflexivity]].
  destruct (cooldown =? 0)%Z; [split; [apply noNewCooldown_refl | reflexivity] |].
  destruct (cooldown - now <=? 0)%Z; (split; [| reflexivity]).
  - apply removeCooldown_noNew.
  - apply noNewCooldown_refl.
Qed.

Lemma checkGlobalRateLimit_db (now : Z) (sender : string) (w : World) :
  db (snd (CooldownMiddleware.checkGlobalRateLimit now sender w)) = db w
  ∧ outbox (snd (CooldownMiddleware.checkGlobalRateLimit now sender w)) = outbox w.
Proof.
  unfold CooldownMiddleware.checkGlobalRateLimit.
  destruct (Db.isAuthorOrOwner _ _); [split; reflexivity |].
  destruct (_ <=? _); split; reflexivity.
Qed.

Lemma onError_spec (info : MessageInfo) (message : string) (w : World) :
  Db.cooldowns (db (onError bot info message w)) = Db.cooldowns (db w)
  ∧ outbox (onError bot info message w)
    = outbox w ++ [Send (from info) (ErrorReport message)].
Proof. split; reflexivity. Qed.

Lemma reject_spec (info : MessageInfo) (text : Text) (w : World) :
  Db.cooldowns (db (reject bot info text w)) = Db.cooldowns (db w)
  ∧ Db.commands (db (reject bot info text w)) = Db.commands (db w)
  ∧ globalCooldowns (reject bot info text w) = globalCooldowns w
  ∧ ∃ rest, outbox (reject bot info text w)
            = outbox w ++ Send (from info) text :: rest.
Proof.
  unfold reject, sendMessage. destruct (sockOk bot _).
  - repeat split. exists []. reflexivity.
  - repeat split. eexists. simpl. rewrite <- app_assoc. reflexivity.
Qed.

Ltac step_not_in :=
  rewrite ?elem_of_cons, elem_of_nil; intuition discriminate.
Ltac step_not_in_goal :=
  rewrite ?elem_of_cons; auto 10.

(** The checks run in the order authorization, cooldown, validation,
    rate limit; a dispatch that does not reach the handler returns [false],
    has sent the text of the check that stopped it as its first message,
    has counted no usage and has set no cooldown. *)
Theorem execute_short_circuits
    (commandName : string) (args : list string) (info : MessageInfo) (now : Z)
    (w : World) (command : Command) :
  let actualCommand := resolveAlias registry commandName in
  commands registry !! actualCommand = Some command →
  let out := execute cfg table registry bot commandName args info now w in
  out.1.2 `prefix_of` pipeline
  ∧ (out.1.1 = true ↔ out.1.2 = pipeline)
  ∧ (Handler ∉ out.1.2 →
     out.1.1 = false
     ∧ Db.commands (db out.2) = Db.commands (db w)
     ∧ noNewCooldown (db out.2) (db w)
     ∧ ∃ text rest,
         outbox out.2 = outbox w ++ Send (from info) text :: rest
         ∧ rejectionOf out.1.2 actualCommand (role command) text).
Proof.
  cbv zeta. intros Hreg. unfold execute. rewrite Hreg.
  destruct (AuthMiddleware.authorized _); cbn [negb].
  2: { cbn [fst snd].
       destruct (reject_spec info
                   (AuthDenied (default AuthMiddleware.error
                                  (AuthMiddleware.reason
                                     (AuthMiddleware.checkAuth (db w) (sender info)
                                        (role command))))
                      (role command)) w)
         as (Hcd & Hcm & _ & rest & Hout).
       split; [by eexists |]. split; [split; discriminate |]. intros _.
       repeat split; [exact Hcm | by apply noNewCooldown_eq |].
       eexists _, rest. split; [exact Hout |]. cbn. by eexists. }
  pose proof (checkCooldown_noNew now (sender info)
                (resolveAlias registry commandName) w) as [Hc Hco].
  assert (Hcm1 : Db.commands
                   (db (snd (CooldownMiddleware.checkCooldown now (sender info)
                               (resolveAlias registry commandName) w)))
                 = Db.commands (db w)).
  { unfold CooldownMiddleware.checkCooldown.
    destruct (Db.isAuthorOrOwner _ _); [reflexivity |].
    unfold Db.isOnCooldown.
    destruct (Db.userCooldowns _ _ !! _) as [cooldown |]; [| reflexivity].
    destruct (cooldown =? 0)%Z; [reflexivity |].
    destruct (cooldown - now <=? 0)%Z; reflexivity. }
  destruct (CooldownMiddleware.checkCooldown _ _ _ w) as [[remaining |] w1];
    cbn [fst snd] in Hc, Hco, Hcm1.
  { cbn [fst snd].
    destruct (reject_spec info
                (CooldownActive (resolveAlias registry commandName)
                   remaining) w1)
      as (Hcd & Hcm & _ & rest & Hout).
    split; [by eexists |]. split; [split; discriminate |]. intros _.
    repeat split; [congruence | |].
    - eapply noNewCooldown_trans; [| exact Hc]. by apply noNewCooldown_eq.
    - eexists _, rest. rewrite <- Hco. split; [exact Hout |]. cbn. by eexists. }
  destruct (ValidationMiddleware.validateCommand _ _ _ _) as [| errors |].
  2: { cbn [fst snd].
       destruct (reject_spec info
                   (ValidationError (resolveAlias registry commandName)
                      errors) w1)
         as (Hcd & Hcm & _ & rest & Hout).
       split; [by eexists |]. split; [split; discriminate |]. intros _.
       repeat split; [congruence | |].
       - eapply noNewCooldown_trans; [| exact Hc]. by apply noNewCooldown_eq.
       - eexists _, rest. rewrite <- Hco. split; [exact Hout |]. cbn. left. by eexists. }
  2: { cbn [fst snd].
       destruct (reject_spec info NoText w1) as (Hcd & Hcm & _ & rest & Hout).
       split; [by eexists |]. split; [split; discriminate |]. intros _.
       repeat split; [congruence | |].
       - eapply noNewCooldown_trans; [| exact Hc]. by apply noNewCooldown_eq.
       - eexists _, rest. rewrite <- Hco. split; [exact Hout |]. cbn. by right. }
  pose proof (checkGlobalRateLimit_db now (sender info) w1) as [Hr Hro].
  destruct (CooldownMiddleware.checkGlobalRateLimit _ _ w1) as [[] w2];
    cbn [fst snd] in Hr, Hro.
  { cbn [fst snd].
    destruct (reject_spec info RateLimit w2) as (Hcd & Hcm & _ & rest & Hout).
    split; [by eexists |]. split; [split; discriminate |]. intros _.
    repeat split; [congruence | |].
    - eapply noNewCooldown_trans; [| exact Hc]. rewrite <- Hr.
      by apply noNewCooldown_eq.
    - eexists _, rest. rewrite <- Hco, <- Hro. split; [exact Hout |]. reflexivity. }
  destruct (cmdExecute command bot args info w2) as [w3 | message w3]; cbn [fst snd].
  - split; [by exists [] |]. split; [split; reflexivity |].
    intros H. exfalso. apply H. unfold pipeline. step_not_in_goal.
  - split; [by eexists |]. split; [split; discriminate |].
    intros H. exfalso. apply H. step_not_in_goal.
Qed.



End DispatcherFacts.

Section DispatcherExamples.

Import CommandManager.


(** The same dispatch, run: the member has no cooldown for [ping]
    afterwards and can try again at once. *)
Example failed_ping_leaves_no_cooldown :
  let out :=
    execute defaultConfig Sample.requirements Sample.registry Sample.flakyBot
      "ping" [] (Sample.directMessage Sample.member (js ".ping")) 1000 Sample.world in
  out.1.1 = false
  ∧ outbox out.2
    = [ Send (Sample.jid Sample.member) (OtherText "Pinging...");
        Send (Sample.jid Sample.member) (ErrorReport "send failed") ]
  ∧ Db.userCooldowns (db out.2) Sample.member !! "ping" = None.
Proof. cbv zeta. repeat split; vm_compute; reflexivity. Qed.

(** A successful [ping], for contrast, commits the default cooldown of 20
    seconds. *)
Example successful_ping_sets_cooldown :
  let out :=
    execute defaultConfig Sample.requirements Sample.registry Sample.liveBot
      "ping" [] (Sample.directMessage Sample.member (js ".ping")) 1000 Sample.world in
  out.1.1 = true
  ∧ Db.userCooldowns (db out.2) Sample.member !! "ping" = Some 21000%Z.
Proof. cbv zeta. split; vm_compute; reflexivity. Qed.

(** C4 at the failing input: the author sends [.defense] without an
    argument. The custom validator of [defense] throws, [validateCommand]
    reports a failure that carries no message, and the dispatcher sends a
    message without text. The dispatch does return [false] and stops after
    the validation stage. *)
Lemma C4_validator_exception_sends_no_reason :
  let info := Sample.directMessage Sample.author (js ".defense") in
  let out :=
    execute defaultConfig Sample.requirements Sample.registry Sample.liveBot
      "defense" [] info 1000 Sample.world in
  ValidationMiddleware.validateCommand Sample.requirements "defense" [] info
    = ValidationMiddleware.Failed
  ∧ out.1.1 = false
  ∧ out.1.2 = [AuthCheck; CooldownCheck; ValidationCheck]
  ∧ outbox out.2 = [Send (Sample.jid Sample.author) NoText].
Proof. cbv zeta. repeat split; vm_compute; reflexivity. Qed.

End DispatcherExamples.

(** ** State of the detectors *)

Section DetectorState.

Variable normalize : jsString → jsString.
Variable st : AntiSpam.Settings.

Lemma filter_idem {A} (P : A → Prop) `{!∀ x, Decision (P x)} (l : list A) :
  filter P (filter P l) = filter P l.
Proof.
  induction l as [| x l IH]; [reflexivity |].
  rewrite (filter_cons _ x l). destruct (decide (P x)) as [Hx | Hx]; [| exact IH].
  rewrite filter_cons_True by exact Hx. by rewrite IH.
Qed.

Lemma spam_detect_verdict (t : AntiSpam.Tracker) (sender : string)
    (content : jsString) (timestamp : Z) :
  let recentMessages :=
    SpamSpec.recentOf st t sender timestamp
    ++ [ {| AntiSpam.timestamp := timestamp; AntiSpam.content := content |} ] in
  AntiSpam.detect normalize st t sender content timestamp
  = ({| AntiSpam.detected :=
          AntiSpam.detectRapidFire st recentMessages
          || AntiSpam.detectDuplicate normalize st recentMessages
          || AntiSpam.detectCharacterFlood content;
        AntiSpam.type :=
          AntiSpam.getSpamType (AntiSpam.detectRapidFire st recentMessages)
            (AntiSpam.detectDuplicate normalize st recentMessages)
            (AntiSpam.detectCharacterFlood content);
        AntiSpam.messageCount := length recentMessages |},
     <[jidNumber sender := recentMessages]> t).
Proof. reflexivity. Qed.

(** The spam detector is not a function of its input alone: by design
    it reads and extends the sender's tracked messages. Its verdict is
    determined by the input together with the sender's tracked messages that
    are still inside the time window; a call changes no other user's entry;
    and a second call with the same input sees one message more. The link
    detector, in contrast, is run by the engine without reading or changing
    the process state. *)
Lemma spam_verdict_follows_tracked_messages
    (cfg : Config) (builtins : Builtins)
    (t1 t2 : AntiSpam.Tracker) (sender : string) (content : jsString) (timestamp : Z) :
  let detect t := AntiSpam.detect normalize st t sender content timestamp in
  (SpamSpec.recentOf st t1 sender timestamp = SpamSpec.recentOf st t2 sender timestamp →
   (detect t1).1 = (detect t2).1)
  ∧ (∀ user, user ≠ jidNumber sender → (detect t1).2 !! user = t1 !! user)
  ∧ ((0 < AntiSpam.timeWindow st)%Z →
     AntiSpam.messageCount (detect (detect t1).2).1
     = AntiSpam.messageCount (detect t1).1 + 1)
  ∧ (∀ m now w1 w2,
       DefenseEngine.name m = "antiLink" →
       (DefenseEngine.runModuleDetection cfg builtins m content sender now w1).1
       = (DefenseEngine.runModuleDetection cfg builtins m content sender now w2).1
       ∧ (DefenseEngine.runModuleDetection cfg builtins m content sender now w1).2 = w1).
Proof.
  cbv beta zeta. rewrite !spam_detect_verdict. cbv zeta. cbn [fst snd].
  split; [| split; [| split]].
  - intros ->. reflexivity.
  - intros user Hne. by rewrite lookup_insert_ne.
  - intros Hw. cbn [fst snd AntiSpam.messageCount].
    unfold SpamSpec.recentOf at 1. rewrite lookup_insert_eq. cbn [default].
    unfold id. rewrite filter_app, !length_app.
    unfold SpamSpec.recentOf at 1. rewrite filter_idem.
    fold (SpamSpec.recentOf st t1 sender timestamp).
    rewrite filter_cons, filter_nil.
    cbn [AntiSpam.timestamp].
    destruct (decide (timestamp - timestamp < AntiSpam.timeWindow st)%Z); [| lia].
    cbn [length]. lia.
  - intros m now w1 w2 Hm. unfold DefenseEngine.runModuleDetection. rewrite Hm.
    cbn. split; reflexivity.
Qed.
End DetectorState.

Section DetectorExamples.

(** The same sender, body and timestamp give the spam detector three
    different verdicts on three calls in a row, the third of which reports
    a duplicate. *)
Example spam_verdicts_of_three_calls :
  let detect t :=
    AntiSpam.detect Sample.asciiNormalize AntiSpam.defaultSettings t
      (Sample.jid Sample.member) (js "hello") 1000 in
  let first := detect ∅ in
  let second := detect first.2 in
  let third := detect second.2 in
  first.1 ≠ second.1
  ∧ AntiSpam.detected first.1 = false
  ∧ AntiSpam.detected third.1 = true
  ∧ AntiSpam.type third.1 = AntiSpam.duplicate.
Proof.
  cbv zeta. split; [| repeat split; vm_compute; reflexivity].
  intros H. apply (f_equal AntiSpam.messageCount) in H.
  vm_compute in H. discriminate.
Qed.

End DetectorExamples.

(** ** Further facts about the detectors *)

Section DetectorFacts.

(** [normalizeMessage] always throws: its last replacement compiles the
    source [+], which is not a regular expression. *)
Lemma normalizeMessage_throws (toLowerCase : jsString → jsString) (message : jsString) :
  AntiToxic.normalizeMessage toLowerCase message = None.
Proof. reflexivity. Qed.

(** Hence [AntiToxic.detect] reports no detection, whatever the message
    and whatever the scans after normalization would find. *)
Lemma antiToxic_detects_nothing (toLowerCase : jsString → jsString)
    (scanBadWords : jsString → list string) (message : jsString) :
  AntiToxic.detect toLowerCase scanBadWords message = AntiToxic.notDetected.
Proof.
  destruct message as [| c rest]; [reflexivity |].
  unfold AntiToxic.detect. rewrite normalizeMessage_throws. reflexivity.
Qed.

(** C9, where it fails. The patterns of [checkVirtexPatterns] are regex
    objects with the [g] flag that are created once and used with [test],
    so each keeps its [lastIndex] from one call of [detect] to the next. The
    same message of five left-to-right marks is reported as a critical
    virtex pattern by the first call, passes the second, and is reported
    again by the third; through the engine the first copy is blocked and
    the second is let through. *)
Theorem C9_virtex_verdict_alternates :
  let message := replicate 5 8206%Z in
  let detect s := AntiVirtex.detect AntiVirtex.defaultSettings s message in
  let first := detect AntiVirtex.initialState in
  let second := detect first.2 in
  let third := detect second.2 in
  let info := Sample.groupMessage Sample.member message in
  let check w :=
    DefenseEngine.checkMessage defaultConfig Sample.asciiBuiltins Sample.liveBot
      info 1000 w in
  AntiVirtex.detected first.1 = true
  ∧ AntiVirtex.type first.1 = Some AntiVirtex.virtex_pattern
  ∧ AntiVirtex.severity first.1 = Some critical
  ∧ first.2 = [0; 5; 0; 0]
  ∧ AntiVirtex.detected second.1 = false
  ∧ first.1 ≠ second.1
  ∧ second.2 = AntiVirtex.initialState
  ∧ third = first
  ∧ DefenseEngine.resModule (check Sample.world).1.1 = Some "antiVirtex"
  ∧ DefenseEngine.resBlocked (check (check Sample.world).2).1.1 = false.
Proof.
  cbv zeta. repeat split; try (vm_compute; reflexivity).
  intros H. apply (f_equal AntiVirtex.detected) in H. vm_compute in H. discriminate.
Qed.

(** A [lastIndex] that falls inside a surrogate pair of the next message:
    the pattern of twenty faces carries the [u] flag and starts its search
    at the pair. After a message of twenty faces, a message of twenty faces
    behind 39 letters is reported as well. *)
Example virtex_pattern_inside_a_pair :
  let face := [55357; 56832]%Z in
  let faces := concat (replicate 20 face) in
  let letters := concat (replicate 19 [97; 98]%Z) ++ [97%Z] in
  let first := AntiVirtex.detect AntiVirtex.defaultSettings AntiVirtex.initialState faces in
  let second := AntiVirtex.detect AntiVirtex.defaultSettings first.2 (letters ++ faces) in
  AntiVirtex.type first.1 = Some AntiVirtex.virtex_pattern
  ∧ first.2 = [0; 0; 40; 0]
  ∧ AntiVirtex.type second.1 = Some AntiVirtex.virtex_pattern
  ∧ second.2 = [0; 0; 79; 0].
Proof. cbv zeta. repeat split; vm_compute; reflexivity. Qed.

(** A body that is named like a member of [Object.prototype] makes the
    largest count [NaN]: three copies of it are no duplicates, and one copy
    hides the duplicates of another body. A body [__proto__] is not counted
    at all. *)
Example duplicates_hidden_by_inherited_names :
  let tracked body := {| AntiSpam.timestamp := 0; AntiSpam.content := js body |} in
  let duplicates bodies :=
    AntiSpam.detectDuplicate Sample.asciiNormalize AntiSpam.defaultSettings
      (map tracked bodies) in
  duplicates ["hello"; "hello"; "hello"] = true
  ∧ duplicates ["Constructor"; "constructor"; "constructor"] = false
  ∧ duplicates ["hello"; "hello"; "hello"; "constructor"] = false
  ∧ duplicates ["__proto__"; "__proto__"; "__proto__"] = false
  ∧ duplicates ["hello"; "__proto__"; "hello"; "hello"] = true.
Proof. cbv zeta. repeat split; vm_compute; reflexivity. Qed.

End DetectorFacts.

(** ** The database *)

Section DatabaseFacts.

Lemma userCooldowns_setCooldown (cc now : Z) (number command : string)
    (duration : Z) (d : Db.t) (n c : string) :
  Db.userCooldowns (Db.setCooldown cc now number command duration d) n !! c
  = if decide (n = number ∧ c = command)
    then Some (now + (if (duration =? 0)%Z then cc else duration) * 1000)%Z
    else Db.userCooldowns d n !! c.
Proof.
  unfold Db.setCooldown, Db.userCooldowns at 1. cbn [Db.cooldowns Db.set_cooldowns].
  destruct (decide (n = number ∧ c = command)) as [[-> ->] | Hne].
  - rewrite lookup_insert_eq. cbn [default]. unfold id. by rewrite lookup_insert_eq.
  - destruct (decide (n = number)) as [-> | Hn].
    + rewrite lookup_insert_eq. cbn [default]. unfold id.
      rewrite lookup_insert_ne; [reflexivity | intros ->; by apply Hne].
    + rewrite lookup_insert_ne by done. reflexivity.
Qed.

Lemma userCooldowns_removeCooldown (number command : string) (d : Db.t) (n c : string) :
  Db.userCooldowns (Db.removeCooldown number command d) n !! c
  = if decide (n = number ∧ c = command) then None
    else Db.userCooldowns d n !! c.
Proof.
  unfold Db.removeCooldown, Db.userCooldowns at 1. cbn [Db.cooldowns Db.set_cooldowns].
  destruct (decide (n = number ∧ c = command)) as [[-> ->] | Hne].
  - rewrite lookup_insert_eq. cbn [default]. unfold id. by rewrite lookup_delete_eq.
  - destruct (decide (n = number)) as [-> | Hn].
    + rewrite lookup_insert_eq. cbn [default]. unfold id.
      rewrite lookup_delete_ne; [reflexivity | intros ->; by apply Hne].
    + rewrite lookup_insert_ne by done. reflexivity.
Qed.

Lemma isOnCooldown_setCooldown (cc now t : Z) (number command : string)
    (duration : Z) (d : Db.t) :
  let seconds := if (duration =? 0)%Z then cc else duration in
  let until := (now + seconds * 1000)%Z in
  let d' := Db.setCooldown cc now number command duration d in
  until ≠ 0%Z →
  ((t < until)%Z →
     Db.isOnCooldown t number command d' = (Some (until - t)%Z, d'))
  ∧ ((until ≤ t)%Z →
       (Db.isOnCooldown t number command d').1 = None
       ∧ Db.userCooldowns (Db.isOnCooldown t number command d').2 number !! command
         = None).
Proof.
  intros seconds until d' Hne.
  assert (Hget : Db.userCooldowns d' number !! command = Some until).
  { unfold d'. rewrite userCooldowns_setCooldown.
    destruct (decide (number = number ∧ command = command)) as [_ | []]; done. }
  split.
  - intros Hlt. unfold Db.isOnCooldown. rewrite Hget.
    destruct (Z.eqb_spec until 0) as [| _]; [done |].
    destruct (Z.leb_spec (until - t) 0); [lia | reflexivity].
  - intros Hle. unfold Db.isOnCooldown. rewrite Hget.
    destruct (Z.eqb_spec until 0) as [| _]; [done |].
    destruct (Z.leb_spec (until - t) 0); [| lia].
    cbn [fst snd]. split; [reflexivity |].
    rewrite userCooldowns_removeCooldown.
    destruct (decide (number = number ∧ command = command)) as [_ | []]; done.
Qed.

(** X1. A cooldown that was set is reported, with the time that is left,
    until its expiry; from the expiry on the check answers "no cooldown"
    and removes the entry. Setting it touches no other user or command. *)
Theorem cooldown_round_trip (cc now t : Z) (number command : string)
    (duration : Z) (d : Db.t) :
  let seconds := if (duration =? 0)%Z then cc else duration in
  let until := (now + seconds * 1000)%Z in
  let d' := Db.setCooldown cc now number command duration d in
  until ≠ 0%Z →
  ((t < until)%Z →
     Db.isOnCooldown t number command d' = (Some (until - t)%Z, d'))
  ∧ ((until ≤ t)%Z →
       (Db.isOnCooldown t number command d').1 = None
       ∧ Db.userCooldowns (Db.isOnCooldown t number command d').2 number !! command
         = None)
  ∧ (∀ n c, ¬ (n = number ∧ c = command) →
       Db.userCooldowns d' n !! c = Db.userCooldowns d n !! c).
Proof.
  intros seconds until d' Hne.
  destruct (isOnCooldown_setCooldown cc now t number command duration d Hne)
    as [Hactive Hexpired].
  split; [exact Hactive |]. split; [exact Hexpired |].
  intros n c Hnc. unfold d'. rewrite userCooldowns_setCooldown.
  destruct (decide (n = number ∧ c = command)); done.
Qed.

(** X2. A mute lasts up to and including its last millisecond: the user
    counts as muted while the clock has not passed [until]; the first check
    after that answers "not muted" and deletes the record. Other users'
    mutes are not touched. *)
Theorem mute_expiry (now t : Z) (number : string) (minutes : Z) (d : Db.t) :
  let until := (now + minutes * 60 * 1000)%Z in
  let d' := Db.addMute now number minutes d in
  ((t ≤ until)%Z → Database.isMuted t number d' = (true, d'))
  ∧ ((until < t)%Z →
       (Database.isMuted t number d').1 = false
       ∧ Db.muted (Database.isMuted t number d').2 !! number = None)
  ∧ (∀ n, n ≠ number → Db.muted d' !! n = Db.muted d !! n).
Proof.
  intros until d'.
  assert (Hget : Db.muted d' !! number = Some until).
  { unfold d', Db.addMute. cbn [Db.muted Db.set_muted]. by rewrite lookup_insert_eq. }
  split; [| split].
  - intros Hle. unfold Database.isMuted. rewrite Hget.
    destruct (Z.ltb_spec until t); [lia | reflexivity].
  - intros Hlt. unfold Database.isMuted. rewrite Hget.
    destruct (Z.ltb_spec until t); [| lia]. cbn [fst snd].
    split; [reflexivity |]. unfold Database.removeMute.
    cbn [Db.muted Db.set_muted]. by rewrite lookup_delete_eq.
  - intros n Hn. unfold d', Db.addMute. cbn [Db.muted Db.set_muted].
    by rewrite lookup_insert_ne.
Qed.

(** Removing a warning. *)
Lemma getWarnCount_removeWarn (number : string) (d : Db.t) (n : string) :
  Db.getWarnCount (Database.removeWarn number d).2 n
  = if decide (n = number) then Db.getWarnCount d number - 1
    else Db.getWarnCount d n.
Proof.
  unfold Database.removeWarn.
  rewrite Nat.max_0_l.
  destruct (Nat.eqb_spec (Db.getWarnCount d number - 1) 0) as [Hz | Hnz];
    cbn [snd]; unfold Db.getWarnCount at 1; cbn [Db.warned Db.set_warned].
  - destruct (decide (n = number)) as [-> | Hn].
    + rewrite lookup_delete_eq. cbn. lia.
    + by rewrite lookup_delete_ne.
  - destruct (decide (n = number)) as [-> | Hn].
    + by rewrite lookup_insert_eq.
    + by rewrite lookup_insert_ne.
Qed.

Lemma getWarnCount_addWarn_other (number : string) (d : Db.t) (n : string) :
  n ≠ number → Db.getWarnCount (Db.addWarn number d).2 n = Db.getWarnCount d n.
Proof.
  intros Hn. unfold Db.addWarn. cbn [snd]. unfold Db.getWarnCount at 1.
  cbn [Db.warned Db.set_warned]. by rewrite lookup_insert_ne.
Qed.

(** X3. [removeWarn] takes one warning off and stops at zero; it undoes
    an [addWarn] for every user's count; and it never stores a count of
    zero. *)
Theorem removeWarn_undoes_addWarn (number : string) (d : Db.t) :
  (Database.removeWarn number d).1 = Db.getWarnCount d number - 1
  ∧ Db.getWarnCount (Database.removeWarn number d).2 number
    = Db.getWarnCount d number - 1
  ∧ (∀ n, Db.getWarnCount (Database.removeWarn number (Db.addWarn number d).2).2 n
          = Db.getWarnCount d n)
  ∧ Db.warned (Database.removeWarn number d).2 !! number ≠ Some 0.
Proof.
  split; [| split; [| split]].
  - unfold Database.removeWarn. rewrite Nat.max_0_l.
    by destruct (Db.getWarnCount d number - 1 =? 0).
  - rewrite getWarnCount_removeWarn. by destruct (decide (number = number)).
  - intros n. rewrite getWarnCount_removeWarn.
    destruct (decide (n = number)) as [-> | Hn].
    + unfold Db.addWarn. cbn [snd]. unfold Db.getWarnCount at 1.
      cbn [Db.warned Db.set_warned]. rewrite lookup_insert_eq. cbn. lia.
    + by apply getWarnCount_addWarn_other.
  - unfold Database.removeWarn. rewrite Nat.max_0_l.
    destruct (Nat.eqb_spec (Db.getWarnCount d number - 1) 0) as [Hz | Hnz];
      cbn [snd Db.warned Db.set_warned].
    + by rewrite lookup_delete_eq.
    + rewrite lookup_insert_eq. congruence.
Qed.

(** The list operations. *)
Lemma elem_of_spliceFirst_ne (x y : string) (l : list string) :
  y ≠ x → y ∈ Database.spliceFirst x l ↔ y ∈ l.
Proof.
  intros Hne. induction l as [| z l IH]; [reflexivity |].
  cbn [Database.spliceFirst]. destruct (String.eqb_spec z x) as [-> | Hz].
  - rewrite elem_of_cons. split; [auto | intros [Heq | Hin]; [done | exact Hin]].
  - rewrite !elem_of_cons, IH. reflexivity.
Qed.

Lemma spliceFirst_sublist (x : string) (l : list string) :
  Database.spliceFirst x l `sublist_of` l.
Proof.
  induction l as [| z l IH]; [reflexivity |].
  cbn [Database.spliceFirst]. destruct (String.eqb z x).
  - by apply sublist_cons.
  - by apply sublist_skip.
Qed.

Lemma NoDup_spliceFirst (x : string) (l : list string) :
  NoDup l → NoDup (Database.spliceFirst x l) ∧ x ∉ Database.spliceFirst x l.
Proof.
  induction 1 as [| z l Hz Hl IH]; [split; [constructor | apply not_elem_of_nil] |].
  cbn [Database.spliceFirst]. destruct (String.eqb_spec z x) as [-> | Hzx].
  - by split.
  - destruct IH as [IH1 IH2]. split.
    + constructor; [| exact IH1].
      intros Hin. apply Hz. exact (elem_of_sublist _ _ _ Hin (spliceFirst_sublist x l)).
    + rewrite elem_of_cons. intros [Heq | Hin]; [by subst | by apply IH2].
Qed.

Lemma NoDup_push (x : string) (l : list string) :
  NoDup l → x ∉ l → NoDup (Database.push x l).
Proof.
  intros Hl Hx. unfold Database.push. apply NoDup_app.
  split; [exact Hl |]. split; [| apply NoDup_singleton].
  intros y Hy Hy'. apply list_elem_of_singleton in Hy'. by subst.
Qed.

Lemma includes_true (l : list string) (x : string) :
  x ∈ l → includes l x = true.
Proof. intros H. unfold includes. by apply bool_decide_eq_true. Qed.

Lemma includes_false_iff (l : list string) (x : string) :
  includes l x = false ↔ x ∉ l.
Proof. unfold includes. apply bool_decide_eq_false. Qed.

Lemma includes_ext (l k : list string) (x : string) :
  (x ∈ l ↔ x ∈ k) → includes l x = includes k x.
Proof. intros H. unfold includes. by apply bool_decide_ext. Qed.

(** X4. The blacklist behaves as a set as long as it holds no number
    twice, which adding and removing preserve: adding a number puts it on
    the list once (a second add changes nothing and says so), removing it
    takes it off, and no other number is affected. *)
Theorem blacklist_add_remove (number : string) (d : Db.t) :
  NoDup (Db.blacklisted d) →
  let d1 := (Database.addBlacklist number d).2 in
  let d2 := (Database.removeBlacklist number d1).2 in
  Db.isBlacklisted d1 number = true
  ∧ Database.addBlacklist number d1 = (false, d1)
  ∧ (Database.removeBlacklist number d1).1 = true
  ∧ Db.isBlacklisted d2 number = false
  ∧ NoDup (Db.blacklisted d1) ∧ NoDup (Db.blacklisted d2)
  ∧ (∀ n, n ≠ number →
       Db.isBlacklisted d1 n = Db.isBlacklisted d n
       ∧ Db.isBlacklisted d2 n = Db.isBlacklisted d n).
Proof.
  intros Hd d1 d2.
  assert (H1 : number ∈ Db.blacklisted d1
               ∧ NoDup (Db.blacklisted d1)
               ∧ ∀ n, n ≠ number → n ∈ Db.blacklisted d1 ↔ n ∈ Db.blacklisted d).
  { unfold d1, Database.addBlacklist, Database.addTo.
    destruct (includes (Db.blacklisted d) number) eqn:Hin; cbn [snd].
    - apply bool_decide_eq_true in Hin. by repeat split.
    - apply includes_false_iff in Hin.
      cbn [Db.blacklisted Database.set_blacklisted]. unfold Database.push at 1 3.
      split; [| split].
      + apply elem_of_app. right. apply list_elem_of_here.
      + by apply NoDup_push.
      + intros n Hn. rewrite elem_of_app, list_elem_of_singleton. tauto. }
  destruct H1 as (Hin1 & Hnd1 & Hother1).
  assert (Hinc1 : includes (Db.blacklisted d1) number = true) by by apply includes_true.
  assert (H2 : Db.blacklisted d2 = Database.spliceFirst number (Db.blacklisted d1)).
  { unfold d2, Database.removeBlacklist, Database.removeFrom. rewrite Hinc1.
    reflexivity. }
  destruct (NoDup_spliceFirst number _ Hnd1) as [Hnd2 Hout2].
  split; [exact Hinc1 |].
  split; [unfold Database.addBlacklist, Database.addTo; by rewrite Hinc1 |].
  split; [unfold Database.removeBlacklist, Database.removeFrom; by rewrite Hinc1 |].
  split; [unfold Db.isBlacklisted; rewrite H2; by apply includes_false_iff |].
  split; [exact Hnd1 |]. split; [by rewrite H2 |].
  intros n Hn. unfold Db.isBlacklisted. split.
  - apply includes_ext. by apply Hother1.
  - apply includes_ext. rewrite H2, elem_of_spliceFirst_ne by done. by apply Hother1.
Qed.

(** X5. The error log keeps at most 100 entries once it is within that
    bound, and its newest entry is always the error logged last. *)
Theorem errorLog_bounded (message : string) (d : Db.t) :
  length (Db.errorLog d) ≤ 100 →
  length (Db.errorLog (Db.logError message d)) ≤ 100
  ∧ last (Db.errorLog (Db.logError message d)) = Some message
  ∧ (length (Db.errorLog d) < 100 →
     Db.errorLog (Db.logError message d) = Db.errorLog d ++ [message])
  ∧ (length (Db.errorLog d) = 100 →
     Db.errorLog (Db.logError message d) = tail (Db.errorLog d) ++ [message]).
Proof.
  intros Hlen. unfold Db.logError. cbn [Db.errorLog Db.set_errorLog].
  rewrite length_app. cbn [length].
  destruct (Nat.ltb_spec 100 (length (Db.errorLog d) + 1)) as [Hover | Hunder].
  - destruct (Db.errorLog d) as [| e rest] eqn:Hl; [cbn in Hover; lia |].
    cbn [app tail]. cbn [length] in Hlen, Hover.
    rewrite length_app. cbn [length].
    split; [lia |]. split; [apply last_snoc |]. split; [lia | reflexivity].
  - rewrite length_app. cbn [length].
    split; [lia |]. split; [apply last_snoc |]. split; [reflexivity | lia].
Qed.

Lemma getGroupSettings_mode (d : Db.t) (g : string) :
  SettingsSpec.namesMode d → Db.gDefenseMode (Db.getGroupSettings d g) ≠ None.
Proof.
  intros Hd. unfold Db.getGroupSettings.
  destruct (Db.settings d !! g) as [s |] eqn:Hs; [by apply (Hd g) | done].
Qed.

Lemma gDefenseMode_setToggle (key : Database.Toggle) (value : bool)
    (s : Db.GroupSettings) :
  Db.gDefenseMode (Database.setToggle key value s) = Db.gDefenseMode s.
Proof. by destruct key. Qed.

(** X6. The global defense mode never reaches a group: every settings
    object the code stores names a mode of its own (an invariant of all
    writers of settings), the defaults name [NORMAL], and so changing the
    global mode changes the effective mode of no group. *)
Theorem global_defense_mode_is_inert (d : Db.t) :
  SettingsSpec.namesMode d →
  (∀ mode g, Db.effectiveDefenseMode (Db.setDefenseMode mode d) g
             = Db.effectiveDefenseMode d g)
  ∧ (∀ g, Db.settings d !! g = None → Db.effectiveDefenseMode d g = NORMAL)
  ∧ (∀ mode, SettingsSpec.namesMode (Db.setDefenseMode mode d))
  ∧ (∀ g mode, SettingsSpec.namesMode (Db.updateGroupDefenseMode g mode d))
  ∧ (∀ g key value, SettingsSpec.namesMode (Database.updateGroupSetting g key value d))
  ∧ (∀ g, SettingsSpec.namesMode (Database.addProtected g d).2).
Proof.
  intros Hd. split; [| split; [| split; [| split; [| split]]]].
  - intros mode g. unfold Db.effectiveDefenseMode.
    change (Db.getGroupSettings (Db.setDefenseMode mode d) g)
      with (Db.getGroupSettings d g).
    pose proof (getGroupSettings_mode d g Hd) as Hg.
    by destruct (Db.gDefenseMode (Db.getGroupSettings d g)).
  - intros g Hg. unfold Db.effectiveDefenseMode, Db.getGroupSettings. by rewrite Hg.
  - intros mode g s Hs. by apply (Hd g).
  - intros g mode g' s. unfold Db.updateGroupDefenseMode. cbn [Db.settings].
    destruct (decide (g' = g)) as [-> | Hne].
    + rewrite lookup_insert_eq. by intros [= <-].
    + rewrite lookup_insert_ne by done. apply Hd.
  - intros g key value g' s.
    unfold Database.updateGroupSetting, Database.setGroupSettings.
    cbn [Db.settings Database.set_settings].
    destruct (decide (g' = g)) as [-> | Hne].
    + rewrite lookup_insert_eq. intros [= <-]. rewrite gDefenseMode_setToggle.
      by apply getGroupSettings_mode.
    + rewrite lookup_insert_ne by done. apply Hd.
  - intros g g' s. unfold Database.addProtected.
    destruct (includes (Db.protected d) g); cbn [snd]; [apply Hd |].
    unfold Database.setGroupSettings.
    cbn [Db.settings Database.set_settings Database.set_protected].
    destruct (decide (g' = g)) as [-> | Hne].
    + rewrite lookup_insert_eq. by intros [= <-].
    + rewrite lookup_insert_ne by done. apply Hd.
Qed.

(** X7. Protecting a group that was not protected resets it: whatever
    settings were stored for it before, afterwards it has the default
    settings, every module switched on and the mode [NORMAL]. A group that
    is already protected is left as it is, with the answer [false]. *)
Theorem addProtected_resets_settings (groupId : string) (d : Db.t) :
  let d' := (Database.addProtected groupId d).2 in
  Db.isProtected d' groupId = true
  ∧ (Db.isProtected d groupId = true → Database.addProtected groupId d = (false, d))
  ∧ (Db.isProtected d groupId = false →
     (Database.addProtected groupId d).1 = true
     ∧ Db.getGroupSettings d' groupId = Db.getDefaultGroupSettings
     ∧ Db.effectiveDefenseMode d' groupId = NORMAL
     ∧ (∀ i, DefenseEngine.isEnabled i d' groupId = true))
  ∧ (∀ g, g ≠ groupId →
       Db.getGroupSettings d' g = Db.getGroupSettings d g
       ∧ Db.isProtected d' g = Db.isProtected d g).
Proof.
  intros d'. unfold d', Database.addProtected, Db.isProtected.
  destruct (includes (Db.protected d) groupId) eqn:Hin; cbn [fst snd].
  - split; [exact Hin |]. split; [done |]. split; [done |]. by intros g Hg.
  - assert (Hs : Db.getGroupSettings
                   (Database.setGroupSettings groupId Db.getDefaultGroupSettings
                      (Database.set_protected (Database.push groupId) d)) groupId
                 = Db.getDefaultGroupSettings).
    { unfold Db.getGroupSettings, Database.setGroupSettings.
      cbn [Db.settings Database.set_settings]. by rewrite lookup_insert_eq. }
    split; [| split; [done | split]].
    + cbn [Db.protected Database.setGroupSettings Database.set_settings
           Database.set_protected].
      apply includes_true. unfold Database.push. apply elem_of_app. right.
      apply list_elem_of_here.
    + intros _. split; [reflexivity |]. split; [exact Hs |].
      split; [unfold Db.effectiveDefenseMode; by rewrite Hs |].
      intros i. unfold DefenseEngine.isEnabled. rewrite Hs. by destruct i.
    + intros g Hg. split.
      * unfold Db.getGroupSettings, Database.setGroupSettings.
        cbn [Db.settings Database.set_settings Database.set_protected].
        by rewrite lookup_insert_ne.
      * cbn [Db.protected Database.setGroupSettings Database.set_settings
             Database.set_protected].
        apply includes_ext. unfold Database.push.
        rewrite elem_of_app, list_elem_of_singleton. tauto.
Qed.

End DatabaseFacts.

Section DatabaseExamples.

Lemma cooldown_round_trip_witness :
  let d' := Db.setCooldown 20 1000 Sample.member "ping" 0 Sample.database in
  (1000 + 20 * 1000)%Z ≠ 0%Z
  ∧ Db.isOnCooldown 5000 Sample.member "ping" d' = (Some 16000%Z, d').
Proof.
  cbv zeta. split; [lia |].
  apply (proj1 (cooldown_round_trip 20 1000 5000 Sample.member "ping" 0
                  Sample.database ltac:(cbn; lia))).
  cbn. lia.
Defined.

Lemma blacklist_add_remove_witness :
  NoDup (Db.blacklisted Sample.database)
  ∧ Db.isBlacklisted
      (Database.removeBlacklist Sample.member
         (Database.addBlacklist Sample.member Sample.database).2).2
      Sample.member = false.
Proof.
  assert (H : NoDup (Db.blacklisted Sample.database)) by by_evaluation.
  split; [exact H |].
  exact (proj1 (proj2 (proj2 (proj2
           (blacklist_add_remove Sample.member Sample.database H))))).
Defined.

Lemma errorLog_bounded_witness :
  length (Db.errorLog Sample.database) ≤ 100
  ∧ length (Db.errorLog (Db.logError "send failed" Sample.database)) ≤ 100.
Proof.
  assert (H : length (Db.errorLog Sample.database) ≤ 100) by (cbn; lia).
  split; [exact H |].
  exact (proj1 (errorLog_bounded "send failed" Sample.database H)).
Defined.

Lemma global_defense_mode_is_inert_witness :
  SettingsSpec.namesMode Sample.database
  ∧ Db.effectiveDefenseMode (Db.setDefenseMode LOCKDOWN Sample.database) Sample.group
    = Db.effectiveDefenseMode Sample.database Sample.group.
Proof.
  assert (H : SettingsSpec.namesMode Sample.database).
  { intros g s. unfold Sample.database. cbn [Db.settings].
    intros Hs. apply lookup_singleton_Some in Hs as [_ <-]. discriminate. }
  split; [exact H |].
  exact (proj1 (global_defense_mode_is_inert Sample.database H) LOCKDOWN Sample.group).
Defined.

End DatabaseExamples.

(** ** Cooldowns and the rate limit *)

Section RateLimitBound.

Local Open Scope Z_scope.

Variable sender : string.

Lemma length_filter_mono {A} (P Q : A → Prop)
    `{!∀ x, Decision (P x)} `{!∀ x, Decision (Q x)} (l : list A) :
  Forall (λ x, P x → Q x) l → (length (filter P l) ≤ length (filter Q l))%nat.
Proof.
  induction 1 as [| x l Hx Hl IH]; [reflexivity |].
  rewrite !filter_cons.
  destruct (decide (P x)) as [HP | HP], (decide (Q x)) as [HQ | HQ]; cbn [length].
  - lia.
  - by destruct HQ; apply Hx.
  - lia.
  - exact IH.
Qed.

Lemma halfOpenCount_app (T : Z) (l k : list Z) :
  RateWindow.halfOpenCount T (l ++ k)
  = (RateWindow.halfOpenCount T l + RateWindow.halfOpenCount T k)%nat.
Proof. unfold RateWindow.halfOpenCount. by rewrite filter_app, length_app. Qed.

Lemma halfOpenCount_le_recent (T now : Z) (base : list Z) :
  now ≤ T →
  (RateWindow.halfOpenCount T base
   ≤ length (CooldownMiddleware.recent now base))%nat.
Proof.
  intros Hle. unfold RateWindow.halfOpenCount, CooldownMiddleware.recent.
  apply length_filter_mono. apply Forall_forall. intros t _.
  unfold CooldownMiddleware.timeWindow. lia.
Qed.

Lemma requestsAt_window_bound (times : list Z) :
  ∀ (w : World) (base : list Z) (lo : Z),
    Db.isAuthorOrOwner (db w) (jidNumber sender) = false →
    StronglySorted Z.le (lo :: times) →
    (∀ T, lo ≤ T →
       CooldownMiddleware.recent T (RateWindow.stored w sender)
       = CooldownMiddleware.recent T base) →
    (∀ T, (RateWindow.halfOpenCount T base ≤ CooldownMiddleware.maxRequests)%nat) →
    ∀ T, (RateWindow.halfOpenCount T
            (base ++ (RateWindow.requestsAt times sender w).1)
          ≤ CooldownMiddleware.maxRequests)%nat.
Proof.
  induction times as [| now later IH]; intros w base lo Hw Hsorted Hbase Hbound T.
  - cbn [RateWindow.requestsAt fst]. rewrite app_nil_r. apply Hbound.
  - apply StronglySorted_inv in Hsorted as [Hsorted Hlo].
    apply Forall_cons in Hlo as [Hlonow Hlo].
    cbn [RateWindow.requestsAt].
    pose proof (checkGlobalRateLimit_spec sender now w Hw) as Hspec.
    cbv zeta in Hspec. destruct Hspec as (Hlimited & Hdb & Hstored).
    destruct (CooldownMiddleware.checkGlobalRateLimit now sender w)
      as [limited w1] eqn:Hcheck.
    cbn [fst snd] in Hlimited, Hdb, Hstored.
    assert (Hw1 : Db.isAuthorOrOwner (db w1) (jidNumber sender) = false)
      by by rewrite Hdb.
    assert (Hcount : RateWindow.count now w sender
                     = length (CooldownMiddleware.recent now base)).
    { unfold RateWindow.count. by rewrite Hbase. }
    destruct (RateWindow.requestsAt later sender w1) as [inserted w2] eqn:Hrest.
    cbn [fst].
    rewrite <- Hlimited in Hstored.
    destruct limited.
    + specialize (IH w1 base now Hw1 Hsorted).
      rewrite Hrest in IH. cbn [fst] in IH. apply IH; [| exact Hbound].
      intros T' HT'. rewrite Hstored, app_nil_r, recent_recent by exact HT'.
      apply Hbase. lia.
    + specialize (IH w1 (base ++ [now]) now Hw1 Hsorted).
      rewrite Hrest in IH. cbn [fst] in IH.
      rewrite (cons_middle now base inserted), app_assoc. apply IH.
      * intros T' HT'. rewrite Hstored, !recent_app, recent_recent by exact HT'.
        f_equal. apply Hbase. lia.
      * intros T'. rewrite halfOpenCount_app.
        unfold RateWindow.halfOpenCount at 2.
        rewrite filter_cons, filter_nil.
        destruct (decide (T' - CooldownMiddleware.timeWindow < now ≤ T'))
          as [Hin | Hout]; cbn [length].
        -- symmetry in Hlimited. apply Nat.leb_gt in Hlimited.
           rewrite Hcount in Hlimited.
           pose proof (halfOpenCount_le_recent T' now base (proj2 Hin)). lia.
        -- specialize (Hbound T'). lia.
Qed.

(** X8. The limiter keeps its promise: of the commands of a user who is
    neither author nor owner, at most ten get past the rate limit in any
    window of one minute, however the calls are spaced. *)
Theorem rate_limit_window_bound (w : World) (times : list Z) :
  Db.isAuthorOrOwner (db w) (jidNumber sender) = false →
  RateWindow.stored w sender = [] →
  StronglySorted Z.le times →
  ∀ T, (RateWindow.halfOpenCount T (RateWindow.requestsAt times sender w).1
        ≤ CooldownMiddleware.maxRequests)%nat.
Proof.
  intros Hw Hempty Hsorted T.
  destruct times as [| t0 later]; [cbn; lia |].
  change (RateWindow.requestsAt (t0 :: later) sender w).1
    with ([] ++ (RateWindow.requestsAt (t0 :: later) sender w).1).
  apply (requestsAt_window_bound (t0 :: later) w [] t0 Hw).
  - constructor; [exact Hsorted |].
    apply StronglySorted_inv in Hsorted as [_ Hall].
    constructor; [lia | exact Hall].
  - intros T' _. by rewrite Hempty.
  - intros T'. cbn. lia.
Qed.

End RateLimitBound.

Section CooldownFacts.

Local Open Scope Z_scope.

Lemma sweep_recent (now t : Z) (m : gmap string (list Z)) (k : string) :
  now ≤ t →
  CooldownMiddleware.recent t (default [] (CooldownMaintenance.sweep now m !! k))
  = CooldownMiddleware.recent t (default [] (m !! k)).
Proof.
  intros Hle. unfold CooldownMaintenance.sweep. rewrite lookup_omap.
  destruct (m !! k) as [requests |]; [| reflexivity].
  cbn [mbind option_bind default].
  set (kept := filter _ requests).
  assert (Hkept : CooldownMiddleware.recent t kept
                  = CooldownMiddleware.recent t requests).
  { unfold kept, CooldownMiddleware.recent. clear kept.
    induction requests as [| x l IH]; [reflexivity |].
    rewrite !(filter_cons _ x).
    destruct (decide (now - x < CooldownMaintenance.maxAge)) as [Hx | Hx].
    - rewrite (filter_cons _ x). rewrite IH. reflexivity.
    - rewrite IH.
      destruct (decide (t - x < CooldownMiddleware.timeWindow)) as [Hy | Hy];
        [| reflexivity].
      unfold CooldownMaintenance.maxAge, CooldownMiddleware.timeWindow in *. lia. }
  destruct (Nat.eqb_spec (length kept) 0) as [Hz | Hnz]; cbn [default]; unfold id.
  - rewrite <- Hkept. apply nil_length_inv in Hz. by rewrite Hz.
  - exact Hkept.
Qed.

(** X9. The periodic [cleanup] cannot be observed through the rate
    limit: at any later time the limiter gives the same answer as it would
    have given without the cleanup and, for a user it limits at all, leaves
    the same record. *)
Theorem cleanup_is_invisible (now t : Z) (sender : string) (w : World)
    (spamTracker : gmap string (list Z)) :
  now ≤ t →
  let swept :=
    set_globalCooldowns
      (λ m, (CooldownMaintenance.cleanup now (m, spamTracker)).1) w in
  (CooldownMiddleware.checkGlobalRateLimit t sender swept).1
  = (CooldownMiddleware.checkGlobalRateLimit t sender w).1
  ∧ (Db.isAuthorOrOwner (db w) (jidNumber sender) = false →
     RateWindow.stored (CooldownMiddleware.checkGlobalRateLimit t sender swept).2 sender
     = RateWindow.stored (CooldownMiddleware.checkGlobalRateLimit t sender w).2 sender).
Proof.
  intros Hle swept. unfold CooldownMiddleware.checkGlobalRateLimit.
  change (db swept) with (db w).
  destruct (Db.isAuthorOrOwner (db w) (jidNumber sender)) eqn:Hpriv; cbn [fst snd].
  - split; [reflexivity | discriminate].
  - assert (Hrec : CooldownMiddleware.recent t
                     (default [] (globalCooldowns swept !! jidNumber sender))
                   = CooldownMiddleware.recent t
                       (default [] (globalCooldowns w !! jidNumber sender)))
      by apply (sweep_recent now t _ _ Hle).
    rewrite Hrec.
    destruct (CooldownMiddleware.maxRequests <=? _)%nat; cbn [fst snd];
      (split; [reflexivity |]); intros _; unfold RateWindow.stored;
      cbn [globalCooldowns set_globalCooldowns]; rewrite !lookup_insert_eq;
      reflexivity.
Qed.

(** The inner loop of [clearExpiredCooldowns]. *)
Lemma clear_commands (now : Z) (number : string) (l : list (string * Z)) :
  ∀ (d : Db.t) (n c : string),
    Db.userCooldowns
      (foldl (λ d '(command, timestamp),
                if timestamp <? now then Db.removeCooldown number command d else d)
             d l) n !! c
    = if decide (n = number ∧ Exists (λ e, e.1 = c ∧ e.2 < now) l) then None
      else Db.userCooldowns d n !! c.
Proof.
  induction l as [| [c0 ts0] l IH]; intros d n c.
  - cbn [foldl]. rewrite decide_False; [reflexivity |].
    intros [_ H]. by apply Exists_nil in H.
  - cbn [foldl]. rewrite IH.
    destruct (decide (n = number ∧ Exists (λ e, e.1 = c ∧ e.2 < now) l))
      as [[-> Hex] | Hno].
    + rewrite decide_True; [reflexivity |]. split; [reflexivity |].
      apply Exists_cons. by right.
    + destruct (Z.ltb_spec ts0 now) as [Hexp | Hlive].
      * rewrite userCooldowns_removeCooldown.
        destruct (decide (n = number ∧ c = c0)) as [[-> ->] | Hne].
        -- rewrite decide_True; [reflexivity |]. split; [reflexivity |].
           apply Exists_cons. by left.
        -- rewrite decide_False; [reflexivity |].
           intros [-> Hex]. apply Exists_cons in Hex as [[Hc _] | Hex].
           ++ cbn in Hc. by apply Hne.
           ++ by apply Hno.
      * rewrite decide_False; [reflexivity |].
        intros [-> Hex]. apply Exists_cons in Hex as [[_ Hts] | Hex].
        -- cbn in Hts. lia.
        -- by apply Hno.
Qed.

(** The outer loop. *)
Lemma clear_numbers (now : Z) (L : list (string * gmap string Z)) :
  ∀ (d : Db.t) (n c : string),
    Db.userCooldowns
      (foldl
         (λ d '(number, commands),
            foldl (λ d '(command, timestamp),
                     if timestamp <? now then Db.removeCooldown number command d
                     else d)
                  d (map_to_list commands))
         d L) n !! c
    = if decide
           (Exists (λ p, p.1 = n
                         ∧ Exists (λ e, e.1 = c ∧ e.2 < now) (map_to_list p.2)) L)
      then None
      else Db.userCooldowns d n !! c.
Proof.
  induction L as [| [number commands] L IH]; intros d n c.
  - cbn [foldl]. rewrite decide_False; [reflexivity |].
    intros H. by apply Exists_nil in H.
  - cbn [foldl]. rewrite IH.
    destruct (decide (Exists _ L)) as [Hex | Hno].
    + rewrite decide_True; [reflexivity |]. apply Exists_cons. by right.
    + rewrite clear_commands.
      destruct (decide (n = number
                        ∧ Exists (λ e, e.1 = c ∧ e.2 < now) (map_to_list commands)))
        as [[-> Hex] | Hno'].
      * rewrite decide_True; [reflexivity |]. apply Exists_cons. left. by split.
      * rewrite decide_False; [reflexivity |].
        intros Hex. apply Exists_cons in Hex as [[Hn Hex] | Hex].
        -- cbn in Hn, Hex. by apply Hno'.
        -- by apply Hno.
Qed.

Lemma userCooldowns_clearExpired (now : Z) (d : Db.t) (n c : string) :
  Db.userCooldowns (CooldownMaintenance.clearExpiredCooldowns now d) n !! c
  = match Db.userCooldowns d n !! c with
    | Some ts => if ts <? now then None else Some ts
    | None => None
    end.
Proof.
  unfold CooldownMaintenance.clearExpiredCooldowns. rewrite clear_numbers.
  destruct (decide _) as [Hex | Hno].
  - apply Exists_exists in Hex as ([n' cs] & Hin & Hn & Hex). cbn in Hn, Hex.
    subst n'. apply Exists_exists in Hex as ([c' ts] & Hc & Hc' & Hts).
    cbn in Hc', Hts. subst c'.
    apply elem_of_map_to_list in Hin. apply elem_of_map_to_list in Hc.
    unfold Db.userCooldowns. rewrite Hin. cbn [default]. unfold id. rewrite Hc.
    destruct (Z.ltb_spec ts now); [reflexivity | lia].
  - destruct (Db.userCooldowns d n !! c) as [ts |] eqn:Hc; [| reflexivity].
    destruct (Z.ltb_spec ts now) as [Hexp | Hlive]; [| reflexivity].
    destruct Hno. unfold Db.userCooldowns in Hc.
    destruct (Db.cooldowns d !! n) as [cs |] eqn:Hn; [| done].
    cbn [default] in Hc. unfold id in Hc.
    apply Exists_exists. exists (n, cs). split; [by apply elem_of_map_to_list |].
    split; [reflexivity |]. apply Exists_exists. exists (c, ts).
    split; [by apply elem_of_map_to_list | by split].
Qed.

(** X10. Clearing expired cooldowns is pure maintenance: it removes
    exactly the entries whose time has passed, and no cooldown check made
    afterwards, for any user and command, is answered differently. *)
Theorem clearExpiredCooldowns_is_invisible (now t : Z) (d : Db.t) (n c : string) :
  now ≤ t →
  (Db.isOnCooldown t n c (CooldownMaintenance.clearExpiredCooldowns now d)).1
  = (Db.isOnCooldown t n c d).1
  ∧ (∀ ts, Db.userCooldowns (CooldownMaintenance.clearExpiredCooldowns now d) n !! c
           = Some ts
           ↔ Db.userCooldowns d n !! c = Some ts ∧ now ≤ ts).
Proof.
  intros Hle. split.
  - unfold Db.isOnCooldown. rewrite userCooldowns_clearExpired.
    destruct (Db.userCooldowns d n !! c) as [ts |]; [| reflexivity].
    destruct (Z.ltb_spec ts now) as [Hexp | Hlive].
    + destruct (ts =? 0); [reflexivity |].
      destruct (Z.leb_spec (ts - t) 0); [reflexivity | lia].
    + destruct (ts =? 0); [reflexivity |]. by destruct (ts - t <=? 0).
  - intros ts. rewrite userCooldowns_clearExpired.
    destruct (Db.userCooldowns d n !! c) as [ts' |]; [| by intuition].
    destruct (Z.ltb_spec ts' now) as [Hexp | Hlive].
    + split; [done | intros [[= ->] ?]; lia].
    + split; [intros [= ->]; by split | by intros [? _]].
Qed.

(** The duration that [applyCooldown] hands to [setCooldown] is the one
    that is used: when it is zero, so is the fallback. *)
Lemma getCooldownDuration_fallback (cfg : Config) (command : string) :
  (if CooldownMiddleware.getCooldownDuration cfg command =? 0
   then cooldownCommand cfg
   else CooldownMiddleware.getCooldownDuration cfg command)
  = CooldownMiddleware.getCooldownDuration cfg command.
Proof.
  destruct (Z.eqb_spec (CooldownMiddleware.getCooldownDuration cfg command) 0)
    as [Hz | Hnz]; [| reflexivity].
  rewrite Hz. revert Hz. unfold CooldownMiddleware.getCooldownDuration.
  destruct (filter _ _) as [| [name seconds] rest] eqn:Hf; [done |].
  intros ->.
  assert (Hin : (name, 0) ∈ CooldownMiddleware.customCooldowns).
  { eapply (proj1 (list_elem_of_filter _ _ _)). rewrite Hf. apply list_elem_of_here. }
  exfalso. revert Hin. unfold CooldownMiddleware.customCooldowns.
  rewrite !elem_of_cons, elem_of_nil. intuition discriminate.
Qed.

End CooldownFacts.

Section CooldownExamples.

Local Open Scope Z_scope.

Lemma rate_limit_window_bound_witness :
  let times := [0; 1; 2; 3; 4; 5; 6; 7; 8; 9; 10; 11] in
  Db.isAuthorOrOwner (db Sample.world) (jidNumber (Sample.jid Sample.member)) = false
  ∧ RateWindow.stored Sample.world (Sample.jid Sample.member) = []
  ∧ StronglySorted Z.le times
  ∧ (RateWindow.halfOpenCount 11
       (RateWindow.requestsAt times (Sample.jid Sample.member) Sample.world).1
     ≤ CooldownMiddleware.maxRequests)%nat.
Proof.
  cbv zeta.
  assert (H1 : Db.isAuthorOrOwner (db Sample.world)
                 (jidNumber (Sample.jid Sample.member)) = false)
    by (vm_compute; reflexivity).
  assert (H2 : RateWindow.stored Sample.world (Sample.jid Sample.member) = [])
    by (vm_compute; reflexivity).
  assert (H3 : StronglySorted Z.le [0; 1; 2; 3; 4; 5; 6; 7; 8; 9; 10; 11]).
  { repeat (constructor; [| repeat constructor; lia]). constructor. }
  split; [exact H1 |]. split; [exact H2 |]. split; [exact H3 |].
  exact (rate_limit_window_bound (Sample.jid Sample.member) Sample.world
           [0; 1; 2; 3; 4; 5; 6; 7; 8; 9; 10; 11] H1 H2 H3 11).
Defined.

(** Twelve commands within twelve milliseconds: the last two are held
    back. *)
Example twelve_commands_in_a_row :
  (RateWindow.requestsAt [0; 1; 2; 3; 4; 5; 6; 7; 8; 9; 10; 11]
     (Sample.jid Sample.member) Sample.world).1
  = [0; 1; 2; 3; 4; 5; 6; 7; 8; 9].
Proof. vm_compute. reflexivity. Qed.

Lemma cleanup_is_invisible_witness :
  let w :=
    set_globalCooldowns (λ _, {[ Sample.member := [0; 3590000; 3599000] ]})
      Sample.world in
  3600000 ≤ 3600500
  ∧ (CooldownMiddleware.checkGlobalRateLimit 3600500 (Sample.jid Sample.member)
       (set_globalCooldowns
          (λ m, (CooldownMaintenance.cleanup 3600000 (m, ∅)).1) w)).1
    = (CooldownMiddleware.checkGlobalRateLimit 3600500 (Sample.jid Sample.member) w).1.
Proof.
  cbv zeta. split; [lia |].
  apply (cleanup_is_invisible 3600000 3600500 (Sample.jid Sample.member)). lia.
Defined.

Lemma clearExpiredCooldowns_is_invisible_witness :
  let d := Db.setCooldown 20 1000 Sample.member "ping" 0 Sample.database in
  30000 ≤ 40000
  ∧ (Db.isOnCooldown 40000 Sample.member "ping"
       (CooldownMaintenance.clearExpiredCooldowns 30000 d)).1
    = (Db.isOnCooldown 40000 Sample.member "ping" d).1.
Proof.
  cbv zeta. split; [lia |].
  apply (clearExpiredCooldowns_is_invisible 30000 40000). lia.
Defined.

(** The sweep at work: the expired entry is gone, the live one stays. *)
Example clearExpiredCooldowns_sample :
  let d :=
    Db.setCooldown 20 25000 Sample.owner "ping" 0
      (Db.setCooldown 20 1000 Sample.member "ping" 0 Sample.database) in
  let d' := CooldownMaintenance.clearExpiredCooldowns 30000 d in
  Db.userCooldowns d' Sample.member !! "ping" = None
  ∧ Db.userCooldowns d' Sample.owner !! "ping" = Some 45000.
Proof. cbv zeta. split; vm_compute; reflexivity. Qed.

End CooldownExamples.

(** ** Authorization, continued *)

Section AuthorizationFacts.

(** [checkAuth] as one condition: no ban, the author in SELF mode, and a
    level that is not below the required one. *)
Lemma checkAuth_authorized (d : Db.t) (sender requiredRole : string) :
  AuthMiddleware.authorized (AuthMiddleware.checkAuth d sender requiredRole)
  = negb (Db.isDisabled d (jidNumber sender))
    && negb (Db.isBlacklisted d (jidNumber sender))
    && negb (match Db.getBotMode d with
             | Db.SELF => negb (Db.isAuthor d (jidNumber sender))
             | Db.PUBLIC => false
             end)
    && negb (AuthMiddleware.js_lt
               (AuthMiddleware.roleHierarchy
                  (AuthMiddleware.userRoleOf d (jidNumber sender)))
               (AuthMiddleware.roleHierarchy requiredRole)).
Proof.
  unfold AuthMiddleware.checkAuth, AuthMiddleware.checkRole.
  destruct (Db.isDisabled d _); [reflexivity |].
  destruct (Db.isBlacklisted d _); [reflexivity |].
  destruct (match Db.getBotMode d with Db.PUBLIC => _ | Db.SELF => _ end);
    [reflexivity |].
  by destruct (AuthMiddleware.js_lt _ _).
Qed.

(** X11. Authorization respects the hierarchy author > owner > user:
    whoever may run the commands of a role may run those of every lower
    role, and a required role outside the hierarchy is treated exactly
    like [user]. *)
Theorem authorization_is_monotone (d : Db.t) (sender r1 r2 : string) :
  (∀ l1 l2,
     AuthMiddleware.roleHierarchy r1 = Some l1 →
     AuthMiddleware.roleHierarchy r2 = Some l2 →
     (l2 ≤ l1)%Z →
     AuthMiddleware.authorized (AuthMiddleware.checkAuth d sender r1) = true →
     AuthMiddleware.authorized (AuthMiddleware.checkAuth d sender r2) = true)
  ∧ (AuthMiddleware.roleHierarchy r1 = None →
     AuthMiddleware.authorized (AuthMiddleware.checkAuth d sender r1)
     = AuthMiddleware.authorized (AuthMiddleware.checkAuth d sender "user")).
Proof.
  rewrite !checkAuth_authorized. split.
  - intros l1 l2 H1 H2 Hle. rewrite H1, H2.
    destruct (negb (Db.isDisabled d _) && negb (Db.isBlacklisted d _) && negb _);
      cbn [andb]; [| done].
    destruct (AuthMiddleware.roleHierarchy
                (AuthMiddleware.userRoleOf d (jidNumber sender))) as [u |];
      cbn [AuthMiddleware.js_lt negb]; [| done].
    destruct (Z.ltb_spec u l1), (Z.ltb_spec u l2); cbn [negb];
      [done | done | lia | done].
  - intros Hnone. rewrite Hnone. f_equal.
    unfold AuthMiddleware.userRoleOf.
    destruct (Db.isAuthor d _); [reflexivity |].
    by destruct (Db.isOwner d _).
Qed.

(** X12. Owner rights are granted by [addOwner] and taken back by
    [removeOwner]: a user in good standing who is not an author passes the
    check for owner commands exactly while on the list, and never the check
    for author commands. *)
Theorem owner_grant_and_revoke (d : Db.t) (sender : string) :
  NoDup (Db.owners d) →
  Db.isAuthor d (jidNumber sender) = false →
  Db.isDisabled d (jidNumber sender) = false →
  Db.isBlacklisted d (jidNumber sender) = false →
  Db.getBotMode d = Db.PUBLIC →
  let d1 := (Database.addOwner (jidNumber sender) d).2 in
  let d2 := (Database.removeOwner (jidNumber sender) d1).2 in
  AuthMiddleware.authorized (AuthMiddleware.checkAuth d1 sender "owner") = true
  ∧ AuthMiddleware.authorized (AuthMiddleware.checkAuth d1 sender "author") = false
  ∧ AuthMiddleware.authorized (AuthMiddleware.checkAuth d2 sender "owner") = false
  ∧ AuthMiddleware.authorized (AuthMiddleware.checkAuth d2 sender "user") = true.
Proof.
  intros Hnd Hauthor Hdis Hbl Hmode d1 d2.
  set (n := jidNumber sender) in *.
  assert (H1 : n ∈ Db.owners d1 ∧ NoDup (Db.owners d1)).
  { unfold d1, Database.addOwner, Database.addTo.
    destruct (includes (Db.owners d) n) eqn:Hin; cbn [snd].
    - apply bool_decide_eq_true in Hin. by split.
    - apply includes_false_iff in Hin. cbn [Db.owners Database.set_owners].
      split; [apply elem_of_app; right; apply list_elem_of_here |].
      by apply NoDup_push. }
  destruct H1 as [Hin1 Hnd1].
  assert (Hown1 : Db.isOwner d1 n = true) by by apply includes_true.
  assert (Hown2 : Db.isOwner d2 n = false).
  { unfold d2, Database.removeOwner, Database.removeFrom, Db.isOwner.
    rewrite (includes_true _ _ Hin1). cbn [snd Db.owners Database.set_owners].
    apply includes_false_iff. by apply NoDup_spliceFirst. }
  assert (Hsame : ∀ d', (d' = d1 ∨ d' = d2) →
            Db.isAuthor d' n = false ∧ Db.isDisabled d' n = false
            ∧ Db.isBlacklisted d' n = false ∧ Db.getBotMode d' = Db.PUBLIC).
  { intros d' [-> | ->]; unfold d2, d1, Database.removeOwner, Database.addOwner,
      Database.removeFrom, Database.addTo;
      repeat (match goal with |- context [includes ?l ?x] =>
                destruct (includes l x) end); cbn [snd]; by repeat split. }
  destruct (Hsame d1 (or_introl eq_refl)) as (Ha1 & Hd1 & Hb1 & Hm1).
  destruct (Hsame d2 (or_intror eq_refl)) as (Ha2 & Hd2 & Hb2 & Hm2).
  rewrite !checkAuth_authorized. fold n. unfold AuthMiddleware.userRoleOf.
  rewrite Ha1, Hd1, Hb1, Hm1, Ha2, Hd2, Hb2, Hm2, Hown1, Hown2.
  by repeat split.
Qed.

End AuthorizationFacts.

Section AuthorizationExamples.

Lemma owner_grant_and_revoke_witness :
  let sender := Sample.jid Sample.member in
  let d := Sample.database in
  NoDup (Db.owners d)
  ∧ Db.isAuthor d (jidNumber sender) = false
  ∧ Db.isDisabled d (jidNumber sender) = false
  ∧ Db.isBlacklisted d (jidNumber sender) = false
  ∧ Db.getBotMode d = Db.PUBLIC
  ∧ AuthMiddleware.authorized
      (AuthMiddleware.checkAuth (Database.addOwner (jidNumber sender) d).2
         sender "owner") = true.
Proof.
  cbv zeta.
  assert (H1 : NoDup (Db.owners Sample.database)) by by_evaluation.
  assert (H2 : Db.isAuthor Sample.database
                 (jidNumber (Sample.jid Sample.member)) = false)
    by (vm_compute; reflexivity).
  assert (H3 : Db.isDisabled Sample.database
                 (jidNumber (Sample.jid Sample.member)) = false)
    by (vm_compute; reflexivity).
  assert (H4 : Db.isBlacklisted Sample.database
                 (jidNumber (Sample.jid Sample.member)) = false)
    by (vm_compute; reflexivity).
  assert (H5 : Db.getBotMode Sample.database = Db.PUBLIC) by reflexivity.
  repeat (split; [assumption |]).
  exact (proj1 (owner_grant_and_revoke Sample.database (Sample.jid Sample.member)
                  H1 H2 H3 H4 H5)).
Defined.

End AuthorizationExamples.

(** ** The dispatcher, continued *)

Section DispatcherMoreFacts.

Import CommandManager.

Variable cfg : Config.
Variable table : string → option ValidationMiddleware.Requirements.
Variable registry : Registry.
Variable bot : Bot.

Lemma validateCommand_sound (command : string) (args : list string)
    (info : MessageInfo) (r : ValidationMiddleware.Requirements) :
  table command = Some r →
  ValidationMiddleware.validateCommand table command args info
  = ValidationMiddleware.Valid →
  ValidationSpec.meets r args info.
Proof.
  intros Hr. unfold ValidationMiddleware.validateCommand. rewrite Hr.
  assert (Hbase : ∀ custom : list string,
            (0 <? length
                    (match ValidationMiddleware.minArgs r with
                     | Some (S n) => if length args <? S n then ["minArgs"] else []
                     | _ => []
                     end ++
                     match ValidationMiddleware.maxArgs r with
                     | Some (S n) => if S n <? length args then ["maxArgs"] else []
                     | _ => []
                     end ++
                     (if ValidationMiddleware.groupOnly r && negb (isGroup info)
                      then ["groupOnly"] else []) ++
                     (if ValidationMiddleware.requiresQuoted r && negb (quoted info)
                      then ["requiresQuoted"] else []) ++ custom)) = false →
            custom = []
            ∧ (∀ n, ValidationMiddleware.minArgs r = Some (S n) → S n ≤ length args)
            ∧ (∀ n, ValidationMiddleware.maxArgs r = Some (S n) → length args ≤ S n)
            ∧ (ValidationMiddleware.groupOnly r = true → isGroup info = true)
            ∧ (ValidationMiddleware.requiresQuoted r = true → quoted info = true)).
  { intros custom Hlen. apply Nat.ltb_ge in Hlen. rewrite !length_app in Hlen.
    split; [apply nil_length_inv; lia |]. repeat split.
    - intros n Hmin. rewrite Hmin in Hlen.
      destruct (Nat.ltb_spec (length args) (S n)); [cbn in Hlen; lia | lia].
    - intros n Hmax. rewrite Hmax in Hlen.
      destruct (Nat.ltb_spec (S n) (length args)); [cbn in Hlen; lia | lia].
    - intros Hg. rewrite Hg in Hlen.
      destruct (isGroup info); [reflexivity | cbn in Hlen; lia].
    - intros Hq. rewrite Hq in Hlen.
      destruct (quoted info); [reflexivity | cbn in Hlen; lia]. }
  unfold ValidationSpec.meets.
  destruct (ValidationMiddleware.validate r) as [f |] eqn:Hf.
  - destruct (f args info) as [| errs |] eqn:Hcustom; [| | discriminate].
    + destruct (0 <? length _) eqn:Hlen; [discriminate |]. intros _.
      destruct (Hbase [] Hlen) as (_ & H1 & H2 & H3 & H4).
      repeat (split; [assumption |]). intros f' [= <-]. by left.
    + destruct (0 <? length _) eqn:Hlen; [discriminate |]. intros _.
      destruct (Hbase errs Hlen) as (-> & H1 & H2 & H3 & H4).
      repeat (split; [assumption |]). intros f' [= <-]. by right.
  - destruct (0 <? length _) eqn:Hlen; [discriminate |]. intros _.
    destruct (Hbase [] Hlen) as (_ & H1 & H2 & H3 & H4).
    repeat (split; [assumption |]). intros f' [=].
Qed.

(** X13. A handler runs only after every check has passed: when the
    dispatcher reaches a command's handler, the sender is authorized for
    the command's role, has no cooldown on it, is not rate limited, and the
    arguments and the message meet the requirements declared for the
    command. *)
Theorem handler_requires_all_checks
    (commandName : string) (args : list string) (info : MessageInfo) (now : Z)
    (w : World) (command : Command) :
  let actualCommand := resolveAlias registry commandName in
  commands registry !! actualCommand = Some command →
  let out := execute cfg table registry bot commandName args info now w in
  Handler ∈ out.1.2 →
  let checked := CooldownMiddleware.checkCooldown now (sender info) actualCommand w in
  AuthMiddleware.authorized
    (AuthMiddleware.checkAuth (db w) (sender info) (role command)) = true
  ∧ checked.1 = None
  ∧ ValidationMiddleware.validateCommand table actualCommand args info
    = ValidationMiddleware.Valid
  ∧ (∀ r, table actualCommand = Some r → ValidationSpec.meets r args info)
  ∧ (CooldownMiddleware.checkGlobalRateLimit now (sender info) checked.2).1 = false.
Proof.
  cbv zeta. intros Hreg. unfold execute. rewrite Hreg.
  destruct (AuthMiddleware.authorized _); cbn [negb].
  2: { cbn [fst snd]. rewrite list_elem_of_singleton. discriminate. }
  destruct (CooldownMiddleware.checkCooldown _ _ _ w) as [[remaining |] w1].
  { cbn [fst snd]. rewrite !elem_of_cons, elem_of_nil. intuition discriminate. }
  destruct (ValidationMiddleware.validateCommand _ _ _ _) eqn:Hvalid.
  2, 3: cbn [fst snd]; rewrite !elem_of_cons, elem_of_nil; intuition discriminate.
  cbn [fst snd].
  destruct (CooldownMiddleware.checkGlobalRateLimit _ _ w1) as [[] w2].
  { cbn [fst snd]. rewrite !elem_of_cons, elem_of_nil. intuition discriminate. }
  intros _. split; [reflexivity |]. split; [reflexivity |]. split; [reflexivity |].
  split; [| reflexivity]. intros r Hr. by apply (validateCommand_sound _ _ _ _ Hr).
Qed.

(** The fields that decide authorization. *)
Lemma checkAuth_sameUsers (d' d : Db.t) (sender requiredRole : string) :
  UsersSpec.sameUsers d' d →
  AuthMiddleware.checkAuth d' sender requiredRole
  = AuthMiddleware.checkAuth d sender requiredRole
  ∧ Db.isAuthorOrOwner d' (jidNumber sender) = Db.isAuthorOrOwner d (jidNumber sender).
Proof.
  intros (Ha & Ho & Hb & Hd & Hm).
  unfold AuthMiddleware.checkAuth, AuthMiddleware.checkRole,
    AuthMiddleware.userRoleOf, Db.isAuthorOrOwner, Db.isDisabled, Db.isBlacklisted,
    Db.isAuthor, Db.isOwner, Db.getBotMode.
  by rewrite Ha, Ho, Hb, Hd, Hm.
Qed.

Lemma sameUsers_isOnCooldown (now : Z) (number command : string) (d : Db.t) :
  UsersSpec.sameUsers (Db.isOnCooldown now number command d).2 d.
Proof.
  unfold Db.isOnCooldown.
  destruct (Db.userCooldowns d number !! command) as [cooldown |]; [| by repeat split].
  destruct (cooldown =? 0)%Z; [by repeat split |].
  destruct (cooldown - now <=? 0)%Z; by repeat split.
Qed.

(** What a successful dispatch leaves in the database, for a handler
    that does not touch it. *)
Lemma execute_success_db
    (commandName : string) (args : list string) (info : MessageInfo) (now : Z)
    (w : World) (command : Command) (h : World → World) :
  let actualCommand := resolveAlias registry commandName in
  commands registry !! actualCommand = Some command →
  (∀ wx, cmdExecute command bot args info wx = Returned (h wx)) →
  (∀ wx, db (h wx) = db wx) →
  Db.isAuthorOrOwner (db w) (jidNumber (sender info)) = false →
  (execute cfg table registry bot commandName args info now w).1.1 = true →
  AuthMiddleware.authorized
    (AuthMiddleware.checkAuth (db w) (sender info) (role command)) = true
  ∧ ∃ d1, UsersSpec.sameUsers d1 (db w)
          ∧ db (execute cfg table registry bot commandName args info now w).2
            = Db.setCooldown (cooldownCommand cfg) now (jidNumber (sender info))
                actualCommand
                (CooldownMiddleware.getCooldownDuration cfg actualCommand) d1.
Proof.
  cbv zeta. intros Hreg Hreturns Hkeep Hpriv.
  set (actual := resolveAlias registry commandName) in *.
  unfold execute. fold actual. rewrite Hreg.
  destruct (AuthMiddleware.authorized
              (AuthMiddleware.checkAuth (db w) (sender info) (role command)));
    cbn [negb]; [| cbn [fst]; discriminate].
  assert (Hsame1 : UsersSpec.sameUsers
                     (db (CooldownMiddleware.checkCooldown now (sender info) actual w).2)
                     (db w)).
  { unfold CooldownMiddleware.checkCooldown. rewrite Hpriv.
    destruct (Db.isOnCooldown now (jidNumber (sender info)) actual (db w))
      as [r d1] eqn:Hcd. cbn [snd db set_db].
    change d1 with (r, d1).2. rewrite <- Hcd. apply sameUsers_isOnCooldown. }
  destruct (CooldownMiddleware.checkCooldown now (sender info) actual w)
    as [[remaining |] w1]; [cbn [fst]; discriminate |]. cbn [snd] in Hsame1.
  destruct (ValidationMiddleware.validateCommand table actual args info);
    [| cbn [fst]; discriminate | cbn [fst]; discriminate].
  pose proof (checkGlobalRateLimit_db now (sender info) w1) as [Hr _].
  destruct (CooldownMiddleware.checkGlobalRateLimit now (sender info) w1)
    as [[] w2]; [cbn [fst]; discriminate |]. cbn [snd] in Hr.
  rewrite Hreturns. cbn [fst snd]. intros _. split; [reflexivity |].
  exists (Db.incrementCommandUsage actual (db w1)).
  split; [destruct Hsame1 as (? & ? & ? & ? & ?); by repeat split |].
  unfold CooldownMiddleware.applyCooldown. cbn [db set_db]. rewrite Hkeep, Hr.
  change (Db.isAuthorOrOwner (Db.incrementCommandUsage actual (db w1))
            (jidNumber (sender info)))
    with (Db.isAuthorOrOwner (db w1) (jidNumber (sender info))).
  rewrite (proj2 (checkAuth_sameUsers _ _ (sender info) "user" Hsame1)), Hpriv.
  cbn [db set_db]. by rewrite Hkeep, Hr.
Qed.

(** X14. The cooldown works end to end: once a command of a user who is
    neither author nor owner has run, the same user's next attempt before
    the cooldown has run out is stopped at the cooldown check, with the
    time left as the reason, and the handler does not run again. *)
Theorem repeated_command_is_on_cooldown
    (commandName : string) (args : list string) (info : MessageInfo) (now t : Z)
    (w : World) (command : Command) (h : World → World) :
  let actualCommand := resolveAlias registry commandName in
  let until :=
    (now + CooldownMiddleware.getCooldownDuration cfg actualCommand * 1000)%Z in
  commands registry !! actualCommand = Some command →
  (∀ wx, cmdExecute command bot args info wx = Returned (h wx)) →
  (∀ wx, db (h wx) = db wx) →
  Db.isAuthorOrOwner (db w) (jidNumber (sender info)) = false →
  until ≠ 0%Z →
  (t < until)%Z →
  let first := execute cfg table registry bot commandName args info now w in
  let second := execute cfg table registry bot commandName args info t first.2 in
  first.1.1 = true →
  second.1.1 = false
  ∧ second.1.2 = [AuthCheck; CooldownCheck]
  ∧ ∃ rest,
      outbox second.2
      = outbox first.2
        ++ Send (from info) (CooldownActive actualCommand (until - t)%Z) :: rest.
Proof.
  cbv zeta. intros Hreg Hreturns Hkeep Hpriv Hne Hlt Hok.
  destruct (execute_success_db commandName args info now w command h
              Hreg Hreturns Hkeep Hpriv Hok) as (Hauth & d1 & Hsame1 & Hdb).
  set (actual := resolveAlias registry commandName) in *.
  set (until := (now + CooldownMiddleware.getCooldownDuration cfg actual * 1000)%Z) in *.
  set (w' := (execute cfg table registry bot commandName args info now w).2) in *.
  clearbody w'.
  assert (Hsame : UsersSpec.sameUsers (db w') (db w)).
  { rewrite Hdb. destruct Hsame1 as (? & ? & ? & ? & ?). by repeat split. }
  destruct (checkAuth_sameUsers _ _ (sender info) (role command) Hsame)
    as [Hauth' Hpriv'].
  unfold execute. fold actual. rewrite Hreg, Hauth', Hauth. cbn [negb].
  unfold CooldownMiddleware.checkCooldown. rewrite Hpriv', Hpriv.
  pose proof (isOnCooldown_setCooldown (cooldownCommand cfg) now t
                (jidNumber (sender info)) actual
                (CooldownMiddleware.getCooldownDuration cfg actual) d1) as Hrt.
  cbv zeta in Hrt. rewrite getCooldownDuration_fallback in Hrt.
  destruct (Hrt Hne) as [Hactive _]. rewrite Hdb, (Hactive Hlt).
  cbn [fst snd]. split; [reflexivity |]. split; [reflexivity |].
  match goal with |- context [reject bot info ?text ?wx] =>
    destruct (reject_spec bot info text wx) as (_ & _ & _ & rest & Hout)
  end.
  exists rest. exact Hout.
Qed.

End DispatcherMoreFacts.

(** ** The registry *)

Section RegistryFacts.

Import CommandManager.

Lemma aliases_register (c : Command) (l : list string) :
  ∀ (m : gmap string string) (alias target : string),
    foldl (λ m alias, <[alias := name c]> m) m l !! alias = Some target →
    target = name c ∨ m !! alias = Some target.
Proof.
  induction l as [| a l IH]; intros m alias target; cbn [foldl]; [by right |].
  intros H. apply IH in H as [-> | H]; [by left |].
  destruct (decide (alias = a)) as [-> | Hne].
  - rewrite lookup_insert_eq in H. injection H as <-. by left.
  - rewrite lookup_insert_ne in H by done. by right.
Qed.

Lemma aliasesResolve_register (c : Command) (l : list string) (r : Registry) :
  CommandRegistry.aliasesResolve r →
  CommandRegistry.aliasesResolve (register c l r).
Proof.
  intros Hr alias target. unfold register. cbn [aliases commands].
  intros H. apply aliases_register in H as [-> | H].
  - rewrite lookup_insert_eq. by eexists.
  - destruct (decide (target = name c)) as [-> | Hne].
    + rewrite lookup_insert_eq. by eexists.
    + rewrite lookup_insert_ne by done. by apply (Hr alias).
Qed.

Lemma aliasesNamed_register (c : Command) (l : list string) (r : Registry) :
  name c ≠ "" →
  CommandRegistry.aliasesNamed r →
  CommandRegistry.aliasesNamed (register c l r).
Proof.
  intros Hc Hr alias target. unfold register. cbn [aliases].
  intros H. apply aliases_register in H as [-> | H]; [exact Hc | by apply (Hr alias)].
Qed.

Lemma registerAll_aliases (l : list (Command * list string)) :
  Forall (λ entry, name entry.1 ≠ "") l →
  ∀ r, CommandRegistry.aliasesResolve r ∧ CommandRegistry.aliasesNamed r →
       CommandRegistry.aliasesResolve (CommandRegistry.registerAll l r)
       ∧ CommandRegistry.aliasesNamed (CommandRegistry.registerAll l r).
Proof.
  induction 1 as [| [c al] l Hc _ IH]; intros r [Hr Hn]; [by split |].
  cbn [CommandRegistry.registerAll foldl]. apply IH. split.
  - by apply aliasesResolve_register.
  - by apply aliasesNamed_register.
Qed.

(** X15. As long as every registered command has a name, an alias always
    leads to a registered command, however the commands are registered;
    so the handler's test [has] and the dispatcher's lookup agree: a name
    passes [has] exactly when [get] finds a command for it, which is when
    [execute] gets as far as the authorization check. *)
Theorem registry_lookup_agrees (l : list (Command * list string))
    (cfg : Config) (table : string → option ValidationMiddleware.Requirements)
    (bot : Bot) (commandName : string) (args : list string) (info : MessageInfo)
    (now : Z) (w : World) :
  Forall (λ entry, name entry.1 ≠ "") l →
  let r := CommandRegistry.registerAll l CommandRegistry.empty in
  CommandRegistry.aliasesResolve r
  ∧ resolveAlias r commandName
    = default commandName (aliases r !! commandName)
  ∧ (CommandRegistry.has r commandName = true
     ↔ is_Some (CommandRegistry.get r commandName))
  ∧ (CommandRegistry.has r commandName = true
     ↔ (execute cfg table r bot commandName args info now w).1.2 ≠ []).
Proof.
  intros Hl r.
  destruct (registerAll_aliases l Hl CommandRegistry.empty) as [Hr Hn].
  { split; intros alias target; cbn; by rewrite lookup_empty. }
  fold r in Hr, Hn.
  assert (Hactual : resolveAlias r commandName
                    = default commandName (aliases r !! commandName)).
  { unfold resolveAlias.
    destruct (aliases r !! commandName) as [target |] eqn:Halias; cbn [default];
      [| reflexivity].
    destruct (String.eqb_spec target "") as [-> | _]; [| reflexivity].
    by destruct (Hn commandName "" Halias). }
  assert (Hhas : CommandRegistry.has r commandName = true
                 ↔ is_Some (CommandRegistry.get r commandName)).
  { unfold CommandRegistry.has, CommandRegistry.get. rewrite Hactual.
    rewrite orb_true_iff, !bool_decide_eq_true.
    destruct (aliases r !! commandName) as [target |] eqn:Halias; cbn [default].
    - split; [intros _; by apply (Hr commandName) | intros _; right; by eexists].
    - split; [intros [H | [? [=]]]; exact H | by left]. }
  split; [exact Hr |]. split; [exact Hactual |]. split; [exact Hhas |].
  rewrite Hhas. unfold CommandRegistry.get, execute. rewrite Hactual.
  destruct (commands r !! default commandName (aliases r !! commandName))
    as [command |].
  - split; [intros _ | by eexists].
    destruct (negb _); [done |].
    destruct (CooldownMiddleware.checkCooldown _ _ _ _) as [[remaining |] w1]; [done |].
    destruct (ValidationMiddleware.validateCommand _ _ _ _); [| done | done].
    destruct (CooldownMiddleware.checkGlobalRateLimit _ _ _) as [[] w2]; [done |].
    by destruct (cmdExecute _ _ _ _ _).
  - split; [by intros [? [=]] | done].
Qed.

End RegistryFacts.

Section DispatcherMoreExamples.

Import CommandManager.

Lemma handler_requires_all_checks_witness :
  let info := Sample.directMessage Sample.member (js ".ping") in
  let out :=
    execute defaultConfig Sample.requirements Sample.registry Sample.liveBot
      "ping" [] info 1000 Sample.world in
  commands Sample.registry !! resolveAlias Sample.registry "ping"
    = Some Sample.pingCommand
  ∧ Handler ∈ out.1.2
  ∧ AuthMiddleware.authorized
      (AuthMiddleware.checkAuth (db Sample.world) (sender info)
         (role Sample.pingCommand)) = true.
Proof.
  cbv zeta.
  assert (H1 : commands Sample.registry
                 !! resolveAlias Sample.registry "ping"
               = Some Sample.pingCommand) by (vm_compute; reflexivity).
  assert (H2 : Handler ∈ (execute defaultConfig Sample.requirements Sample.registry
                            Sample.liveBot "ping" []
                            (Sample.directMessage Sample.member (js ".ping"))
                            1000 Sample.world).1.2) by by_evaluation.
  split; [exact H1 |]. split; [exact H2 |].
  exact (proj1 (handler_requires_all_checks defaultConfig Sample.requirements
                  Sample.registry Sample.liveBot "ping" []
                  (Sample.directMessage Sample.member (js ".ping")) 1000
                  Sample.world Sample.pingCommand H1 H2)).
Defined.

Lemma repeated_command_is_on_cooldown_witness :
  let info := Sample.directMessage Sample.member (js ".ping") in
  let h wx :=
    emit (Send (from info) (OtherText "PONG!"))
      (emit (Send (from info) (OtherText "Pinging...")) wx) in
  let first :=
    execute defaultConfig Sample.requirements Sample.registry Sample.liveBot
      "ping" [] info 1000 Sample.world in
  let second :=
    execute defaultConfig Sample.requirements Sample.registry Sample.liveBot
      "ping" [] info 5000 first.2 in
  commands Sample.registry !! resolveAlias Sample.registry "ping"
    = Some Sample.pingCommand
  ∧ (∀ wx, cmdExecute Sample.pingCommand Sample.liveBot [] info wx = Returned (h wx))
  ∧ (∀ wx, db (h wx) = db wx)
  ∧ Db.isAuthorOrOwner (db Sample.world) (jidNumber (sender info)) = false
  ∧ (1000 + CooldownMiddleware.getCooldownDuration defaultConfig "ping" * 1000 ≠ 0)%Z
  ∧ (5000 < 1000 + CooldownMiddleware.getCooldownDuration defaultConfig "ping" * 1000)%Z
  ∧ first.1.1 = true
  ∧ second.1.2 = [AuthCheck; CooldownCheck].
Proof.
  cbv zeta.
  assert (H1 : commands Sample.registry
                 !! resolveAlias Sample.registry "ping"
               = Some Sample.pingCommand) by (vm_compute; reflexivity).
  assert (H2 : ∀ wx,
            cmdExecute Sample.pingCommand Sample.liveBot []
              (Sample.directMessage Sample.member (js ".ping")) wx
            = Returned
                (emit (Send (from (Sample.directMessage Sample.member (js ".ping")))
                         (OtherText "PONG!"))
                   (emit (Send (from (Sample.directMessage Sample.member (js ".ping")))
                            (OtherText "Pinging...")) wx)))
    by (intros wx; reflexivity).
  assert (H3 : ∀ wx,
            db (emit (Send (from (Sample.directMessage Sample.member (js ".ping")))
                        (OtherText "PONG!"))
                  (emit (Send (from (Sample.directMessage Sample.member (js ".ping")))
                           (OtherText "Pinging...")) wx)) = db wx)
    by (intros wx; reflexivity).
  assert (H4 : Db.isAuthorOrOwner (db Sample.world)
                 (jidNumber (sender (Sample.directMessage Sample.member (js ".ping"))))
               = false) by (vm_compute; reflexivity).
  assert (H5 : (1000 + CooldownMiddleware.getCooldownDuration defaultConfig "ping" * 1000
                ≠ 0)%Z) by (vm_compute; discriminate).
  assert (H6 : (5000 < 1000 + CooldownMiddleware.getCooldownDuration defaultConfig "ping"
                              * 1000)%Z) by (vm_compute; reflexivity).
  assert (H7 : (execute defaultConfig Sample.requirements Sample.registry Sample.liveBot
                  "ping" [] (Sample.directMessage Sample.member (js ".ping")) 1000
                  Sample.world).1.1 = true) by (vm_compute; reflexivity).
  repeat (split; [assumption |]).
  exact (proj1 (proj2 (repeated_command_is_on_cooldown defaultConfig Sample.requirements
                         Sample.registry Sample.liveBot "ping" []
                         (Sample.directMessage Sample.member (js ".ping")) 1000 5000
                         Sample.world Sample.pingCommand _ H1 H2 H3 H4 H5 H6 H7))).
Defined.

(** A second ping four seconds after the first. *)
Example ping_twice :
  let info := Sample.directMessage Sample.member (js ".ping") in
  let first :=
    execute defaultConfig Sample.requirements Sample.registry Sample.liveBot
      "ping" [] info 1000 Sample.world in
  let second :=
    execute defaultConfig Sample.requirements Sample.registry Sample.liveBot
      "ping" [] info 5000 first.2 in
  outbox second.2
  = [ Send (Sample.jid Sample.member) (OtherText "Pinging...");
      Send (Sample.jid Sample.member) (OtherText "PONG!");
      Send (Sample.jid Sample.member) (CooldownActive "ping" 16000) ].
Proof. vm_compute. reflexivity. Qed.

Lemma registry_lookup_agrees_witness :
  let l := [(Sample.pingCommand, ["p"])] in
  let r := CommandRegistry.registerAll l CommandRegistry.empty in
  Forall (λ entry, name entry.1 ≠ "") l
  ∧ CommandRegistry.aliasesResolve r
  ∧ resolveAlias r "p" = default "p" (aliases r !! "p")
  ∧ (CommandRegistry.has r "p" = true ↔ is_Some (CommandRegistry.get r "p"))
  ∧ (CommandRegistry.has r "p" = true
     ↔ (execute defaultConfig Sample.requirements r Sample.liveBot "p" []
          (Sample.directMessage Sample.member (js ".p")) 1000 Sample.world).1.2
       ≠ []).
Proof.
  assert (Hl : Forall (λ entry : Command * list string, name entry.1 ≠ "")
                 [(Sample.pingCommand, ["p"])]).
  { repeat constructor. cbn. discriminate. }
  split; [exact Hl |].
  exact (registry_lookup_agrees [(Sample.pingCommand, ["p"])] defaultConfig
           Sample.requirements Sample.liveBot "p" []
           (Sample.directMessage Sample.member (js ".p")) 1000 Sample.world Hl).
Defined.

(** Without a name the agreement is lost: the alias of a command that was
    registered under the empty name passes [has], [get] finds nothing, and
    [execute] returns [false] before any check. *)
Example nameless_command_is_unreachable :
  let r :=
    CommandRegistry.registerAll [(Fixtures.namelessCommand, ["x"])]
      CommandRegistry.empty in
  CommandRegistry.has r "x" = true
  ∧ resolveAlias r "x" = "x"
  ∧ CommandRegistry.get r "x" = None
  ∧ execute defaultConfig Sample.requirements r Sample.liveBot "x" []
      (Sample.directMessage Sample.member (js ".x")) 1000 Sample.world
    = (false, [], Sample.world).
Proof. cbv zeta. repeat split; vm_compute; reflexivity. Qed.

End DispatcherMoreExamples.

(** ** The defense engine, continued *)

Section EngineMoreFacts.

Variable cfg : Config.
Variable builtins : Builtins.
Variable bot : Bot.

Lemma modules_registered : DefenseEngine.modules = DefenseEngine.registered.
Proof. reflexivity. Qed.

Lemma getGroupSettings_updateGroupSetting (key : Database.Toggle) (value : bool)
    (g g' : string) (d : Db.t) :
  Db.getGroupSettings (Database.updateGroupSetting g key value d) g'
  = if decide (g' = g) then Database.setToggle key value (Db.getGroupSettings d g)
    else Db.getGroupSettings d g'.
Proof.
  unfold Database.updateGroupSetting, Database.setGroupSettings.
  generalize (Database.setToggle key value (Db.getGroupSettings d g)). intros s.
  unfold Db.getGroupSettings. cbn [Db.settings Database.set_settings].
  destruct (decide (g' = g)) as [-> | Hg].
  - by rewrite lookup_insert_eq.
  - by rewrite lookup_insert_ne.
Qed.

Lemma isEnabled_updateGroupSetting (i j : DefenseEngine.Instance) (value : bool)
    (g g' : string) (d : Db.t) :
  DefenseEngine.isEnabled j
    (Database.updateGroupSetting g (DefenseAdmin.toggleOf i) value d) g'
  = if decide (g' = g ∧ j = i) then value else DefenseEngine.isEnabled j d g'.
Proof.
  unfold DefenseEngine.isEnabled. rewrite getGroupSettings_updateGroupSetting.
  destruct (decide (g' = g)) as [-> | Hg].
  - destruct (decide (g = g ∧ j = i)) as [[_ ->] | Hne].
    + by destruct i, value.
    + destruct i, j; try reflexivity; by destruct Hne.
  - rewrite decide_False; [reflexivity | by intros [? _]].
Qed.

Lemma checkMessage_consulted (info : MessageInfo) (now : Z) (w : World) :
  let out := DefenseEngine.checkMessage cfg builtins bot info now w in
  (∀ n, n ∈ map fst out.1.2 →
        n ∈ map DefenseEngine.name
              (EngineSpec.enabledIn (db w) (groupId info) DefenseEngine.modules))
  ∧ (∀ n, DefenseEngine.resModule out.1.1 = Some n → (n, true) ∈ out.1.2).
Proof.
  cbv zeta. unfold DefenseEngine.checkMessage.
  destruct (isGroup info && negb _);
    [split; [intros n H; by apply elem_of_nil in H | discriminate] |].
  destruct (Db.isAuthorOrOwner _ _);
    [split; [intros n H; by apply elem_of_nil in H | discriminate] |].
  destruct (String.eqb _ _);
    [split; [intros n H; by apply elem_of_nil in H | discriminate] |].
  match goal with |- context [DefenseEngine.runModules _ _ _ ?ms _ _ ?w1] =>
    pose proof (runModules_spec cfg builtins bot ms info now w1) as Hspec
  end.
  cbv zeta in Hspec. destruct Hspec as [Hblocked Hfree].
  change (db (set_stats _ w)) with (db w) in Hblocked, Hfree.
  destruct (DefenseEngine.runModules _ _ _ _ _ _ _) as [[r consulted] w'].
  cbn [fst snd] in *.
  destruct (DefenseEngine.resBlocked r) eqn:Hr.
  - destruct (Hblocked eq_refl) as (front & n0 & -> & _ & Hmod & Hprefix).
    split.
    + intros n Hn. destruct Hprefix as [rest Hrest]. rewrite Hrest.
      apply elem_of_app. by left.
    + intros n Hn. rewrite Hmod in Hn. injection Hn as <-.
      apply elem_of_app. right. apply list_elem_of_here.
  - destruct (Hfree eq_refl) as (_ & Hmod & Heq). split.
    + intros n Hn. by rewrite <- Heq.
    + intros n Hn. by rewrite Hmod in Hn.
Qed.

Lemma enabledIn_name (d : Db.t) (g n : string) :
  n ∈ map DefenseEngine.name (EngineSpec.enabledIn d g DefenseEngine.modules) →
  ∃ m, m ∈ DefenseEngine.registered ∧ DefenseEngine.name m = n
       ∧ DefenseEngine.isEnabled (DefenseEngine.instance m) d g = true.
Proof.
  rewrite modules_registered. intros Hn.
  apply list_elem_of_fmap in Hn as (m & -> & Hm).
  apply list_elem_of_filter in Hm as [Hen Hm]. by exists m.
Qed.

(** X16. A module that was switched off for a group is out of the loop
    there: [checkMessage] neither consults it nor names it as the module
    that blocked a message. Switching it off leaves the other modules of
    the group, and every switch of every other group, as they were. *)
Theorem disabled_module_is_skipped (moduleName : string) (info : MessageInfo)
    (now : Z) (w : World) (d' : Db.t) :
  DefenseAdmin.disableModule (groupId info) moduleName (db w) = Some d' →
  let out := DefenseEngine.checkMessage cfg builtins bot info now (set_db (λ _, d') w) in
  (moduleName ∉ map fst out.1.2)
  ∧ (∀ verdict, (moduleName, verdict) ∉ out.1.2)
  ∧ (∀ m g, m ∈ DefenseEngine.modules →
       DefenseEngine.name m ≠ moduleName ∨ g ≠ groupId info →
       DefenseEngine.isEnabled (DefenseEngine.instance m) d' g
       = DefenseEngine.isEnabled (DefenseEngine.instance m) (db w) g).
Proof.
  intros Hdis out.
  unfold DefenseAdmin.disableModule in Hdis.
  destruct (DefenseAdmin.findModule moduleName) as [m0 |] eqn:Hfind; [| discriminate].
  injection Hdis as <-.
  assert (Hm0 : m0 ∈ DefenseEngine.registered ∧ DefenseEngine.name m0 = moduleName).
  { unfold DefenseAdmin.findModule in Hfind. rewrite modules_registered in Hfind.
    assert (Hin : m0 ∈ filter (λ m, DefenseEngine.name m = moduleName)
                         DefenseEngine.registered).
    { destruct (filter _ _) as [| x l]; [discriminate |].
      injection Hfind as ->. apply list_elem_of_here. }
    apply list_elem_of_filter in Hin as [Hname Hin]. by split. }
  destruct Hm0 as [Hm0 Hname0].
  assert (Hunique : ∀ m, m ∈ DefenseEngine.registered →
                         DefenseEngine.name m = moduleName →
                         DefenseEngine.instance m = DefenseEngine.instance m0).
  { intros m Hm Hn. rewrite <- Hname0 in Hn. clear - Hm Hm0 Hn.
    unfold DefenseEngine.registered in Hm, Hm0.
    repeat (apply elem_of_cons in Hm as [-> | Hm]);
      try (by apply elem_of_nil in Hm);
      repeat (apply elem_of_cons in Hm0 as [-> | Hm0]);
      try (by apply elem_of_nil in Hm0); first [reflexivity | discriminate]. }
  assert (Hnot : moduleName ∉ map fst out.1.2).
  { intros Hin. apply (proj1 (checkMessage_consulted info now _)) in Hin.
    apply enabledIn_name in Hin as (m & Hm & Hn & Hen).
    rewrite (Hunique m Hm Hn) in Hen. cbn [db set_db] in Hen.
    unfold DefenseAdmin.disable in Hen. rewrite isEnabled_updateGroupSetting in Hen.
    rewrite decide_True in Hen by done. discriminate. }
  split; [exact Hnot |]. split.
  - intros verdict Hin. apply Hnot. apply list_elem_of_fmap.
    by exists (moduleName, verdict).
  - intros m g Hm Hne. unfold DefenseAdmin.disable.
    rewrite isEnabled_updateGroupSetting.
    rewrite decide_False; [reflexivity |].
    intros [-> Hinst]. destruct Hne as [Hne | Hne]; [| done].
    apply Hne. rewrite modules_registered in Hm. rewrite <- Hname0. clear - Hm Hm0 Hinst.
    unfold DefenseEngine.registered in Hm, Hm0.
    repeat (apply elem_of_cons in Hm as [-> | Hm]);
      try (by apply elem_of_nil in Hm);
      repeat (apply elem_of_cons in Hm0 as [-> | Hm0]);
      try (by apply elem_of_nil in Hm0); first [reflexivity | discriminate].
Qed.

Lemma runModules_all_disabled (ms : list DefenseEngine.Module_) (info : MessageInfo)
    (now : Z) (w : World) :
  Forall (λ m, DefenseEngine.isEnabled (DefenseEngine.instance m) (db w)
                 (groupId info) = false) ms →
  DefenseEngine.runModules cfg builtins bot ms info now w
  = (DefenseEngine.notBlocked, [], w).
Proof.
  induction 1 as [| m ms Hm Hms IH]; [reflexivity |].
  cbn [DefenseEngine.runModules]. rewrite Hm. cbn [negb]. exact IH.
Qed.

Lemma isEnabled_disableAllModules (i : DefenseEngine.Instance) (g g' : string)
    (d : Db.t) :
  DefenseEngine.isEnabled i (DefenseAdmin.disableAllModules g d) g'
  = if decide (g' = g) then false else DefenseEngine.isEnabled i d g'.
Proof.
  unfold DefenseAdmin.disableAllModules. rewrite modules_registered.
  cbn [foldl DefenseEngine.registered DefenseEngine.instance].
  unfold DefenseAdmin.disable. rewrite !isEnabled_updateGroupSetting.
  destruct (decide (g' = g)) as [-> | Hg].
  - destruct i; repeat (first [rewrite decide_True by done
                              | rewrite decide_False by (intros [_ [=]])]);
      reflexivity.
  - repeat rewrite decide_False by (by intros [? _]). reflexivity.
Qed.

Lemma isEnabled_enableAllModules (i : DefenseEngine.Instance) (g g' : string)
    (d : Db.t) :
  DefenseEngine.isEnabled i (DefenseAdmin.enableAllModules g d) g'
  = if decide (g' = g) then true else DefenseEngine.isEnabled i d g'.
Proof.
  unfold DefenseAdmin.enableAllModules. rewrite modules_registered.
  cbn [foldl DefenseEngine.registered DefenseEngine.instance].
  unfold DefenseAdmin.enable. rewrite !isEnabled_updateGroupSetting.
  destruct (decide (g' = g)) as [-> | Hg].
  - destruct i; repeat (first [rewrite decide_True by done
                              | rewrite decide_False by (intros [_ [=]])]);
      reflexivity.
  - repeat rewrite decide_False by (by intros [? _]). reflexivity.
Qed.

(** X17. With all modules of a group switched off, no message of the
    group is blocked: [checkMessage] consults no module, sends, deletes and
    kicks nothing and leaves the database alone; a new member is turned
    away only for being blacklisted. Switching all modules on again
    enables each of them. *)
Theorem disableAllModules_stops_moderation (info : MessageInfo) (now : Z)
    (w : World) :
  let g := groupId info in
  let w' := set_db (DefenseAdmin.disableAllModules g) w in
  let out := DefenseEngine.checkMessage cfg builtins bot info now w' in
  DefenseEngine.resBlocked out.1.1 = false
  ∧ out.1.2 = []
  ∧ outbox out.2 = outbox w
  ∧ db out.2 = db w'
  ∧ (∀ participant,
       (DefenseEngine.checkNewMember cfg bot g participant w').1 = true →
       Db.isBlacklisted (db w) (jidNumber participant) = true)
  ∧ (∀ i, DefenseEngine.isEnabled i (DefenseAdmin.enableAllModules g (db w')) g = true).
Proof.
  intros g w' out.
  assert (Hout : out = (DefenseEngine.notBlocked, [], w')
                 ∨ out = (DefenseEngine.notBlocked, [],
                          set_stats (λ s, {| totalChecks := totalChecks s + 1;
                                             statViolations := statViolations s;
                                             blocked := blocked s |}) w')).
  { unfold out, DefenseEngine.checkMessage.
    destruct (isGroup info && negb _); [by left |].
    destruct (Db.isAuthorOrOwner _ _); [by left |].
    destruct (String.eqb _ _); [by left |].
    right. apply runModules_all_disabled. apply Forall_forall. intros m _.
    cbn [db set_stats]. unfold w'. cbn [db set_db].
    rewrite isEnabled_disableAllModules. by rewrite decide_True. }
  assert (Husers : ∀ d, Db.isBlacklisted (DefenseAdmin.disableAllModules g d)
                        = Db.isBlacklisted d) by reflexivity.
  split; [by destruct Hout as [-> | ->] |].
  split; [by destruct Hout as [-> | ->] |].
  split; [by destruct Hout as [-> | ->] |].
  split; [by destruct Hout as [-> | ->] |].
  split.
  - intros participant. unfold DefenseEngine.checkNewMember.
    destruct (negb _); [discriminate |].
    destruct (Db.isAuthorOrOwner _ _); [discriminate |].
    unfold w' at 1. cbn [db set_db]. rewrite Husers.
    destruct (Db.isBlacklisted (db w) (jidNumber participant)); [done |].
    unfold w'. cbn [db set_db]. rewrite isEnabled_disableAllModules.
    rewrite decide_True by done. rewrite andb_false_r. discriminate.
  - intros i. rewrite isEnabled_enableAllModules. by rewrite decide_True.
Qed.

(** No list of modules ever yields a detection by the word filter. *)
Lemma runModules_never_toxic (ms : list DefenseEngine.Module_) (info : MessageInfo)
    (now : Z) :
  ∀ w, ("antiToxic", true)
       ∉ (DefenseEngine.runModules cfg builtins bot ms info now w).1.2.
Proof.
  induction ms as [| m ms IH]; intros w; [apply not_elem_of_nil |].
  cbn [DefenseEngine.runModules].
  destruct (negb _); [apply IH |].
  destruct (DefenseEngine.runModuleDetection cfg builtins m (messageContent info)
              (sender info) now w) as [detection w1] eqn:Hrun.
  destruct (DefenseEngine.detected detection) eqn:Hdet.
  - cbn [fst snd]. rewrite list_elem_of_singleton. intros [= Hname].
    unfold DefenseEngine.runModuleDetection in Hrun. rewrite <- Hname in Hrun.
    cbn in Hrun. injection Hrun as <- _. cbn in Hdet.
    by rewrite antiToxic_detects_nothing in Hdet.
  - specialize (IH w1).
    destruct (DefenseEngine.runModules cfg builtins bot ms info now w1)
      as [[r consulted] w2].
    cbn [fst snd] in *. rewrite elem_of_cons. intros [[= _ [=]] | Hin]. by apply IH.
Qed.

(** X18. The word filter never blocks a message: because normalization
    always fails (its last replacement is not a regular expression),
    [checkMessage] never records a detection by [antiToxic] and never names
    it as the blocking module, whatever the message says. *)
Theorem antiToxic_never_blocks (info : MessageInfo) (now : Z) (w : World) :
  let out := DefenseEngine.checkMessage cfg builtins bot info now w in
  (("antiToxic", true) ∉ out.1.2)
  ∧ DefenseEngine.resModule out.1.1 ≠ Some "antiToxic".
Proof.
  intros out.
  assert (Hnot : ("antiToxic", true) ∉ out.1.2).
  { unfold out, DefenseEngine.checkMessage.
    destruct (isGroup info && negb _); [apply not_elem_of_nil |].
    destruct (Db.isAuthorOrOwner _ _); [apply not_elem_of_nil |].
    destruct (String.eqb _ _); [apply not_elem_of_nil |].
    apply runModules_never_toxic. }
  split; [exact Hnot |]. intros Hmod.
  by apply (proj2 (checkMessage_consulted info now w)) in Hmod.
Qed.

End EngineMoreFacts.

Section EngineMoreExamples.

Lemma disabled_module_is_skipped_witness :
  let info := Sample.groupMessage Sample.member Sample.sixtyAs in
  let d' := DefenseAdmin.disable DefenseEngine.antiVirtex Sample.group Sample.database in
  let out :=
    DefenseEngine.checkMessage defaultConfig Sample.asciiBuiltins Sample.liveBot
      info 1000 (set_db (λ _, d') Sample.world) in
  DefenseAdmin.disableModule (groupId info) "antiVirtex" (db Sample.world) = Some d'
  ∧ ("antiVirtex" ∉ map fst out.1.2).
Proof.
  cbv zeta.
  assert (H : DefenseAdmin.disableModule
                (groupId (Sample.groupMessage Sample.member Sample.sixtyAs))
                "antiVirtex" (db Sample.world)
              = Some (DefenseAdmin.disable DefenseEngine.antiVirtex Sample.group
                        Sample.database)) by reflexivity.
  split; [exact H |].
  exact (proj1 (disabled_module_is_skipped defaultConfig Sample.asciiBuiltins
                  Sample.liveBot "antiVirtex"
                  (Sample.groupMessage Sample.member Sample.sixtyAs) 1000
                  Sample.world _ H)).
Defined.

(** With the flood detector off, sixty letters are caught by the spam
    detector instead. *)
Example flood_without_antiVirtex :
  let d' := DefenseAdmin.disable DefenseEngine.antiVirtex Sample.group Sample.database in
  let out :=
    DefenseEngine.checkMessage defaultConfig Sample.asciiBuiltins Sample.liveBot
      (Sample.groupMessage Sample.member Sample.sixtyAs) 1000
      (set_db (λ _, d') Sample.world) in
  out.1.2 = [("antiToxic", false); ("antiLink", false); ("antiSpam", true)]
  ∧ outbox out.2 = [Send Sample.group (UserMuted "antiSpam" Sample.member 10)].
Proof. cbv zeta. split; vm_compute; reflexivity. Qed.

End EngineMoreExamples.

(** ** New members *)

Section JoinFacts.

Variable cfg : Config.
Variable bot : Bot.

Lemma reception_moderation (d d' : Db.t) (groupId participant : string) :
  JoinSpec.moderation d' = JoinSpec.moderation d →
  JoinSpec.reception cfg d' groupId participant
  = JoinSpec.reception cfg d groupId participant.
Proof.
  intros H.
  change (JoinSpec.reception cfg d' groupId participant)
    with (JoinSpec.reception cfg (JoinSpec.moderation d') groupId participant).
  by rewrite H.
Qed.

Lemma checkNewMember_live (groupId participant : string) (w : World) :
  (∀ e, sockOk bot e = true) →
  let out := DefenseEngine.checkNewMember cfg bot groupId participant w in
  out.1 = negb (JoinSpec.admitted cfg (db w) groupId participant)
  ∧ JoinSpec.moderation (db out.2) = JoinSpec.moderation (db w)
  ∧ outbox out.2
    = outbox w ++ (if JoinSpec.admitted cfg (db w) groupId participant then []
                   else JoinSpec.reception cfg (db w) groupId participant).
Proof.
  intros Hlive. cbv zeta.
  unfold DefenseEngine.checkNewMember, JoinSpec.reception, JoinSpec.admitted.
  destruct (Db.isProtected (db w) groupId); cbn [negb orb];
    [| by rewrite app_nil_r].
  destruct (Db.isAuthorOrOwner (db w) (jidNumber participant)); cbn [orb];
    [by rewrite app_nil_r |].
  destruct (Db.isBlacklisted (db w) (jidNumber participant)); cbn [negb andb].
  - unfold sendMessage, kickParticipant. rewrite Hlive. cbn [fst snd outbox emit db].
    by rewrite <- app_assoc.
  - destruct (GeoRestriction.allowed _) eqn:Hallowed; cbn [negb orb andb];
      [by rewrite app_nil_r |].
    destruct (DefenseEngine.isEnabled _ _ _); cbn [negb];
      [| by rewrite app_nil_r].
    unfold Handlers.geoRestrictionHandle, sendMessage, kickParticipant.
    rewrite Hlive. cbn [fst snd outbox emit db set_db].
    by rewrite <- app_assoc.
Qed.

Lemma joinLoop_live (groupId : string) (participants : list string) :
  (∀ e, sockOk bot e = true) →
  ∀ w,
    outbox (GroupHandler.joinLoop cfg bot groupId participants w)
    = outbox w
      ++ concat (map (JoinSpec.reception cfg (db w) groupId) participants).
Proof.
  intros Hlive. induction participants as [| participant rest IH]; intros w.
  - cbn. by rewrite app_nil_r.
  - cbn [GroupHandler.joinLoop map concat].
    destruct (checkNewMember_live groupId participant w Hlive) as (Hb & Hdb & Hout).
    destruct (DefenseEngine.checkNewMember cfg bot groupId participant w)
      as [blocked w1]. cbn [fst snd] in Hb, Hdb, Hout.
    assert (Hrest : map (JoinSpec.reception cfg (db w1) groupId) rest
                    = map (JoinSpec.reception cfg (db w) groupId) rest).
    { apply map_ext. intros p. by apply reception_moderation. }
    destruct (JoinSpec.admitted cfg (db w) groupId participant) eqn:Hadm;
      subst blocked; cbn [negb].
    + rewrite app_nil_r in Hout. unfold sendMessage. rewrite Hlive.
      rewrite IH. cbn [outbox emit db]. rewrite Hrest, Hout.
      unfold JoinSpec.reception at 2. rewrite Hadm. by rewrite <- app_assoc.
    + rewrite IH, Hrest, Hout. by rewrite <- app_assoc.
Qed.

(** X19. With a working connection, new members of a listed group with
    the welcome message switched on are dealt with one by one, in order:
    whoever [checkNewMember] admits is welcomed, a blacklisted number is
    kicked with the blacklist notice, and any other number is kicked with
    the notice of the geo restriction; nothing else is sent. *)
Theorem join_reception (groupId : string) (participants : list string) (w : World)
    (metadata : GroupMetadata) :
  (∀ e, sockOk bot e = true) →
  Db.isWhitelisted (db w) groupId || Db.isProtected (db w) groupId = true →
  Db.welcome (Db.getGroupSettings (db w) groupId) = Some true →
  groupMetadata bot groupId = Some metadata →
  outbox (GroupHandler.handleParticipantsAdd cfg bot groupId participants w)
  = outbox w ++ concat (map (JoinSpec.reception cfg (db w) groupId) participants).
Proof.
  intros Hlive Hlisted Hwelcome Hmeta.
  unfold GroupHandler.handleParticipantsAdd, GroupHandler.handleMemberJoin.
  apply orb_true_iff in Hlisted.
  destruct (Db.isWhitelisted (db w) groupId), (Db.isProtected (db w) groupId);
    cbn [negb andb]; try (by destruct Hlisted);
    rewrite Hwelcome, Hmeta; by apply joinLoop_live.
Qed.

(** X20. A welcome that cannot be sent ends the handling of the whole
    batch: the participants after the one whose welcome failed are neither
    checked nor kicked nor welcomed, blacklisted or not. *)
Theorem failed_welcome_ends_the_batch (groupId participant : string)
    (rest : list string) (w : World) :
  JoinSpec.admitted cfg (db w) groupId participant = true →
  sockOk bot (Send groupId (WelcomeMessage (jidNumber participant))) = false →
  GroupHandler.joinLoop cfg bot groupId (participant :: rest) w
  = emit (Send groupId (WelcomeMessage (jidNumber participant))) w.
Proof.
  intros Hadm Hfail. cbn [GroupHandler.joinLoop].
  assert (Hcheck : DefenseEngine.checkNewMember cfg bot groupId participant w
                   = (false, w)).
  { revert Hadm. unfold DefenseEngine.checkNewMember, JoinSpec.admitted.
    destruct (Db.isProtected (db w) groupId); cbn [negb orb]; [| done].
    destruct (Db.isAuthorOrOwner (db w) (jidNumber participant)); cbn [orb]; [done |].
    destruct (Db.isBlacklisted (db w) (jidNumber participant)); cbn [negb andb];
      [discriminate |].
    destruct (GeoRestriction.allowed _); cbn [negb orb andb]; [done |].
    by destruct (DefenseEngine.isEnabled _ _ _). }
  rewrite Hcheck. unfold sendMessage. by rewrite Hfail.
Qed.

End JoinFacts.

Section GeoFacts.

(** X21. The whitelist of the geo restriction is kept by cleaned number:
    a number that was added is allowed however it is written afterwards,
    removing it puts it back under the country rule, and neither changes
    the verdict for a number with other digits. *)
Theorem geo_whitelist_round_trip (s : GeoRestriction.State) (p q : string) :
  (GeoRestriction.digitsOnly q = GeoRestriction.digitsOnly p →
   GeoRestriction.allowed (GeoRestriction.detect (GeoAdmin.addToWhitelist p s) q)
   = true
   ∧ GeoRestriction.allowed
       (GeoRestriction.detect
          (GeoAdmin.removeFromWhitelist p (GeoAdmin.addToWhitelist p s)) q)
     = existsb (λ code, String.prefix code (GeoRestriction.digitsOnly q))
         (GeoRestriction.allowedCountries s))
  ∧ (GeoRestriction.digitsOnly q ≠ GeoRestriction.digitsOnly p →
     GeoRestriction.detect (GeoAdmin.addToWhitelist p s) q = GeoRestriction.detect s q
     ∧ GeoRestriction.detect (GeoAdmin.removeFromWhitelist p s) q
       = GeoRestriction.detect s q).
Proof.
  unfold GeoRestriction.detect, GeoAdmin.addToWhitelist, GeoAdmin.removeFromWhitelist.
  cbn [GeoRestriction.whitelist GeoRestriction.allowedCountries].
  split.
  - intros ->. split.
    + rewrite includes_true; [reflexivity |].
      destruct (includes (GeoRestriction.whitelist s) (GeoRestriction.digitsOnly p))
        eqn:Hin.
      * by apply bool_decide_eq_true in Hin.
      * apply elem_of_app. right. apply list_elem_of_here.
    + rewrite (proj2 (includes_false_iff _ _)); [reflexivity |].
      intros Hin. by apply list_elem_of_filter in Hin as [Hne _].
  - intros Hne. split.
    + rewrite (includes_ext _ (GeoRestriction.whitelist s)); [reflexivity |].
      destruct (includes (GeoRestriction.whitelist s) (GeoRestriction.digitsOnly p));
        [reflexivity |].
      rewrite elem_of_app, list_elem_of_singleton. tauto.
    + rewrite (includes_ext _ (GeoRestriction.whitelist s)); [reflexivity |].
      rewrite list_elem_of_filter. tauto.
Qed.

End GeoFacts.

Section JoinExamplesMore.

Lemma join_reception_witness :
  (∀ e, sockOk Sample.liveBot e = true)
  ∧ Db.isWhitelisted (db Sample.world) Sample.group
    || Db.isProtected (db Sample.world) Sample.group = true
  ∧ Db.welcome (Db.getGroupSettings (db Sample.world) Sample.group) = Some true
  ∧ groupMetadata Sample.liveBot Sample.group = Some Sample.metadata
  ∧ outbox (GroupHandler.handleParticipantsAdd defaultConfig Sample.liveBot
              Sample.group [Sample.jid Sample.member; Sample.jid Sample.banned]
              Sample.world)
    = outbox Sample.world
      ++ concat (map (JoinSpec.reception defaultConfig (db Sample.world) Sample.group)
                   [Sample.jid Sample.member; Sample.jid Sample.banned]).
Proof.
  assert (H1 : ∀ e, sockOk Sample.liveBot e = true) by (intros e; reflexivity).
  assert (H2 : Db.isWhitelisted (db Sample.world) Sample.group
               || Db.isProtected (db Sample.world) Sample.group = true)
    by (vm_compute; reflexivity).
  assert (H3 : Db.welcome (Db.getGroupSettings (db Sample.world) Sample.group)
               = Some true) by (vm_compute; reflexivity).
  assert (H4 : groupMetadata Sample.liveBot Sample.group = Some Sample.metadata)
    by reflexivity.
  repeat (split; [assumption |]).
  exact (join_reception defaultConfig Sample.liveBot Sample.group
           [Sample.jid Sample.member; Sample.jid Sample.banned] Sample.world
           Sample.metadata H1 H2 H3 H4).
Defined.

Lemma failed_welcome_ends_the_batch_witness :
  JoinSpec.admitted defaultConfig (db Sample.world) Sample.group
    (Sample.jid Sample.member) = true
  ∧ sockOk Fixtures.unwelcomingBot
      (Send Sample.group (WelcomeMessage (jidNumber (Sample.jid Sample.member))))
    = false
  ∧ GroupHandler.joinLoop defaultConfig Fixtures.unwelcomingBot Sample.group
      [Sample.jid Sample.member; Sample.jid Sample.banned] Sample.world
    = emit (Send Sample.group (WelcomeMessage (jidNumber (Sample.jid Sample.member))))
        Sample.world.
Proof.
  assert (H1 : JoinSpec.admitted defaultConfig (db Sample.world) Sample.group
                 (Sample.jid Sample.member) = true) by (vm_compute; reflexivity).
  assert (H2 : sockOk Fixtures.unwelcomingBot
                 (Send Sample.group
                    (WelcomeMessage (jidNumber (Sample.jid Sample.member))))
               = false) by reflexivity.
  split; [exact H1 |]. split; [exact H2 |].
  exact (failed_welcome_ends_the_batch defaultConfig Fixtures.unwelcomingBot
           Sample.group (Sample.jid Sample.member) [Sample.jid Sample.banned]
           Sample.world H1 H2).
Defined.

End JoinExamplesMore.

(** ** The detectors, continued *)

Section DetectorMoreFacts.

Lemma spam_cleanup_recentOf (st : AntiSpam.Settings) (now t : Z)
    (tracker : AntiSpam.Tracker) (sender : string) :
  (0 ≤ AntiSpam.timeWindow st)%Z →
  (now ≤ t)%Z →
  SpamSpec.recentOf st (SpamMaintenance.cleanup st now tracker) sender t
  = SpamSpec.recentOf st tracker sender t.
Proof.
  intros Hwindow Hle. unfold SpamSpec.recentOf, SpamMaintenance.cleanup.
  rewrite lookup_omap.
  destruct (tracker !! jidNumber sender) as [messages |]; [| reflexivity].
  cbn [mbind option_bind default].
  set (kept := filter _ messages).
  assert (Hkept : filter (λ msg, (t - AntiSpam.timestamp msg < AntiSpam.timeWindow st)%Z)
                    kept
                  = filter (λ msg, (t - AntiSpam.timestamp msg < AntiSpam.timeWindow st)%Z)
                      messages).
  { unfold kept. clear kept.
    induction messages as [| x l IH]; [reflexivity |].
    rewrite !(filter_cons _ x).
    destruct (decide (now - AntiSpam.timestamp x < AntiSpam.timeWindow st * 2)%Z)
      as [Hx | Hx].
    - rewrite (filter_cons _ x). by rewrite IH.
    - rewrite IH. rewrite decide_False; [reflexivity | lia]. }
  destruct (Nat.eqb_spec (length kept) 0) as [Hz | Hnz]; cbn [default]; unfold id.
  - rewrite <- Hkept. apply nil_length_inv in Hz. by rewrite Hz.
  - exact Hkept.
Qed.

(** X22. The periodic cleanup of the spam tracker cannot be observed: a
    message that arrives afterwards gets the verdict it would have got
    without the cleanup, and leaves the same record for its sender. *)
Theorem spam_cleanup_is_invisible (normalize : jsString → jsString)
    (st : AntiSpam.Settings) (now t : Z) (tracker : AntiSpam.Tracker)
    (sender : string) (content : jsString) :
  (0 ≤ AntiSpam.timeWindow st)%Z →
  (now ≤ t)%Z →
  let swept := SpamMaintenance.cleanup st now tracker in
  (AntiSpam.detect normalize st swept sender content t).1
  = (AntiSpam.detect normalize st tracker sender content t).1
  ∧ (AntiSpam.detect normalize st swept sender content t).2 !! jidNumber sender
    = (AntiSpam.detect normalize st tracker sender content t).2 !! jidNumber sender.
Proof.
  intros Hwindow Hle swept. rewrite !spam_detect_verdict. cbv zeta. cbn [fst snd].
  unfold swept. rewrite (spam_cleanup_recentOf st now t tracker sender Hwindow Hle).
  split; [reflexivity |]. by rewrite !lookup_insert_eq.
Qed.

(** X23. What the flood detector reports: a detection always carries the
    severity medium, high or critical (with the length limit at its
    default of 250 or above, never low), a pass carries none; so in NORMAL
    mode a flood is answered with a kick exactly when it is critical, and
    with a warning otherwise. *)
Theorem virtex_severity (st : AntiVirtex.Settings) (s : AntiVirtex.State)
    (message : jsString) :
  250 ≤ AntiVirtex.maxLength st →
  let v := (AntiVirtex.detect st s message).1 in
  (AntiVirtex.detected v = true →
   AntiVirtex.severity v ∈ [Some medium; Some high; Some critical])
  ∧ (AntiVirtex.detected v = false →
     AntiVirtex.severity v = None ∧ AntiVirtex.type v = Some AntiVirtex.none)
  ∧ (AntiVirtex.detected v = true →
     AntiVirtex.determineAction (AntiVirtex.severity v) NORMAL
     = if decide (AntiVirtex.severity v = Some critical) then kick else warn).
Proof.
  intros Hmax. cbv zeta.
  assert (Hcases :
    (AntiVirtex.detected (AntiVirtex.detect st s message).1 = false
     ∧ AntiVirtex.severity (AntiVirtex.detect st s message).1 = None
     ∧ AntiVirtex.type (AntiVirtex.detect st s message).1 = Some AntiVirtex.none)
    ∨ (AntiVirtex.detected (AntiVirtex.detect st s message).1 = true
       ∧ AntiVirtex.severity (AntiVirtex.detect st s message).1
         ∈ [Some medium; Some high; Some critical])).
  { unfold AntiVirtex.detect. destruct message as [| c rest]; [by left |].
    set (message := c :: rest).
    destruct (AntiVirtex.detected (AntiVirtex.checkLength st message)) eqn:H1.
    { right. cbn [fst]. split; [exact H1 |].
      revert H1. unfold AntiVirtex.checkLength.
      destruct (Nat.ltb_spec (AntiVirtex.maxLength st) (length message)) as [Hlong |];
        [intros _ | discriminate].
      cbn [AntiVirtex.severity]. unfold AntiVirtex.calculateLengthSeverity.
      destruct (1000 <? length message); [set_solver |].
      destruct (500 <? length message); [set_solver |].
      destruct (Nat.ltb_spec 250 (length message)); [set_solver | lia]. }
    destruct (AntiVirtex.detected (AntiVirtex.checkRepeatedCharacters st message))
      eqn:H2.
    { right. cbn [fst]. split; [exact H2 |].
      revert H2. unfold AntiVirtex.checkRepeatedCharacters.
      destruct (0 <? _); [| discriminate].
      destruct (_ <=? _); [intros _; cbn; set_solver | discriminate]. }
    destruct (AntiVirtex.detected (AntiVirtex.checkEmojiFlood st message)) eqn:H3.
    { right. cbn [fst]. split; [exact H3 |].
      revert H3. unfold AntiVirtex.checkEmojiFlood.
      destruct (_ <=? _); [intros _; cbn; set_solver | discriminate]. }
    destruct (AntiVirtex.detected (AntiVirtex.checkInvisibleCharacters st message))
      eqn:H4.
    { right. cbn [fst]. split; [exact H4 |].
      revert H4. unfold AntiVirtex.checkInvisibleCharacters.
      destruct (_ <=? _); [intros _; cbn; set_solver | discriminate]. }
    unfold AntiVirtex.checkVirtexPatterns.
    destruct (AntiVirtex.testPatterns AntiVirtex.virtexPatterns s message)
      as [[] s']; cbn [AntiVirtex.detected fst].
    - right. split; [reflexivity |]. cbn. set_solver.
    - by left. }
  destruct Hcases as [(Hd & Hs & Ht) | (Hd & Hs)]; rewrite Hd.
  - split; [discriminate |]. split; [by intros _ | discriminate].
  - split; [by intros _ |]. split; [discriminate |]. intros _.
    rewrite !elem_of_cons, elem_of_nil in Hs.
    destruct Hs as [-> | [-> | [-> | []]]]; reflexivity.
Qed.

Section Links.

Variable toLowerCase : jsString → jsString.
Variable patternMatches : jsString → list jsString.

Lemma collectLinks_from (matches : list jsString) :
  ∀ acc,
    NoDup acc →
    let found :=
      foldl (λ foundLinks link,
               let isWhitelisted :=
                 existsb (λ domain, AntiLink.jsIncludes (toLowerCase link) domain)
                   AntiLink.whitelist in
               if negb isWhitelisted && negb (bool_decide (link ∈ foundLinks))
               then foundLinks ++ [link] else foundLinks)
            acc matches in
    NoDup found
    ∧ ∀ link, link ∈ found
              ↔ link ∈ acc
                ∨ (link ∈ matches ∧ LinkSpec.whitelisted toLowerCase link = false).
Proof.
  induction matches as [| m matches IH]; intros acc Hacc; cbv zeta.
  - cbn [foldl]. split; [exact Hacc |]. intros link. rewrite elem_of_nil. tauto.
  - cbn [foldl]. fold (LinkSpec.whitelisted toLowerCase m).
    destruct (LinkSpec.whitelisted toLowerCase m) eqn:Hw; cbn [negb andb].
    + destruct (IH acc Hacc) as [Hnd Hin]. split; [exact Hnd |].
      intros link. rewrite Hin, elem_of_cons.
      split; [tauto |]. intros [H | [[-> | H] Hl]]; [tauto | congruence | tauto].
    + destruct (bool_decide (m ∈ acc)) eqn:Hm; cbn [negb].
      * apply bool_decide_eq_true in Hm.
        destruct (IH acc Hacc) as [Hnd Hin]. split; [exact Hnd |].
        intros link. rewrite Hin, elem_of_cons.
        split; [tauto |]. intros [H | [[-> | H] Hl]]; tauto.
      * apply bool_decide_eq_false in Hm.
        assert (Hacc' : NoDup (acc ++ [m])).
        { apply NoDup_app. split; [exact Hacc |]. split; [| apply NoDup_singleton].
          intros x Hx Hx'. apply list_elem_of_singleton in Hx'. by subst. }
        destruct (IH (acc ++ [m]) Hacc') as [Hnd Hin]. split; [exact Hnd |].
        intros link. rewrite Hin, elem_of_app, list_elem_of_singleton, elem_of_cons.
        split; [| tauto]. intros [[H | ->] | H]; tauto.
Qed.

Lemma collectLinks_spec (matches : list jsString) :
  NoDup (AntiLink.collectLinks toLowerCase matches)
  ∧ ∀ link, link ∈ AntiLink.collectLinks toLowerCase matches
            ↔ link ∈ matches ∧ LinkSpec.whitelisted toLowerCase link = false.
Proof.
  destruct (collectLinks_from matches [] (NoDup_nil_2)) as [Hnd Hin].
  split; [exact Hnd |]. intros link.
  unfold AntiLink.collectLinks. cbv zeta in Hin. rewrite Hin, elem_of_nil. tauto.
Qed.

(** X24. What the link detector reports: exactly the matches of its
    patterns that are not whitelisted, each once; it detects a message
    exactly when there is such a match. *)
Theorem links_detected (message : jsString) :
  0 < length message →
  let v := AntiLink.detect toLowerCase patternMatches message in
  (∀ link, link ∈ AntiLink.links v
           ↔ link ∈ patternMatches message
             ∧ LinkSpec.whitelisted toLowerCase link = false)
  ∧ NoDup (AntiLink.links v)
  ∧ (AntiLink.detected v = true
     ↔ ∃ link, link ∈ patternMatches message
               ∧ LinkSpec.whitelisted toLowerCase link = false).
Proof.
  intros Hlen. destruct message as [| c rest]; [cbn in Hlen; lia |].
  cbv zeta. unfold AntiLink.detect. cbn [AntiLink.links AntiLink.detected].
  destruct (collectLinks_spec (patternMatches (c :: rest))) as [Hnd Hin].
  split; [exact Hin |]. split; [exact Hnd |].
  rewrite Nat.ltb_lt. split.
  - intros Hpos.
    destruct (AntiLink.collectLinks _ _) as [| link l]; [cbn in Hpos; lia |].
    exists link. apply Hin. apply list_elem_of_here.
  - intros (link & Hl). apply Hin in Hl.
    destruct (AntiLink.collectLinks _ _) as [| x l];
      [by apply elem_of_nil in Hl | cbn; lia].
Qed.

Lemma isPrefixOf_app (d post : jsString) : AntiLink.isPrefixOf d (d ++ post) = true.
Proof.
  induction d as [| x d IH]; [reflexivity |].
  cbn [AntiLink.isPrefixOf app]. by rewrite Z.eqb_refl, IH.
Qed.

Lemma jsIncludes_app (pre d post : jsString) :
  AntiLink.jsIncludes (pre ++ d ++ post) d = true.
Proof.
  induction pre as [| x pre IH].
  - cbn [app]. destruct (d ++ post) eqn:Hd; cbn [AntiLink.jsIncludes];
      rewrite <- ?Hd, isPrefixOf_app; reflexivity.
  - cbn [app AntiLink.jsIncludes]. rewrite IH. apply orb_true_r.
Qed.

(** X25. The whitelist is a test for a substring: a link passes as soon
    as a whitelisted domain occurs anywhere in its lower-cased text, be it
    in the host, the path or the query; a message all of whose matches are
    of that kind is not detected. *)
Theorem whitelisted_domain_anywhere (message : jsString) :
  (∀ link, link ∈ patternMatches message →
     ∃ pre domain post,
       domain ∈ AntiLink.whitelist ∧ toLowerCase link = pre ++ domain ++ post) →
  AntiLink.detect toLowerCase patternMatches message = AntiLink.notDetected.
Proof.
  intros Hall. destruct message as [| c rest]; [reflexivity |].
  assert (Hnone : ∀ link, link ∈ patternMatches (c :: rest) →
                          LinkSpec.whitelisted toLowerCase link = true).
  { intros link Hl. destruct (Hall link Hl) as (pre & domain & post & Hd & Heq).
    unfold LinkSpec.whitelisted. apply existsb_exists. exists domain.
    split; [by apply list_elem_of_In |]. rewrite Heq. apply jsIncludes_app. }
  destruct (collectLinks_spec (patternMatches (c :: rest))) as [_ Hin].
  unfold AntiLink.detect.
  destruct (AntiLink.collectLinks toLowerCase (patternMatches (c :: rest)))
    as [| link l]; [reflexivity |].
  exfalso. destruct (proj1 (Hin link) (list_elem_of_here _ _)) as [Hl Hw].
  rewrite (Hnone link Hl) in Hw. discriminate.
Qed.

End Links.

End DetectorMoreFacts.

Section DetectorMoreExamples.

Lemma spam_cleanup_is_invisible_witness :
  (0 ≤ AntiSpam.timeWindow AntiSpam.defaultSettings)%Z
  ∧ (500 ≤ 1000)%Z
  ∧ (AntiSpam.detect Sample.asciiNormalize AntiSpam.defaultSettings
       (SpamMaintenance.cleanup AntiSpam.defaultSettings 500
          (messageTracker Fixtures.busyWorld))
       (Sample.jid Sample.member) (js "hello") 1000).1
    = (AntiSpam.detect Sample.asciiNormalize AntiSpam.defaultSettings
         (messageTracker Fixtures.busyWorld)
         (Sample.jid Sample.member) (js "hello") 1000).1.
Proof.
  assert (H1 : (0 ≤ AntiSpam.timeWindow AntiSpam.defaultSettings)%Z)
    by (vm_compute; discriminate).
  assert (H2 : (500 ≤ 1000)%Z) by lia.
  split; [exact H1 |]. split; [exact H2 |].
  exact (proj1 (spam_cleanup_is_invisible Sample.asciiNormalize
                  AntiSpam.defaultSettings 500 1000 (messageTracker Fixtures.busyWorld)
                  (Sample.jid Sample.member) (js "hello") H1 H2)).
Defined.

Lemma virtex_severity_witness :
  250 ≤ AntiVirtex.maxLength AntiVirtex.defaultSettings
  ∧ (AntiVirtex.detected
       (AntiVirtex.detect AntiVirtex.defaultSettings AntiVirtex.initialState
          Sample.sixtyAs).1 = true →
     AntiVirtex.severity
       (AntiVirtex.detect AntiVirtex.defaultSettings AntiVirtex.initialState
          Sample.sixtyAs).1
     ∈ [Some medium; Some high; Some critical]).
Proof.
  assert (H : 250 ≤ AntiVirtex.maxLength AntiVirtex.defaultSettings) by (cbn; lia).
  split; [exact H |].
  exact (proj1 (virtex_severity AntiVirtex.defaultSettings AntiVirtex.initialState
                  Sample.sixtyAs H)).
Defined.

Lemma links_detected_witness :
  0 < length Fixtures.borrowedDomain
  ∧ NoDup (AntiLink.links
             (AntiLink.detect Sample.asciiLowerCase Fixtures.borrowedDomainMatches
                Fixtures.borrowedDomain)).
Proof.
  assert (H : 0 < length Fixtures.borrowedDomain) by (vm_compute; lia).
  split; [exact H |].
  exact (proj1 (proj2 (links_detected Sample.asciiLowerCase
                         Fixtures.borrowedDomainMatches Fixtures.borrowedDomain H))).
Defined.

Lemma whitelisted_domain_anywhere_witness :
  (∀ link, link ∈ Fixtures.borrowedDomainMatches Fixtures.borrowedDomain →
     ∃ pre domain post,
       domain ∈ AntiLink.whitelist
       ∧ Sample.asciiLowerCase link = pre ++ domain ++ post)
  ∧ AntiLink.detect Sample.asciiLowerCase Fixtures.borrowedDomainMatches
      Fixtures.borrowedDomain
    = AntiLink.notDetected.
Proof.
  assert (H : ∀ link, link ∈ Fixtures.borrowedDomainMatches Fixtures.borrowedDomain →
                ∃ pre domain post,
                  domain ∈ AntiLink.whitelist
                  ∧ Sample.asciiLowerCase link = pre ++ domain ++ post).
  { intros link Hl. unfold Fixtures.borrowedDomainMatches in Hl.
    apply elem_of_cons in Hl as [-> | Hl].
    - exists (js "https://evil.site/?x="), (js "github.com"), [].
      split; [| vm_compute; reflexivity].
      unfold AntiLink.whitelist. do 2 apply list_elem_of_further. apply list_elem_of_here.
    - apply list_elem_of_singleton in Hl as ->.
      exists [], (js "github.com"), [].
      split; [| vm_compute; reflexivity].
      unfold AntiLink.whitelist. do 2 apply list_elem_of_further. apply list_elem_of_here. }
  split; [exact H |].
  exact (whitelisted_domain_anywhere Sample.asciiLowerCase
           Fixtures.borrowedDomainMatches Fixtures.borrowedDomain H).
Defined.

End DetectorMoreExamples.

(** ** The message handler *)

Section MessageHandlerFacts.

Import MessageHandler.

Variable cfg : Config.
Variable builtins : Builtins.
Variable table : string → option ValidationMiddleware.Requirements.
Variable registry : CommandManager.Registry.
Variable bot : Bot.
Variable handleGame : MessageInfo → World → World.

Local Abbreviation handle :=
  (handleMessage cfg builtins table registry bot handleGame).

(** X26. A group that is neither whitelisted nor protected is ignored:
    a message there changes nothing when it is not a command, when it comes
    from the bot itself or from a blacklisted number, and when it comes from
    a sender in good standing (the author included): no command is
    dispatched, nothing is moderated and no game is played. The one thing
    that happens there is the refusal of a command: a disabled sender is
    told of the disabling, and a sender other than the author, while the
    bot is in SELF mode, is told that only the author can use commands. *)
Theorem unlisted_group_is_ignored (info : MessageInfo) (parsed : Parsed) (now : Z)
    (w : World) :
  isGroup info = true →
  Db.isWhitelisted (db w) (groupId info) = false →
  Db.isProtected (db w) (groupId info) = false →
  let number := jidNumber (sender info) in
  let heard :=
    String.eqb (sender info) (selfId bot) = false
    ∧ Db.isBlacklisted (db w) number = false in
  (isCommand parsed = false → handle info parsed now w = w)
  ∧ (String.eqb (sender info) (selfId bot) = true
     ∨ Db.isBlacklisted (db w) number = true →
     handle info parsed now w = w)
  ∧ (MessageSpec.admittedSender bot info w → handle info parsed now w = w)
  ∧ (heard → Db.isDisabled (db w) number = true → isCommand parsed = true →
     handle info parsed now w
     = refuse bot info "Anda telah kena disable oleh author." w)
  ∧ (heard → Db.isDisabled (db w) number = false →
     Db.getBotMode (db w) = Db.SELF → Db.isAuthor (db w) number = false →
     isCommand parsed = true →
     handle info parsed now w
     = refuse bot info "Only the author can use bot commands." w).
Proof.
  intros Hgroup Hwl Hprot. cbv zeta. unfold handleMessage.
  rewrite Hgroup, Hwl, Hprot. cbn [negb andb].
  split; [| split; [| split; [| split]]].
  - intros ->. by repeat case_match.
  - intros [-> | Hbl]; [reflexivity |]. rewrite Hbl. by case_match.
  - intros (-> & -> & -> & [-> | Hauthor]); [reflexivity |].
    rewrite Hauthor. by destruct (Db.getBotMode (db w)).
  - by intros [-> ->] -> ->.
  - by intros [-> ->] -> -> -> ->.
Qed.

Lemma handleMessage_muted (info : MessageInfo) (parsed : Parsed) (now until : Z)
    (w : World) :
  MessageSpec.admittedSender bot info w →
  isGroup info = true →
  Db.isWhitelisted (db w) (groupId info) || Db.isProtected (db w) (groupId info)
    = true →
  Db.muted (db w) !! jidNumber (sender info) = Some until →
  (now ≤ until)%Z →
  handle info parsed now w
  = deleteMessage bot (from info) (messageKey info) (set_db (λ _, db w) w).
Proof.
  intros (Hself & Hbl & Hdis & Hmode) Hgroup Hlisted Hmuted Hle.
  unfold handleMessage. rewrite Hself, Hbl, Hdis.
  assert (Hpass : match Db.getBotMode (db w) with
                  | Db.SELF => negb (Db.isAuthor (db w) (jidNumber (sender info)))
                  | Db.PUBLIC => false
                  end = false).
  { destruct Hmode as [-> | ->]; [reflexivity |]. by destruct (Db.getBotMode (db w)). }
  rewrite Hpass, Hgroup.
  apply orb_true_iff in Hlisted.
  assert (Hl : negb (Db.isWhitelisted (db w) (groupId info))
               && negb (Db.isProtected (db w) (groupId info)) = false).
  { destruct Hlisted as [-> | ->]; [reflexivity | apply andb_false_r]. }
  rewrite Hl. unfold Database.isMuted. rewrite Hmuted.
  destruct (Z.ltb_spec until now); [lia | reflexivity].
Qed.

(** X27. While a mute lasts, the muted user's messages in a listed group
    are deleted and nothing else happens: no module is consulted and no
    command runs, whatever the user's role. *)
Theorem muted_sender_is_deleted (info : MessageInfo) (parsed : Parsed) (now until : Z)
    (w : World) :
  MessageSpec.admittedSender bot info w →
  isGroup info = true →
  Db.isWhitelisted (db w) (groupId info) || Db.isProtected (db w) (groupId info)
    = true →
  Db.muted (db w) !! jidNumber (sender info) = Some until →
  (now ≤ until)%Z →
  outbox (handle info parsed now w)
  = outbox w ++ [Delete (from info) (messageKey info)]
  ∧ db (handle info parsed now w) = db w
  ∧ messageTracker (handle info parsed now w) = messageTracker w
  ∧ globalCooldowns (handle info parsed now w) = globalCooldowns w
  ∧ virtexState (handle info parsed now w) = virtexState w.
Proof.
  intros Hadm Hgroup Hlisted Hmuted Hle.
  rewrite (handleMessage_muted info parsed now until w Hadm Hgroup Hlisted Hmuted Hle).
  by repeat split.
Qed.

(** The database after the spam detector has blocked a message. *)
Lemma runModules_antiSpam (ms : list DefenseEngine.Module_) (info : MessageInfo)
    (now : Z) :
  ∀ w,
    DefenseEngine.resModule
      (DefenseEngine.runModules cfg builtins bot ms info now w).1.1
    = Some "antiSpam" →
    let d' := db (DefenseEngine.runModules cfg builtins bot ms info now w).2 in
    let minutes :=
      AntiSpam.muteDuration (Db.effectiveDefenseMode (db w) (groupId info)) in
    Db.muted d' !! jidNumber (sender info) = Some (now + minutes * 60 * 1000)%Z
    ∧ UsersSpec.sameUsers d' (db w)
    ∧ Db.whitelisted d' = Db.whitelisted (db w)
    ∧ Db.protected d' = Db.protected (db w).
Proof.
  induction ms as [| m ms IH]; intros w; [discriminate |].
  cbn [DefenseEngine.runModules].
  destruct (negb _); [apply IH |].
  pose proof (runModuleDetection_db cfg builtins m (messageContent info)
                (sender info) now w) as Hdb.
  destruct (DefenseEngine.runModuleDetection cfg builtins m (messageContent info)
              (sender info) now w) as [detection w1] eqn:Hrun.
  cbn [snd] in Hdb.
  destruct (DefenseEngine.detected detection) eqn:Hdet.
  - cbn [fst snd DefenseEngine.resModule]. intros [= Hname]. cbv zeta.
    unfold DefenseEngine.runModuleDetection in Hrun. rewrite Hname in Hrun.
    cbn [String.eqb Ascii.eqb Bool.eqb] in Hrun.
    destruct (AntiSpam.detect _ _ _ _ _ _) as [v t] in Hrun.
    injection Hrun as <- <-.
    unfold DefenseEngine.handleViolation. rewrite Hname.
    cbn [String.eqb Ascii.eqb Bool.eqb].
    unfold Handlers.antiSpamHandle, sendMessage.
    cbn [db set_db set_messageTracker set_stats emit].
    destruct (sockOk bot _);
      cbn [db set_db set_messageTracker set_stats emit Db.muted Db.addMute
           Db.set_muted Db.incrementViolation Db.set_violations];
      rewrite lookup_insert_eq; by repeat split.
  - specialize (IH w1). rewrite Hdb in IH.
    destruct (DefenseEngine.runModules cfg builtins bot ms info now w1)
      as [[r consulted] w2].
    cbn [fst snd] in *. exact IH.
Qed.

(** X28. A spammer is silenced: once the spam detector has blocked a
    user's message, every further message of that user in the group is
    deleted unprocessed, commands included, until the mute of the group's
    defense mode has run out. *)
Theorem spammer_is_silenced (info next : MessageInfo) (parsed : Parsed)
    (now t : Z) (w : World) :
  let out := DefenseEngine.checkMessage cfg builtins bot info now w in
  let minutes :=
    AntiSpam.muteDuration (Db.effectiveDefenseMode (db w) (groupId info)) in
  DefenseEngine.resModule out.1.1 = Some "antiSpam" →
  MessageSpec.admittedSender bot info w →
  isGroup info = true →
  sender next = sender info →
  groupId next = groupId info →
  isGroup next = true →
  (t ≤ now + minutes * 60 * 1000)%Z →
  outbox (handle next parsed t out.2)
  = outbox out.2 ++ [Delete (from next) (messageKey next)]
  ∧ db (handle next parsed t out.2) = db out.2.
Proof.
  cbv zeta. intros Hmod Hsender Hgroup Hsame Hg Hgroup' Hle.
  assert (Hrun : Db.isProtected (db w) (groupId info) = true
                 ∧ DefenseEngine.resModule
                     (DefenseEngine.runModules cfg builtins bot DefenseEngine.modules
                        info now
                        (set_stats (λ s, {| totalChecks := totalChecks s + 1;
                                            statViolations := statViolations s;
                                            blocked := blocked s |}) w)).1.1
                   = Some "antiSpam"
                 ∧ DefenseEngine.checkMessage cfg builtins bot info now w
                   = DefenseEngine.runModules cfg builtins bot DefenseEngine.modules
                       info now
                       (set_stats (λ s, {| totalChecks := totalChecks s + 1;
                                           statViolations := statViolations s;
                                           blocked := blocked s |}) w)).
  { revert Hmod. unfold DefenseEngine.checkMessage. rewrite Hgroup.
    destruct (Db.isProtected (db w) (groupId info)); cbn [andb negb];
      [| discriminate].
    destruct (Db.isAuthorOrOwner _ _); [discriminate |].
    destruct (String.eqb _ _); [discriminate |]. by intros H. }
  destruct Hrun as (Hprot & Hmod' & Heq).
  destruct (runModules_antiSpam DefenseEngine.modules info now _ Hmod')
    as (Hmuted & Husers & Hwl & Hpr).
  cbv zeta in Hmuted. change (db (set_stats _ w)) with (db w) in *.
  rewrite <- Heq in Hmuted, Husers, Hwl, Hpr.
  set (w' := (DefenseEngine.checkMessage cfg builtins bot info now w).2) in *.
  clearbody w'.
  assert (Hadm : MessageSpec.admittedSender bot next w').
  { destruct Hsender as (Hself & Hbl & Hdis & Hmode).
    destruct Husers as (Ha & Ho & Hb & Hd & Hm).
    unfold MessageSpec.admittedSender, Db.isBlacklisted, Db.isDisabled, Db.getBotMode,
      Db.isAuthor in *.
    rewrite Hsame, Ha, Hb, Hd, Hm. by repeat split. }
  assert (Hlisted : Db.isWhitelisted (db w') (groupId next)
                    || Db.isProtected (db w') (groupId next) = true).
  { unfold Db.isWhitelisted, Db.isProtected in *. rewrite Hg, Hpr, Hprot.
    apply orb_true_r. }
  rewrite <- Hsame in Hmuted.
  rewrite (handleMessage_muted next parsed t _ w' Hadm Hgroup' Hlisted Hmuted Hle).
  by split.
Qed.

End MessageHandlerFacts.

Section MessageHandlerExamples.

Import MessageHandler.

Local Abbreviation handleSample :=
  (handleMessage defaultConfig Sample.asciiBuiltins Sample.requirements
     Sample.registry Sample.liveBot (λ _ w, w)).

Lemma unlisted_group_is_ignored_witness :
  let parsed := {| isCommand := true; command := "ping"; args := [] |} in
  let info := Fixtures.strayPing Sample.member in
  isGroup info = true
  ∧ Db.isWhitelisted (db Sample.world) (groupId info) = false
  ∧ Db.isProtected (db Sample.world) (groupId info) = false
  ∧ MessageSpec.admittedSender Sample.liveBot info Sample.world
  ∧ handleSample info parsed 1000 Sample.world = Sample.world
  ∧ Db.getBotMode (db Fixtures.selfModeWorld) = Db.SELF
  ∧ Db.isAuthor (db Fixtures.selfModeWorld) (jidNumber (sender info)) = false
  ∧ handleSample info parsed 1000 Fixtures.selfModeWorld
    = refuse Sample.liveBot info "Only the author can use bot commands."
        Fixtures.selfModeWorld
  ∧ outbox (handleSample info parsed 1000 Fixtures.selfModeWorld)
    = [Send (from info) (OtherText "Only the author can use bot commands.")].
Proof.
  cbv zeta.
  assert (H2 : Db.isWhitelisted (db Sample.world)
                 (groupId (Fixtures.strayPing Sample.member)) = false)
    by (vm_compute; reflexivity).
  assert (H3 : Db.isProtected (db Sample.world)
                 (groupId (Fixtures.strayPing Sample.member)) = false)
    by (vm_compute; reflexivity).
  assert (H2' : Db.isWhitelisted (db Fixtures.selfModeWorld)
                  (groupId (Fixtures.strayPing Sample.member)) = false)
    by (vm_compute; reflexivity).
  assert (H3' : Db.isProtected (db Fixtures.selfModeWorld)
                  (groupId (Fixtures.strayPing Sample.member)) = false)
    by (vm_compute; reflexivity).
  assert (H4 : MessageSpec.admittedSender Sample.liveBot
                 (Fixtures.strayPing Sample.member) Sample.world).
  { repeat split; try (vm_compute; reflexivity). left. reflexivity. }
  split; [reflexivity |]. split; [exact H2 |]. split; [exact H3 |].
  split; [exact H4 |].
  pose proof (unlisted_group_is_ignored defaultConfig Sample.asciiBuiltins
                Sample.requirements Sample.registry Sample.liveBot (λ _ w, w)
                (Fixtures.strayPing Sample.member)
                {| isCommand := true; command := "ping"; args := [] |}
                1000 Sample.world eq_refl H2 H3) as Hpublic.
  pose proof (unlisted_group_is_ignored defaultConfig Sample.asciiBuiltins
                Sample.requirements Sample.registry Sample.liveBot (λ _ w, w)
                (Fixtures.strayPing Sample.member)
                {| isCommand := true; command := "ping"; args := [] |}
                1000 Fixtures.selfModeWorld eq_refl H2' H3') as Hself.
  cbv zeta in Hpublic, Hself.
  destruct Hpublic as (_ & _ & Hpublic & _). destruct Hself as (_ & _ & _ & _ & Hself).
  split; [exact (Hpublic H4) |].
  assert (H5 : Db.getBotMode (db Fixtures.selfModeWorld) = Db.SELF) by reflexivity.
  assert (H6 : Db.isAuthor (db Fixtures.selfModeWorld)
                 (jidNumber (sender (Fixtures.strayPing Sample.member))) = false)
    by (vm_compute; reflexivity).
  split; [exact H5 |]. split; [exact H6 |].
  assert (Hrefused :
            handleSample (Fixtures.strayPing Sample.member)
              {| isCommand := true; command := "ping"; args := [] |}
              1000 Fixtures.selfModeWorld
            = refuse Sample.liveBot (Fixtures.strayPing Sample.member)
                "Only the author can use bot commands." Fixtures.selfModeWorld).
  { apply Hself; [split | | | |]; try reflexivity; vm_compute; reflexivity. }
  split; [exact Hrefused |]. rewrite Hrefused. vm_compute. reflexivity.
Defined.

Lemma muted_sender_is_deleted_witness :
  let info := Sample.groupMessage Sample.member (js ".ping") in
  let parsed := {| isCommand := true; command := "ping"; args := [] |} in
  let w := set_db (Db.addMute 0 Sample.member 10) Sample.world in
  MessageSpec.admittedSender Sample.liveBot info w
  ∧ isGroup info = true
  ∧ Db.isWhitelisted (db w) (groupId info) || Db.isProtected (db w) (groupId info)
    = true
  ∧ Db.muted (db w) !! jidNumber (sender info) = Some 600000%Z
  ∧ (1000 ≤ 600000)%Z
  ∧ outbox (handleSample info parsed 1000 w) = outbox w ++ [Delete (from info) (messageKey info)].
Proof.
  cbv zeta.
  assert (H1 : MessageSpec.admittedSender Sample.liveBot
                 (Sample.groupMessage Sample.member (js ".ping"))
                 (set_db (Db.addMute 0 Sample.member 10) Sample.world)).
  { repeat split; try (vm_compute; reflexivity). left. reflexivity. }
  assert (H2 : isGroup (Sample.groupMessage Sample.member (js ".ping")) = true)
    by reflexivity.
  assert (H3 : Db.isWhitelisted
                 (db (set_db (Db.addMute 0 Sample.member 10) Sample.world))
                 (groupId (Sample.groupMessage Sample.member (js ".ping")))
               || Db.isProtected
                    (db (set_db (Db.addMute 0 Sample.member 10) Sample.world))
                    (groupId (Sample.groupMessage Sample.member (js ".ping")))
               = true) by (vm_compute; reflexivity).
  assert (H4 : Db.muted (db (set_db (Db.addMute 0 Sample.member 10) Sample.world))
                 !! jidNumber (sender (Sample.groupMessage Sample.member (js ".ping")))
               = Some 600000%Z) by (vm_compute; reflexivity).
  assert (H5 : (1000 ≤ 600000)%Z) by lia.
  repeat (split; [assumption |]).
  exact (proj1 (muted_sender_is_deleted defaultConfig Sample.asciiBuiltins
                  Sample.requirements Sample.registry Sample.liveBot (λ _ w, w)
                  (Sample.groupMessage Sample.member (js ".ping"))
                  {| isCommand := true; command := "ping"; args := [] |}
                  1000 600000 _ H1 H2 H3 H4 H5)).
Defined.

Lemma spammer_is_silenced_witness :
  let info := Sample.groupMessage Sample.member (js "hello") in
  let next := Sample.groupMessage Sample.member (js ".ping") in
  let parsed := {| isCommand := true; command := "ping"; args := [] |} in
  let out :=
    DefenseEngine.checkMessage defaultConfig Sample.asciiBuiltins Sample.liveBot
      info 1000 Fixtures.busyWorld in
  DefenseEngine.resModule out.1.1 = Some "antiSpam"
  ∧ MessageSpec.admittedSender Sample.liveBot info Fixtures.busyWorld
  ∧ (2000 ≤ 1000 + AntiSpam.muteDuration
                      (Db.effectiveDefenseMode (db Fixtures.busyWorld) (groupId info))
                    * 60 * 1000)%Z
  ∧ outbox (handleSample next parsed 2000 out.2)
    = outbox out.2 ++ [Delete (from next) (messageKey next)].
Proof.
  cbv zeta.
  assert (H1 : DefenseEngine.resModule
                 (DefenseEngine.checkMessage defaultConfig Sample.asciiBuiltins
                    Sample.liveBot (Sample.groupMessage Sample.member (js "hello"))
                    1000 Fixtures.busyWorld).1.1
               = Some "antiSpam") by (vm_compute; reflexivity).
  assert (H2 : MessageSpec.admittedSender Sample.liveBot
                 (Sample.groupMessage Sample.member (js "hello")) Fixtures.busyWorld).
  { repeat split; try (vm_compute; reflexivity). left. reflexivity. }
  assert (H3 : (2000 ≤ 1000 + AntiSpam.muteDuration
                                (Db.effectiveDefenseMode (db Fixtures.busyWorld)
                                   (groupId (Sample.groupMessage Sample.member
                                               (js "hello"))))
                              * 60 * 1000)%Z) by (vm_compute; discriminate).
  repeat (split; [assumption |]).
  exact (proj1 (spammer_is_silenced defaultConfig Sample.asciiBuiltins
                  Sample.requirements Sample.registry Sample.liveBot (λ _ w, w)
                  (Sample.groupMessage Sample.member (js "hello"))
                  (Sample.groupMessage Sample.member (js ".ping"))
                  {| isCommand := true; command := "ping"; args := [] |}
                  1000 2000 Fixtures.busyWorld H1 H2 eq_refl eq_refl eq_refl eq_refl H3)).
Defined.

(** Five messages within a second, then a command: the fifth message is
    answered with a mute, the command is deleted. *)
Example spam_then_command :
  let out :=
    DefenseEngine.checkMessage defaultConfig Sample.asciiBuiltins Sample.liveBot
      (Sample.groupMessage Sample.member (js "hello")) 1000 Fixtures.busyWorld in
  outbox
    (handleSample (Sample.groupMessage Sample.member (js ".ping"))
       {| isCommand := true; command := "ping"; args := [] |} 2000 out.2)
  = [ Send Sample.group (UserMuted "antiSpam" Sample.member 10);
      Delete Sample.group 1 ].
Proof. vm_compute. reflexivity. Qed.

End MessageHandlerExamples.

(** ** The owner's commands *)

Section OwnerCommandFacts.

Import OwnerCommands.

Variable quotedParticipant : option string.
Variable bot : Bot.

Lemma worldOf_reply (info : MessageInfo) (text : string) (w : World) :
  worldOf (reply bot info text w) = emit (Send (from info) (OtherText text)) w.
Proof. unfold reply, sendMessage. by destruct (sockOk bot _). Qed.

Lemma kicksIn_app (l k : list Effect) : kicksIn (l ++ k) = kicksIn l ++ kicksIn k.
Proof. unfold kicksIn. apply filter_app. Qed.

(** X29. The [warn] command counts on the same counter as the automatic
    warnings: it adds one warning to its target, and with the third it
    kicks the target from the group and clears the count. An author or
    owner cannot be its target: the database is left as it is and nobody
    is kicked. *)
Theorem manual_warn_escalates (args : list string) (info : MessageInfo) (w : World) :
  isGroup info = true →
  let target := targetNumber quotedParticipant args in
  let w' := worldOf (warn quotedParticipant bot args info w) in
  let count := Db.getWarnCount (db w) target + 1 in
  String.eqb target "" = false →
  (Db.isAuthorOrOwner (db w) target = false →
     Db.getWarnCount (db w') target = (if 3 <=? count then 0 else count)
     ∧ kicksIn (outbox w')
       = kicksIn (outbox w)
         ++ (if 3 <=? count
             then [Kick (groupId info) [target +:+ "@s.whatsapp.net"]] else []))
  ∧ (Db.isAuthorOrOwner (db w) target = true →
     db w' = db w ∧ kicksIn (outbox w') = kicksIn (outbox w)).
Proof.
  intros Hgroup target w' count Htarget. unfold w', warn. rewrite Hgroup. cbn [negb].
  fold target. rewrite Htarget.
  destruct (Db.isAuthorOrOwner (db w) target).
  - split; [discriminate |]. intros _. rewrite worldOf_reply.
    cbn [db outbox emit]. rewrite kicksIn_app. cbn. by rewrite app_nil_r.
  - split; [| discriminate]. intros _.
    unfold Db.addWarn. fold count. cbn [fst snd].
    destruct (3 <=? count) eqn:Hmax; rewrite worldOf_reply;
      cbn [db outbox emit set_db kickParticipant].
    + split; [apply getWarnCount_resetWarn |].
      rewrite !kicksIn_app. cbn. by rewrite app_nil_r.
    + split.
      * unfold Db.getWarnCount at 1. cbn [Db.warned Db.set_warned].
        by rewrite lookup_insert_eq.
      * rewrite kicksIn_app. cbn. by rewrite !app_nil_r.
Qed.

Section Ban.

Variable cfg : Config.
Variable builtins : Builtins.
Variable table : string → option ValidationMiddleware.Requirements.
Variable registry : CommandManager.Registry.
Variable handleGame : MessageInfo → World → World.

(** X30. The [blacklist] command bans its target: afterwards the target
    is blacklisted, is refused every command, and its messages are dropped
    unanswered. When it joins a protected group whose welcome message is
    switched on (and whose metadata can be read), the join handler kicks it
    and sends the blacklist notice; where the welcome message is off, the
    join handler does nothing, so the target joins unhindered. An author or
    owner cannot be the target. *)
Theorem blacklist_command_bans (args : list string) (info : MessageInfo) (w : World) :
  let target := targetNumber quotedParticipant args in
  let w' := worldOf (blacklist quotedParticipant bot args info w) in
  String.eqb target "" = false →
  (Db.isAuthorOrOwner (db w) target = false →
     Db.isBlacklisted (db w') target = true
     ∧ (∀ sender role, jidNumber sender = target →
          AuthMiddleware.authorized (AuthMiddleware.checkAuth (db w') sender role)
          = false)
     ∧ (∀ message parsed now, jidNumber (sender message) = target →
          MessageHandler.handleMessage cfg builtins table registry bot handleGame
            message parsed now w' = w')
     ∧ (∀ groupId participant metadata,
          jidNumber participant = target →
          Db.isProtected (db w') groupId = true →
          Db.welcome (Db.getGroupSettings (db w') groupId) = Some true →
          groupMetadata bot groupId = Some metadata →
          outbox (GroupHandler.handleParticipantsAdd cfg bot groupId [participant] w')
          = outbox w'
            ++ [Kick groupId [participant]; Send groupId (BlacklistKick target)]
            ++ (if sockOk bot (Send groupId (BlacklistKick target)) then []
                else [Send groupId (WelcomeMessage target)]))
     ∧ (∀ groupId participants,
          Db.welcome (Db.getGroupSettings (db w') groupId) ≠ Some true →
          GroupHandler.handleParticipantsAdd cfg bot groupId participants w' = w'))
  ∧ (Db.isAuthorOrOwner (db w) target = true → db w' = db w).
Proof.
  intros target w' Htarget. unfold w', blacklist. fold target. rewrite Htarget.
  destruct (Db.isAuthorOrOwner (db w) target) eqn:Hpriv.
  - split; [discriminate |]. intros _. by rewrite worldOf_reply.
  - split; [| discriminate]. intros _. rewrite worldOf_reply.
    cbn [db emit set_db].
    set (d' := (Database.addBlacklist target (db w)).2).
    assert (Hbl : Db.isBlacklisted d' target = true).
    { unfold d', Database.addBlacklist, Database.addTo, Db.isBlacklisted.
      destruct (includes (Db.blacklisted (db w)) target) eqn:Hin; cbn [snd];
        [exact Hin |].
      cbn [Db.blacklisted Database.set_blacklisted]. apply includes_true.
      apply elem_of_app. right. apply list_elem_of_here. }
    assert (Hpriv' : Db.isAuthorOrOwner d' target = false).
    { unfold d', Database.addBlacklist, Database.addTo.
      by destruct (includes (Db.blacklisted (db w)) target). }
    split; [exact Hbl |]. split; [| split; [| split]].
    + intros sender role <-. rewrite checkAuth_authorized, Hbl.
      cbn [negb]. by rewrite andb_false_r.
    + intros message parsed now Hs. unfold MessageHandler.handleMessage.
      destruct (String.eqb (sender message) (selfId bot)); [reflexivity |].
      cbn [db emit set_db]. fold d'. by rewrite Hs, Hbl.
    + intros groupId participant metadata Hp Hprot Hwelcome Hmeta.
      unfold GroupHandler.handleParticipantsAdd, GroupHandler.handleMemberJoin.
      cbn [db emit set_db] in Hprot, Hwelcome |- *. fold d' in Hprot, Hwelcome |- *.
      rewrite Hprot, Hwelcome, Hmeta, andb_false_r.
      cbn [GroupHandler.joinLoop]. unfold DefenseEngine.checkNewMember.
      cbn [db emit set_db]. fold d'. rewrite Hprot, Hp, Hpriv', Hbl. cbn [negb].
      unfold sendMessage, kickParticipant.
      destruct (sockOk bot (Send groupId (BlacklistKick target)));
        [| destruct (sockOk bot (Send groupId (WelcomeMessage target)))];
        cbn [outbox emit]; by rewrite <- ?app_assoc.
    + intros groupId participants Hoff.
      unfold GroupHandler.handleParticipantsAdd, GroupHandler.handleMemberJoin.
      destruct (negb _ && negb _); [reflexivity |].
      destruct (Db.welcome _) as [[] |]; congruence.
Qed.

End Ban.

End OwnerCommandFacts.

Section OwnerCommandExamples.

Import OwnerCommands.

Lemma manual_warn_escalates_witness :
  let info := Sample.groupMessage Sample.owner (js ".warn") in
  let args := ["@" +:+ Sample.member] in
  let w := set_db (λ d, (Db.addWarn Sample.member (Db.addWarn Sample.member d).2).2)
             Sample.world in
  isGroup info = true
  ∧ String.eqb (targetNumber None args) "" = false
  ∧ Db.isAuthorOrOwner (db w) (targetNumber None args) = false
  ∧ Db.getWarnCount (db (worldOf (warn None Sample.liveBot args info w)))
      (targetNumber None args) = 0.
Proof.
  cbv zeta. split; [reflexivity |].
  assert (H2 : String.eqb (targetNumber None ["@" +:+ Sample.member]) "" = false)
    by (vm_compute; reflexivity).
  split; [exact H2 |].
  assert (H3 : Db.isAuthorOrOwner
                 (db (set_db (λ d, (Db.addWarn Sample.member
                                      (Db.addWarn Sample.member d).2).2) Sample.world))
                 (targetNumber None ["@" +:+ Sample.member]) = false)
    by (vm_compute; reflexivity).
  split; [exact H3 |].
  exact (proj1 (proj1 (manual_warn_escalates None Sample.liveBot
                         ["@" +:+ Sample.member]
                         (Sample.groupMessage Sample.owner (js ".warn"))
                         _ eq_refl H2) H3)).
Defined.

Lemma blacklist_command_bans_witness :
  let info := Sample.groupMessage Sample.owner (js ".blacklist") in
  let args := ["@" +:+ Sample.member] in
  let w' := worldOf (blacklist None Sample.liveBot args info Sample.world) in
  String.eqb (targetNumber None args) "" = false
  ∧ Db.isAuthorOrOwner (db Sample.world) (targetNumber None args) = false
  ∧ AuthMiddleware.authorized
      (AuthMiddleware.checkAuth (db w') (Sample.jid Sample.member) "user") = false
  ∧ Db.isProtected (db w') Sample.group = true
  ∧ Db.welcome (Db.getGroupSettings (db w') Sample.group) = Some true
  ∧ outbox (GroupHandler.handleParticipantsAdd defaultConfig Sample.liveBot
              Sample.group [Sample.jid Sample.member] w')
    = outbox w'
      ++ [ Kick Sample.group [Sample.jid Sample.member];
           Send Sample.group (BlacklistKick Sample.member) ].
Proof.
  cbv zeta.
  assert (H1 : String.eqb (targetNumber None ["@" +:+ Sample.member]) "" = false)
    by (vm_compute; reflexivity).
  assert (H2 : Db.isAuthorOrOwner (db Sample.world)
                 (targetNumber None ["@" +:+ Sample.member]) = false)
    by (vm_compute; reflexivity).
  split; [exact H1 |]. split; [exact H2 |].
  pose proof (proj1 (blacklist_command_bans None Sample.liveBot defaultConfig
                       Sample.asciiBuiltins Sample.requirements Sample.registry
                       (λ _ w, w) ["@" +:+ Sample.member]
                       (Sample.groupMessage Sample.owner (js ".blacklist"))
                       Sample.world H1) H2) as (_ & Hauth & _ & Hjoin & _).
  split; [apply Hauth; vm_compute; reflexivity |].
  assert (H3 : Db.isProtected
                 (db (worldOf (blacklist None Sample.liveBot ["@" +:+ Sample.member]
                                 (Sample.groupMessage Sample.owner (js ".blacklist"))
                                 Sample.world)))
                 Sample.group = true) by (vm_compute; reflexivity).
  assert (H4 : Db.welcome
                 (Db.getGroupSettings
                    (db (worldOf (blacklist None Sample.liveBot ["@" +:+ Sample.member]
                                    (Sample.groupMessage Sample.owner (js ".blacklist"))
                                    Sample.world)))
                    Sample.group) = Some true) by (vm_compute; reflexivity).
  split; [exact H3 |]. split; [exact H4 |].
  rewrite (Hjoin Sample.group (Sample.jid Sample.member) Sample.metadata
             ltac:(vm_compute; reflexivity) H3 H4 eq_refl).
  vm_compute. reflexivity.
Defined.

End OwnerCommandExamples.
